(* ===== verification/_CoqProject ===== *)
-Q . S2P
Prelude.v
PyStr.v
WordLists.v
Random.v
Generator.v
Output.v
Favorites.v
Shells.v
Machine.v
SessionLogic.v
Session.v
