(* ===== verification/Prelude.v ===== *)
(** * SpySpeak: a verification development of the codename generator

    The repository holds three Python programs that share one core:
    - src/SpySpeak.py, an interactive console shell (menu loop in [main]);
    - src/SpySpeak-cli.py, a command-line tool ([argparse] in [main]);
    - src/SpySpeak-web.py, a Flask service ([/generate], [/api/codenames]).
    Each script carries its own copy of the core: [load_words],
    [load_exclusions], [filter_excluded_words], [generate_codename] (the
    length filter, the pattern engine and the case formatter written
    inline), [format_output], and the favorites file functions.  The
    copies agree except where the files below say otherwise.

    ** Files, in dependency order

    - Prelude.v (this file): the scope [spy_scope] and its notation [+++]
      for Python's string [+]; membership [py_in] (Python's [in] on a
      list of strings); the exceptions the program raises ([py_exc]) and
      the state-and-exception monad [PyM] through which the generator
      threads the random source (an exception carries the random state
      the draws before it reached, as Python's generator keeps it); the
      judgement [succeeds c P] (from every
      state [c] returns a value satisfying [P]); the hint databases [spy]
      and [spy_rw] and the tactics [inv] and [py_bool].
    - PyStr.v: the [str] methods the code calls ([upper], [lower],
      [capitalize], [strip], [split(sep)], [split()], [sep.join],
      [str(int)]) with their algebra (join/split inverse, strip
      idempotence, case idempotence).  The case maps are ASCII ones
      (the specification's "ASCII-style capitalization"): they are
      Python's on ASCII text, while Python also maps non-ASCII letters
      ([à] to [À], [ß] to [SS]); the case theorem C18 assumes ASCII.
    - WordLists.v: text-mode file reading (universal newlines, line
      iteration), [load_words], [load_exclusions], [filter_excluded_words]
      and the inline length filter [length_filter].
    - Random.v: the class [UniformSource], the interface the generator is
      proved against ([randbelow] with its bound), [random.choice] and
      [random.randint] over it, and two instances (a scripted source for
      tests, a 32-bit linear congruential generator).
    - Generator.v: the pattern engine [raw_name], the case formatters
      [format_case] (SpySpeak.py, SpySpeak-cli.py) and [format_case_web],
      and the three [generate_codename]s in Modules [Interactive], [Cli]
      and [Web]; Module [Spec] states the contract of spec 4.6 as a
      relation [Spec.generate] from inputs to an [outcome].
    - Output.v: [format_output] (json, csv, html, text) and a reader for
      each format (a JSON reader, the state machine of Python's
      [csv.reader], line readers for html and text).
    - Favorites.v: the favorites store over a [world] (files as a stdpp
      [gmap], unwritable paths as a [gset], stdout, stderr): both scripts'
      [load_favorites] and [save_favorites], the CLI's [list_favorites],
      [add_favorite], [export_favorites], and the interactive shell's
      favorites menu as a step function [fav_step] on a [session] (the list
      in memory and the world).
    - Shells.v: the CLI's and the web service's copies of the loaders,
      theme discovery ([get_available_themes], [load_themed_words]), the
      CLI's [main] after argument parsing ([cli_main], with its parts
      [make_themes_dir], [cli_words], [cli_exclusions], [cli_generate]),
      and the web routes [/], [/generate], [/api/codenames],
      [/api/themes] and [/favicon.ico] as functions of the request
      parameters, the random state and the world ([web_index],
      [web_generate], [api_generate], [api_themes], [web_favicon]), with
      the service's [__main__] block ([create_required_directories],
      [web_main]: the port from [PORT] and the arguments of [app.run]).
    - Machine.v: the state of the interactive program.  The local
      variables of [main] in SpySpeak.py are the record [shell]; a
      [machine] adds the random source, the [world] of Favorites.v and
      the input lines not yet read; a computation [SM S A] returns or
      halts ([Exit], the [break] of "7. Exit", or [Crash e], an exception
      the loop does not catch, [EOFError] when [input()] finds no line).
    - SessionLogic.v: two tools for [SM]: [stays R c] (every run ends in a
      machine related by the preorder [R] to the one it started from;
      instances for input consumption, the shell variables and the files)
      with one tactic [stays_tac], and Hoare triples [hoare P c Q E] on
      the shell variables with one rule per construct of the monad.
    - Session.v: [main] of SpySpeak.py: [startup] (the code before the
      loop), [menu_iteration] (one iteration of [while True], one
      definition per branch: [choice_single], [choice_multiple],
      [choice_view], [choice_manage], [settings_menu] with
      [settings_theme], [settings_exclusions], [settings_pattern],
      [settings_case], [settings_lengths], [settings_separator]),
      [run_session] (the loop on fuel), [program] (the [__main__] block)
      and the interactive loaders [i_load_words] and friends; then the
      theorems about the interactive program.

    ** What the theorems show

    - Refinement (Generator.v): each [generate_codename] implements
      [Spec.generate]: from any state of any [UniformSource] it returns,
      and what it returns (or the exit, error dict or message list it
      fails with) is allowed by the contract; the web variant needs a
      non-empty separator for title case, the other two also whitespace-
      free words for a space separator.
    - Loaders and filters (WordLists.v): loaded words are non-empty,
      stripped and single-line; exclusions are lower case; the exclusion
      filter's short-circuit is the plain filter; the length filter keeps
      exactly the words within the active bounds.
    - Runs (Generator.v): single-element lists make generation
      deterministic; each failure kind is reported by every variant
      without drawing; the number suffix lies in 1..999; on ASCII text
      case styles only change case; an exception keeps the draws made
      before it.
    - Round trips (Output.v): json, csv, html and text renderings read back
      as the list rendered; the json rendering is printable ASCII.
    - Favorites (Favorites.v): the CLI's add is idempotent for stripped
      names; the interactive session keeps the file equal to the list in
      memory along any run of its favorites actions; removal by the
      printed number removes that entry; invalid removals change nothing;
      the CLI json export reads back as the favorites.
    - Shells (Shells.v): a CLI run that exits with status 0 passed the
      configuration checks and wrote the rendering of what
      [generate_codename] returned; an invalid configuration exits with
      status 1 before any draw or output; [/api/codenames] implements the
      contract on the requested theme's words (200 with codenames the
      contract allows, 400 with the contract's failure, a non-integer
      parameter, or the empty-separator [ValueError]); theme discovery
      lists exactly the themes of the [_adj.txt] entries whose noun
      files exist; end to end, a CLI run asked for JSON prints text that
      parses back to the codenames it generated.
    - Interactive program (Session.v): the menu loop terminates
      within one iteration more than there are input lines; from the
      initial variables every state keeps the exclusions non-empty and
      lower case and the length limits non-negative, and the top of the
      loop has ordered active limits (a Hoare-logic proof over every
      branch); the favorites branch of the menu refines the favorites
      step of Favorites.v, so the file-mirroring invariant proved there
      is one of the menu; adding exclusions updates the list and the
      file; the
      separator menu's "No separator" crashes the next single generation
      and makes "Generate multiple" blame the count (with the random
      source advanced by the draws made before the error).
    - Divergences: several theorems prove behaviour the specification
      rules out (title case with an empty separator raises, the web
      service accepts [count <= 0], the scripts disagree on title case over
      runs of spaces (two scripts keep every run, the web one none), the interactive failure list is indistinguishable
      from a result, the CLI re-adds names with surrounding whitespace, the
      interactive add keeps duplicates and unsaved names, theme discovery
      removes every occurrence of the [_adj.txt] suffix).

    ** Bounds and fuel

    Python [int]s are [Z] (counts, lengths, random numbers); the program
    has no fixed-width arithmetic.  Three functions carry fuel, each with
    a bound that is always enough: [digits_go] ([str(n)]) runs on fuel
    [n + 1], above the number of digits of [n]; the JSON reader's array
    loop runs on the length of the remaining text, and each element
    consumes at least two characters; the random source needs none (every
    loop is [for _ in range(count)], structural in [Z.to_nat count]).
    The menu loop [run_session] runs on fuel: [run_session_halts] shows
    that [length inputs + 1] iterations always reach a halt, since every
    iteration that returns reads at least one line, so the fuel is never
    what stops a run that is given that much.  Termination of everything
    else is structural.

    ** Not modelled

    Flask itself (routing, the Jinja templates, the headers of the
    static file server, the server loop), [argparse] (the parsed arguments are an input record), the
    [KeyboardInterrupt] handler of the interactive loop (the input model
    has no interrupts), directories (the world holds files only: the
    interactive [os.makedirs] is modelled by the message that follows
    it, the web service's by the [FileExistsError] a regular file of the
    same name causes), the web service's log lines, and the quality of
    the random numbers.  The copies of [filter_excluded_words],
    [get_available_themes] and [format_output] that repeat, word for
    word, the copy the map names (in SpySpeak.py, or SpySpeak-cli.py for
    [get_available_themes]) are not written out a second time.  The
    listing of the [themes] directory is an input (its order is the
    operating system's).  File
    contents are decoded text; decoding errors, partial writes and
    concurrent writers are outside the model.  A failure of [open] is
    modelled as a path in [locked] (a [PermissionError] in both modes). *)

From Stdlib Require Import String Ascii List ZArith Lia Bool.
Import ListNotations.
Open Scope string_scope.
Open Scope list_scope.

Declare Scope spy_scope.
Delimit Scope spy_scope with spy.
Open Scope spy_scope.

(** ** Python strings

    A Python [str] of the program is a Rocq [string]; [+++] is string
    concatenation (Python's [+] and f-string juxtaposition). *)
Infix "+++" := String.append (at level 60, right associativity) : spy_scope.

(** Python's [x in xs] on a list of strings. *)
Definition py_in (x : string) (xs : list string) : bool :=
  existsb (String.eqb x) xs.

(** ** Python exceptions and the state-and-exception monad

    The generator draws from a pseudo-random source (a state threaded
    through the calls) and can raise: [random.choice] on an empty list
    raises [IndexError], [str.split("")] raises [ValueError], and
    [sys.exit(code)] raises [SystemExit] after a message was written to
    standard error (the message is kept in the exception). *)
Inductive py_exc :=
| IndexError
| ValueError
| SystemExit (code : Z) (stderr : string).

(** An exception carries the state reached when it was raised: the
    draws made before a [raise] have advanced Python's generator. *)
Definition PyM (S A : Type) : Type := S -> (py_exc * S) + (A * S).

Definition pret {S A : Type} (a : A) : PyM S A := fun s => inr (a, s).

Definition pbind {S A B : Type} (c : PyM S A) (k : A -> PyM S B) : PyM S B :=
  fun s => match c s with
           | inl (e, s') => inl (e, s')
           | inr (a, s') => k a s'
           end.

Definition praise {S A : Type} (e : py_exc) : PyM S A := fun s => inl (e, s).

Notation "x <- c ;; k" := (pbind c (fun x => k))
  (at level 100, c at next level, right associativity) : spy_scope.

(** [succeeds c P]: from every state, [c] returns (no exception) a value
    satisfying [P].  This is the total-correctness judgement of the
    development: it says the code returns, not only that a returned
    value is right. *)
Definition succeeds {S A : Type} (c : PyM S A) (P : A -> Prop) : Prop :=
  forall s, exists a s', c s = inr (a, s') /\ P a.

(** [raises_only P c]: every exception [c] raises satisfies [P]. *)
Definition raises_only {S A : Type} (P : py_exc -> Prop) (c : PyM S A) : Prop :=
  forall s e s', c s = inl (e, s') -> P e.

(** The exceptions other than [SystemExit]. *)
Definition not_exit (e : py_exc) : Prop :=
  match e with SystemExit _ _ => False | _ => True end.

(** ** Lemmas on strings, membership and the monad *)

Lemma sapp_nil_l (s : string) : "" +++ s = s.
Proof. reflexivity. Qed.

Lemma sapp_nil_r (s : string) : s +++ "" = s.
Proof. induction s as [|c s IH]; simpl; [reflexivity | now rewrite IH]. Qed.

Lemma sapp_assoc (a b c : string) : (a +++ b) +++ c = a +++ b +++ c.
Proof. induction a as [|x a IH]; simpl; [reflexivity | now rewrite IH]. Qed.

Lemma sapp_cons (x : ascii) (a b : string) : String x a +++ b = String x (a +++ b).
Proof. reflexivity. Qed.

Lemma slength_app (a b : string) :
  String.length (a +++ b) = String.length a + String.length b.
Proof. induction a as [|x a IH]; simpl; [reflexivity | now rewrite IH]. Qed.

Lemma sapp_inv_l (a b c : string) : a +++ b = a +++ c -> b = c.
Proof. induction a as [|x a IH]; simpl; [easy | intros H; injection H; auto]. Qed.

Lemma sapp_nil_inv (a b : string) : a +++ b = "" -> a = "" /\ b = "".
Proof. destruct a; simpl; [easy | discriminate]. Qed.

Lemma py_in_iff (x : string) (xs : list string) : py_in x xs = true <-> In x xs.
Proof.
  unfold py_in. rewrite existsb_exists. split.
  - intros [y [Hy Heq]]. apply String.eqb_eq in Heq. now subst.
  - intros H. exists x. split; [exact H | apply String.eqb_refl].
Qed.

Lemma py_in_false (x : string) (xs : list string) : py_in x xs = false <-> ~ In x xs.
Proof. rewrite <- py_in_iff. destruct (py_in x xs); split; congruence. Qed.

Lemma pbind_inr {S A B : Type} (c : PyM S A) (k : A -> PyM S B) s a s' :
  c s = inr (a, s') -> pbind c k s = k a s'.
Proof. intros H. unfold pbind. now rewrite H. Qed.

Lemma pbind_inl {S A B : Type} (c : PyM S A) (k : A -> PyM S B) s e s' :
  c s = inl (e, s') -> pbind c k s = inl (e, s').
Proof. intros H. unfold pbind. now rewrite H. Qed.

Lemma pbind_ret {S A B : Type} (a : A) (k : A -> PyM S B) s :
  pbind (pret a) k s = k a s.
Proof. reflexivity. Qed.

Lemma succeeds_ret {S A : Type} (a : A) (P : A -> Prop) :
  P a -> @succeeds S A (pret a) P.
Proof. intros H s. exists a, s. split; [reflexivity | exact H]. Qed.

Lemma succeeds_bind {S A B : Type} (c : PyM S A) (k : A -> PyM S B)
      (P : A -> Prop) (Q : B -> Prop) :
  succeeds c P -> (forall a, P a -> succeeds (k a) Q) -> succeeds (pbind c k) Q.
Proof.
  intros Hc Hk s. destruct (Hc s) as [a [s' [E Ha]]].
  destruct (Hk a Ha s') as [b [s'' [E' Hb]]].
  exists b, s''. unfold pbind. rewrite E. auto.
Qed.

Lemma succeeds_mono {S A : Type} (c : PyM S A) (P Q : A -> Prop) :
  succeeds c P -> (forall a, P a -> Q a) -> succeeds c Q.
Proof.
  intros H HPQ s. destruct (H s) as [a [s' [E Ha]]]. exists a, s'. auto.
Qed.

Lemma raises_only_ret {S A : Type} (P : py_exc -> Prop) (a : A) : @raises_only S A P (pret a).
Proof. intros s e s' H. discriminate. Qed.

Lemma raises_only_raise {S A : Type} (P : py_exc -> Prop) (e : py_exc) :
  P e -> @raises_only S A P (praise e).
Proof. intros He s e' s' H. now injection H as <- _. Qed.

Lemma raises_only_bind {S A B : Type} (P : py_exc -> Prop) (c : PyM S A) (k : A -> PyM S B) :
  raises_only P c -> (forall a, raises_only P (k a)) -> raises_only P (pbind c k).
Proof.
  intros Hc Hk s e s2. unfold pbind. destruct (c s) as [[e' s1]|[a s1]] eqn:E.
  - intros H. injection H as <- _. exact (Hc s e' s1 E).
  - apply Hk.
Qed.

Lemma raises_only_mono {S A : Type} (P Q : py_exc -> Prop) (c : PyM S A) :
  raises_only P c -> (forall e, P e -> Q e) -> raises_only Q c.
Proof. intros Hc HPQ s e s' H. exact (HPQ e (Hc s e s' H)). Qed.

(** ** Proof automation shared by the components *)
Create HintDb spy discriminated.
Create Rewrite HintDb spy_rw.
#[export] Hint Rewrite sapp_nil_r sapp_assoc slength_app : spy_rw.
#[export] Hint Resolve succeeds_ret raises_only_ret raises_only_bind : spy.

Ltac inv H := inversion H; subst; clear H.

(** [py_bool] rewrites the boolean tests of the models into propositions. *)
Ltac py_bool :=
  repeat match goal with
  | H : String.eqb _ _ = true |- _ => apply String.eqb_eq in H; subst
  | H : py_in _ _ = true |- _ => apply py_in_iff in H
  | H : py_in _ _ = false |- _ => apply py_in_false in H
  | H : (_ && _)%bool = true |- _ => apply andb_true_iff in H; destruct H
  | H : (_ || _)%bool = false |- _ => apply orb_false_iff in H; destruct H
  | H : negb _ = true |- _ => apply negb_true_iff in H
  | H : Z.ltb _ _ = true |- _ => apply Z.ltb_lt in H
  | H : Z.ltb _ _ = false |- _ => apply Z.ltb_ge in H
  | H : Z.leb _ _ = true |- _ => apply Z.leb_le in H
  | H : Z.leb _ _ = false |- _ => apply Z.leb_gt in H
  end.

(** ** Generic list lemmas *)
Lemma filter_id {A : Type} (f : A -> bool) (l : list A) :
  (forall x, In x l -> f x = true) -> filter f l = l.
Proof.
  induction l as [|x l IH]; simpl; intros H; [reflexivity|].
  rewrite (H x (or_introl eq_refl)). f_equal. auto.
Qed.

Lemma filter_filter_comm {A : Type} (f g : A -> bool) (l : list A) :
  filter f (filter g l) = filter (fun x => g x && f x)%bool l.
Proof.
  induction l as [|x l IH]; simpl; [reflexivity|].
  destruct (g x); simpl; [destruct (f x); simpl; rewrite IH |]; auto.
Qed.

#[export] Hint Resolve filter_id : spy.
