(* ===== verification/PyStr.v ===== *)
(** * PyStr: the Python [str] operations the program calls

    A Python string is a Rocq [string], read as a sequence of code points
    U+0000..U+00FF (one [ascii] per code point).  This file models the
    [str] methods the generator and the file loaders use: [upper],
    [lower], [capitalize], [strip], [split(sep)], [split()], [sep.join]
    and [str(int)].  Case mapping is the ASCII one (the specification
    fixes "ASCII-style capitalization"), which is Python's on 7-bit text
    ([py_isascii]) only: Python's [upper] maps [à] to [À], [ß] to [SS]
    and [µ] to U+039C, where these maps leave non-ASCII letters alone,
    so statements that depend on the case maps assume ASCII text;
    whitespace is Python's [str.isspace] on
    U+0000..U+00FF.  [split] with an empty separator raises [ValueError]
    in Python; [str_split] below is the raising version. *)

From Stdlib Require Import String Ascii List ZArith Lia Bool.
From S2P Require Import Prelude.
Import ListNotations.
Open Scope string_scope.
Open Scope list_scope.
Open Scope spy_scope.

(** ** Characters *)

Definition is_lower (c : ascii) : bool :=
  (Ascii.leb "a" c && Ascii.leb c "z")%bool.

Definition is_upper (c : ascii) : bool :=
  (Ascii.leb "A" c && Ascii.leb c "Z")%bool.

Definition is_digit (c : ascii) : bool :=
  (Ascii.leb "0" c && Ascii.leb c "9")%bool.

(** [str.isspace] on U+0000..U+00FF: TAB..CR, the four information
    separators U+001C..U+001F, SPACE, NEL and NO-BREAK SPACE. *)
Definition is_space (c : ascii) : bool :=
  let n := nat_of_ascii c in
  ((9 <=? n) && (n <=? 13) || (28 <=? n) && (n <=? 32) || (n =? 133) || (n =? 160))%nat.

Definition char_upper (c : ascii) : ascii :=
  if is_lower c then ascii_of_nat (nat_of_ascii c - 32) else c.

Definition char_lower (c : ascii) : ascii :=
  if is_upper c then ascii_of_nat (nat_of_ascii c + 32) else c.

(** ** String methods *)

Fixpoint smap (f : ascii -> ascii) (s : string) : string :=
  match s with
  | EmptyString => EmptyString
  | String c r => String (f c) (smap f r)
  end.

(** [s.upper()] and [s.lower()]. *)
Definition py_upper (s : string) : string := smap char_upper s.
Definition py_lower (s : string) : string := smap char_lower s.

(** [s.capitalize()]: first character upper-cased, the rest lower-cased. *)
Definition py_capitalize (s : string) : string :=
  match s with
  | EmptyString => EmptyString
  | String c r => String (char_upper c) (py_lower r)
  end.

(** [s.lstrip()], [s.rstrip()], [s.strip()]. *)
Fixpoint py_lstrip (s : string) : string :=
  match s with
  | EmptyString => EmptyString
  | String c r => if is_space c then py_lstrip r else s
  end.

Fixpoint py_rstrip (s : string) : string :=
  match s with
  | EmptyString => EmptyString
  | String c r =>
      let r' := py_rstrip r in
      match r' with
      | EmptyString => if is_space c then EmptyString else String c EmptyString
      | _ => String c r'
      end
  end.

Definition py_strip (s : string) : string := py_rstrip (py_lstrip s).

(** [sep.join(l)]. *)
Fixpoint py_join (sep : string) (l : list string) : string :=
  match l with
  | [] => ""
  | [x] => x
  | x :: xs => x +++ sep +++ py_join sep xs
  end.

(** Prefix and suffix helpers. *)
Fixpoint stake (n : nat) (s : string) : string :=
  match n, s with
  | O, _ | _, EmptyString => EmptyString
  | S k, String c r => String c (stake k r)
  end.

Fixpoint sdrop (n : nat) (s : string) : string :=
  match n, s with
  | O, _ => s
  | _, EmptyString => EmptyString
  | S k, String c r => sdrop k r
  end.

Definition ends_with (suf s : string) : bool :=
  String.eqb (sdrop (String.length s - String.length suf) s) suf.

(** [s.startswith(pre)]. *)
Definition starts_with (pre s : string) : bool :=
  String.eqb (stake (String.length pre) s) pre.

(** [s.replace(old, new)] for a non-empty [old]: the occurrences of [old]
    found scanning left to right, without overlap, are replaced; each
    step consumes at least one character, so [String.length s] steps are
    enough. *)
Fixpoint replace_go (fuel : nat) (old new s : string) : string :=
  match fuel with
  | O => s
  | S f =>
      match s with
      | EmptyString => EmptyString
      | String c r =>
          if starts_with old s then new +++ replace_go f old new (sdrop (String.length old) s)
          else String c (replace_go f old new r)
      end
  end.

(** With an empty [old], Python inserts [new] before every character and
    at the end. *)
Fixpoint replace_empty (new s : string) : string :=
  match s with
  | EmptyString => new
  | String c r => new +++ String c (replace_empty new r)
  end.

Definition py_replace (s old new : string) : string :=
  match old with
  | EmptyString => replace_empty new s
  | _ => replace_go (String.length s) old new s
  end.

(** [os.path.isabs(p)] and [os.path.join(a, b)] on POSIX paths. *)
Definition path_isabs (p : string) : bool := starts_with "/" p.

Definition path_join (a b : string) : string :=
  if path_isabs b then b
  else if (String.eqb a "" || ends_with "/" a)%bool then a +++ b
  else a +++ "/" +++ b.

(** [s.split(sep)] for a non-empty [sep]: the string is scanned left to
    right; [cur] is the current piece, cut as soon as it ends with [sep].
    Since all occurrences have the length of [sep], the first one to end
    is the leftmost one to start, so the cuts are Python's (leftmost,
    non-overlapping). *)
Fixpoint split_go (sep cur s : string) : list string :=
  match s with
  | EmptyString => [cur]
  | String c r =>
      let cur' := cur +++ String c EmptyString in
      if ends_with sep cur'
      then stake (String.length cur' - String.length sep) cur' :: split_go sep "" r
      else split_go sep cur' r
  end.

Definition py_split (sep s : string) : list string := split_go sep "" s.

(** [s.split(sep)] with Python's check: an empty separator raises
    [ValueError("empty separator")]. *)
Definition str_split {S : Type} (sep s : string) : PyM S (list string) :=
  match sep with
  | EmptyString => praise ValueError
  | _ => pret (py_split sep s)
  end.

(** [s.split()]: maximal runs of non-whitespace. *)
Fixpoint split_ws_go (cur s : string) : list string :=
  match s with
  | EmptyString => match cur with EmptyString => [] | _ => [cur] end
  | String c r =>
      if is_space c
      then match cur with
           | EmptyString => split_ws_go "" r
           | _ => cur :: split_ws_go "" r
           end
      else split_ws_go (cur +++ String c EmptyString) r
  end.

Definition py_split_ws (s : string) : list string := split_ws_go "" s.

(** [str(n)] for a natural number: its decimal digits. *)
Definition digit_char (d : nat) : ascii := ascii_of_nat (48 + d).

Fixpoint digits_go (fuel n : nat) (acc : string) : string :=
  match fuel with
  | O => acc
  | S f =>
      let acc' := String (digit_char (n mod 10)) acc in
      if (n <? 10)%nat then acc' else digits_go f (n / 10) acc'
  end.

Definition py_str_nat (n : nat) : string := digits_go (S n) n "".

(** [str(n)] for a Python [int] (the generator only prints positive ones). *)
Definition py_str_int (z : Z) : string :=
  if (z <? 0)%Z then String "-" (py_str_nat (Z.to_nat (- z))) else py_str_nat (Z.to_nat z).

(** Every character satisfies [p]. *)
Fixpoint all_chars (p : ascii -> bool) (s : string) : bool :=
  match s with
  | EmptyString => true
  | String c r => (p c && all_chars p r)%bool
  end.

(** [s.isdigit()] on U+0000..U+00FF: non-empty and made of the decimal
    digits and the superscripts U+00B2, U+00B3 and U+00B9 (digits for
    [isdigit], which [int()] nevertheless rejects). *)
Definition is_digit_char (c : ascii) : bool :=
  (is_digit c || Ascii.eqb c "178" || Ascii.eqb c "179" || Ascii.eqb c "185")%bool.

Definition py_isdigit (s : string) : bool :=
  (negb (String.eqb s "") && all_chars is_digit_char s)%bool.

(** [c] occurs in [s]. *)
Definition has_char (c : ascii) (s : string) : bool :=
  negb (all_chars (fun d => negb (Ascii.eqb c d)) s).

Definition no_space (s : string) : bool := all_chars (fun c => negb (is_space c)) s.

(** [s.isascii()]: every code point below U+0080, the text on which the
    ASCII case maps above are Python's. *)
Definition py_isascii (s : string) : bool := all_chars (fun c => nat_of_ascii c <? 128)%nat s.

(** Whether [s] holds two consecutive spaces; [prev] says whether the
    character before [s] was a space. *)
Fixpoint space_run_go (prev : bool) (s : string) : bool :=
  match s with
  | EmptyString => false
  | String c r => let sp := Ascii.eqb c " " in (prev && sp || space_run_go sp r)%bool
  end.

Definition has_space_run (s : string) : bool := space_run_go false s.
Section Tests.
Example t1 : py_split "-" "a-b--c" = ["a"; "b"; ""; "c"]. Proof. reflexivity. Qed.
Example t2 : py_split "ab" "xabyabab" = ["x"; "y"; ""; ""]. Proof. reflexivity. Qed.
Example t3 : py_split_ws ("  a " +++ String "009" " b  ") = ["a"; "b"]. Proof. reflexivity. Qed.
Example t4 : py_strip "  a b  " = "a b". Proof. reflexivity. Qed.
Example t5 : py_capitalize "hELLO wORLD" = "Hello world". Proof. reflexivity. Qed.
Example t6 : py_str_nat 0 = "0" /\ py_str_nat 42 = "42" /\ py_str_nat 999 = "999". Proof. vm_compute. auto. Qed.
Example t7 : py_split "aa" "aaa" = [""; "a"]. Proof. reflexivity. Qed.
Example t8 : py_replace "spy_adj.txt" "_adj.txt" "" = "spy" /\
             py_replace "a_adj.txtb_adj.txt" "_adj.txt" "" = "ab" /\
             py_replace "aaa" "aa" "b" = "ba" /\ py_replace "ab" "" "-" = "-a-b-".
Proof. vm_compute. auto. Qed.
Example t9 : path_join "/srv/app" "nouns.txt" = "/srv/app/nouns.txt" /\
             path_join "/srv/app/" "nouns.txt" = "/srv/app/nouns.txt" /\
             path_join "/srv/app" "/etc/words" = "/etc/words".
Proof. vm_compute. auto. Qed.
End Tests.

(** ** Characters: facts checked on all 256 code points *)

Ltac all_chars_cases c := destruct c as [[|] [|] [|] [|] [|] [|] [|] [|]]; reflexivity.

Lemma char_lower_upper (c : ascii) : char_lower (char_upper c) = char_lower c.
Proof. all_chars_cases c. Qed.

Lemma char_lower_lower (c : ascii) : char_lower (char_lower c) = char_lower c.
Proof. all_chars_cases c. Qed.

Lemma char_upper_not_lower (c : ascii) : is_lower (char_upper c) = false.
Proof. all_chars_cases c. Qed.

Lemma char_lower_not_upper (c : ascii) : is_upper (char_lower c) = false.
Proof. all_chars_cases c. Qed.

Lemma char_lower_digit_eq (c : ascii) :
  is_digit (char_lower c) = true -> char_lower c = c.
Proof. destruct c as [[|] [|] [|] [|] [|] [|] [|] [|]]; try reflexivity; discriminate. Qed.

Lemma char_upper_of_lower (c : ascii) : char_upper (char_lower c) = char_upper c.
Proof. all_chars_cases c. Qed.

Lemma digit_char_is_digit (d : nat) : (d < 10)%nat -> is_digit (digit_char d) = true.
Proof. intros H. do 10 (destruct d as [|d]; [reflexivity|]). lia. Qed.

#[export] Hint Rewrite char_lower_upper char_lower_lower char_upper_of_lower : spy_rw.

(** ** [smap], [upper], [lower], [capitalize] *)

Lemma smap_app (f : ascii -> ascii) (a b : string) : smap f (a +++ b) = smap f a +++ smap f b.
Proof. induction a as [|c a IH]; simpl; [reflexivity | now rewrite IH]. Qed.

Lemma smap_length (f : ascii -> ascii) (s : string) : String.length (smap f s) = String.length s.
Proof. induction s as [|c s IH]; simpl; [reflexivity | now rewrite IH]. Qed.

Lemma smap_smap (f g : ascii -> ascii) (s : string) :
  smap f (smap g s) = smap (fun c => f (g c)) s.
Proof. induction s as [|c s IH]; simpl; [reflexivity | now rewrite IH]. Qed.

Lemma smap_ext (f g : ascii -> ascii) (s : string) :
  (forall c, f c = g c) -> smap f s = smap g s.
Proof. intros H. induction s as [|c s IH]; simpl; [reflexivity | now rewrite H, IH]. Qed.

Lemma py_lower_app (a b : string) : py_lower (a +++ b) = py_lower a +++ py_lower b.
Proof. apply smap_app. Qed.

Lemma py_lower_idem (s : string) : py_lower (py_lower s) = py_lower s.
Proof. unfold py_lower. rewrite smap_smap. apply smap_ext, char_lower_lower. Qed.

Lemma py_lower_upper (s : string) : py_lower (py_upper s) = py_lower s.
Proof. unfold py_lower, py_upper. rewrite smap_smap. apply smap_ext, char_lower_upper. Qed.

Lemma py_lower_capitalize (s : string) : py_lower (py_capitalize s) = py_lower s.
Proof.
  destruct s as [|c r]; [reflexivity|].
  change (String (char_lower (char_upper c)) (py_lower (py_lower r)) =
          String (char_lower c) (py_lower r)).
  now rewrite char_lower_upper, py_lower_idem.
Qed.

Lemma py_lower_join (sep : string) (l : list string) :
  py_lower (py_join sep l) = py_join (py_lower sep) (map py_lower l).
Proof.
  induction l as [|x [|y l] IH]; [reflexivity | reflexivity |].
  change (py_lower (x +++ sep +++ py_join sep (y :: l)) =
          py_lower x +++ py_lower sep +++ py_join (py_lower sep) (map py_lower (y :: l))).
  now rewrite !py_lower_app, IH.
Qed.

#[export] Hint Rewrite py_lower_app py_lower_idem py_lower_upper py_lower_capitalize
  py_lower_join : spy_rw.

Lemma all_chars_smap (p : ascii -> bool) (f : ascii -> ascii) (s : string) :
  (forall c, p (f c) = true) -> all_chars p (smap f s) = true.
Proof. intros H. induction s as [|c s IH]; simpl; [reflexivity | now rewrite H, IH]. Qed.

Lemma all_chars_app (p : ascii -> bool) (a b : string) :
  all_chars p (a +++ b) = (all_chars p a && all_chars p b)%bool.
Proof. induction a as [|c a IH]; simpl; [reflexivity | now rewrite IH, andb_assoc]. Qed.

Lemma all_chars_smap_pres (p : ascii -> bool) (f : ascii -> ascii) (s : string) :
  (forall c, p c = true -> p (f c) = true) -> all_chars p s = true -> all_chars p (smap f s) = true.
Proof.
  intros Hf. induction s as [|c s IH]; simpl; [auto|].
  rewrite !andb_true_iff. intros [Hc Hs]. auto.
Qed.

(** A string whose lower-cased form ends with digits ends with the same digits. *)
Lemma smap_app_inv (f : ascii -> ascii) (s a b : string) :
  smap f s = a +++ b -> exists s1 s2, s = s1 +++ s2 /\ smap f s1 = a /\ smap f s2 = b.
Proof.
  revert s. induction a as [|c a IH]; intros s H.
  - exists "", s. auto.
  - destruct s as [|d s]; [discriminate|]. simpl in H. injection H as Hc Hs.
    destruct (IH s Hs) as [s1 [s2 [-> [H1 H2]]]].
    exists (String d s1), s2. simpl. subst. auto.
Qed.

Lemma py_lower_digits_eq (s d : string) :
  py_lower s = d -> all_chars is_digit d = true -> s = d.
Proof.
  revert d. induction s as [|c s IH]; intros d H Hd; subst; [reflexivity|].
  unfold py_lower in *. cbn [smap all_chars] in *. apply andb_true_iff in Hd as [Hc Hr].
  rewrite (char_lower_digit_eq c Hc). f_equal. now apply IH.
Qed.

Lemma py_lower_digit_suffix (s a d : string) :
  py_lower s = a +++ d -> all_chars is_digit d = true -> exists p, s = p +++ d.
Proof.
  intros H Hd. destruct (smap_app_inv _ _ _ _ H) as [s1 [s2 [-> [_ H2]]]].
  exists s1. now rewrite (py_lower_digits_eq s2 d H2 Hd).
Qed.

(** ** [take], [drop], [ends_with] *)

Lemma stake_sdrop (n : nat) (s : string) : stake n s +++ sdrop n s = s.
Proof.
  revert s. induction n as [|n IH]; intros [|c s]; simpl; try reflexivity. now rewrite IH.
Qed.

Lemma sdrop_app (a b : string) : sdrop (String.length a) (a +++ b) = b.
Proof. induction a as [|c a IH]; simpl; auto. Qed.

Lemma stake_app (a b : string) : stake (String.length a) (a +++ b) = a.
Proof. induction a as [|c a IH]; simpl; [destruct b | rewrite IH]; reflexivity. Qed.

Lemma ends_with_cut (suf s : string) :
  ends_with suf s = true -> stake (String.length s - String.length suf) s +++ suf = s.
Proof.
  unfold ends_with. intros H. apply String.eqb_eq in H.
  rewrite <- H at 2. apply stake_sdrop.
Qed.

Lemma ends_with_char (c d : ascii) (y : string) :
  ends_with (String c "") (y +++ String d "") = Ascii.eqb d c.
Proof.
  unfold ends_with. rewrite slength_app. simpl.
  replace (String.length y + 1 - 1)%nat with (String.length y) by lia.
  rewrite sdrop_app. simpl. now destruct (Ascii.eqb d c).
Qed.

(** ** [split] and [join] *)

Lemma split_go_cons (sep cur s : string) : exists h t, split_go sep cur s = h :: t.
Proof.
  revert cur. induction s as [|c s IH]; intros cur; simpl; [eauto|].
  destruct (ends_with sep (cur +++ String c "")); eauto.
Qed.

Lemma join_cons (sep x : string) (t : list string) :
  t <> [] -> py_join sep (x :: t) = x +++ sep +++ py_join sep t.
Proof. destruct t; [congruence | reflexivity]. Qed.

Lemma join_split_go (sep cur s : string) : py_join sep (split_go sep cur s) = cur +++ s.
Proof.
  revert cur. induction s as [|c s IH]; intros cur; simpl; [now rewrite sapp_nil_r|].
  destruct (ends_with sep (cur +++ String c "")) eqn:E.
  - destruct (split_go_cons sep "" s) as [h [t Ht]].
    rewrite join_cons by (rewrite Ht; discriminate).
    rewrite IH, sapp_nil_l, <- sapp_assoc, ends_with_cut by exact E.
    now rewrite sapp_assoc.
  - rewrite IH. now rewrite sapp_assoc.
Qed.

(** [sep.join(s.split(sep)) == s]. *)
Lemma join_split (sep s : string) : py_join sep (py_split sep s) = s.
Proof. apply join_split_go. Qed.

Lemma split_go_no_char (c : ascii) (cur x rest : string) :
  has_char c x = false ->
  split_go (String c "") cur (x +++ rest) = split_go (String c "") (cur +++ x) rest.
Proof.
  unfold has_char. revert cur. induction x as [|d x IH]; intros cur Hx.
  - now rewrite sapp_nil_r.
  - simpl in Hx. apply negb_false_iff, andb_true_iff in Hx as [Hd Hx].
    simpl. rewrite ends_with_char.
    replace (Ascii.eqb d c) with false
      by (rewrite Ascii.eqb_sym; symmetry; now apply negb_true_iff).
    rewrite IH by (now apply negb_false_iff). now rewrite sapp_assoc.
Qed.

(** [sep.join(l).split(sep) == l] for a one-character separator that no
    element contains. *)
Lemma split_join_char (c : ascii) (l : list string) :
  l <> [] -> Forall (fun x => has_char c x = false) l ->
  py_split (String c "") (py_join (String c "") l) = l.
Proof.
  unfold py_split. induction l as [|x [|y l] IH]; intros Hne Hl; [congruence| |].
  - inv Hl. simpl. pose proof (split_go_no_char c "" x "" ltac:(assumption)) as E.
    rewrite sapp_nil_r in E. rewrite E. reflexivity.
  - inv Hl. rewrite join_cons by discriminate.
    rewrite split_go_no_char by assumption. simpl.
    rewrite ends_with_char, Ascii.eqb_refl.
    rewrite slength_app. simpl. replace (String.length x + 1 - 1)%nat with (String.length x) by lia.
    rewrite stake_app. f_equal. apply IH; [discriminate | assumption].
Qed.

(** ** [strip] *)

Lemma rstrip_spaces (w : string) : all_chars is_space w = true -> py_rstrip w = "".
Proof.
  induction w as [|c w IH]; simpl; intros H; [reflexivity|].
  apply andb_true_iff in H as [Hc Hw]. rewrite IH, Hc by assumption. reflexivity.
Qed.

Lemma rstrip_app_spaces (a w : string) :
  all_chars is_space w = true -> py_rstrip (a +++ w) = py_rstrip a.
Proof.
  intros Hw. induction a as [|c a IH]; simpl; [now apply rstrip_spaces|]. now rewrite IH.
Qed.

Lemma lstrip_app (a b : string) : py_lstrip a <> "" -> py_lstrip (a +++ b) = py_lstrip a +++ b.
Proof.
  induction a as [|c a IH]; simpl; [congruence|].
  destruct (is_space c); auto.
Qed.

(** A stripped non-empty string followed by whitespace strips back to itself. *)
Lemma strip_app_spaces (a w : string) :
  py_strip a = a -> a <> "" -> all_chars is_space w = true -> py_strip (a +++ w) = a.
Proof.
  unfold py_strip. intros Ha Hne Hw.
  assert (py_lstrip a <> "") as Hl by (intros E; rewrite E in Ha; simpl in Ha; congruence).
  rewrite lstrip_app, rstrip_app_spaces; assumption.
Qed.

(** ** [str(n)] *)

Lemma digits_go_digits (f n : nat) (acc : string) :
  all_chars is_digit acc = true -> all_chars is_digit (digits_go f n acc) = true.
Proof.
  revert n acc. induction f as [|f IH]; intros n acc H; cbn [digits_go]; [exact H|].
  assert (Hd : is_digit (digit_char (n mod 10)) = true)
    by (apply digit_char_is_digit, Nat.mod_upper_bound; lia).
  assert (Hacc : all_chars is_digit (String (digit_char (n mod 10)) acc) = true)
    by (cbn [all_chars]; now rewrite Hd, H).
  destruct (n <? 10)%nat; [exact Hacc | now apply IH].
Qed.

Lemma py_str_nat_digits (n : nat) : all_chars is_digit (py_str_nat n) = true.
Proof. apply digits_go_digits. reflexivity. Qed.

Lemma lstrip_app_blank (a b : string) : py_lstrip a = "" -> py_lstrip (a +++ b) = py_lstrip b.
Proof.
  induction a as [|c a IH]; simpl; [reflexivity|].
  destruct (is_space c); [exact IH | discriminate].
Qed.

Lemma lstrip_spaces (w : string) : all_chars is_space w = true -> py_lstrip w = "".
Proof.
  induction w as [|c w IH]; simpl; intros H; [reflexivity|].
  apply andb_true_iff in H as [-> Hw]. auto.
Qed.

(** Trailing whitespace does not change [strip]. *)
Lemma strip_app_spaces_gen (a w : string) :
  all_chars is_space w = true -> py_strip (a +++ w) = py_strip a.
Proof.
  unfold py_strip. intros Hw. destruct (py_lstrip a) as [|c r] eqn:E.
  - rewrite lstrip_app_blank, lstrip_spaces by assumption. reflexivity.
  - rewrite lstrip_app by (rewrite E; discriminate). rewrite E.
    now apply rstrip_app_spaces.
Qed.

Lemma lstrip_head (s : string) :
  py_lstrip s = "" \/ exists c r, py_lstrip s = String c r /\ is_space c = false.
Proof.
  induction s as [|c s IH]; simpl; [auto|].
  destruct (is_space c) eqn:E; [exact IH | right; eauto].
Qed.

Lemma rstrip_head (c : ascii) (r : string) :
  is_space c = false -> exists r', py_rstrip (String c r) = String c r'.
Proof.
  intros Hc. simpl. destruct (py_rstrip r); [rewrite Hc|]; eauto.
Qed.

Lemma rstrip_cons_nonempty (c d : ascii) (x r : string) :
  py_rstrip x = String d r -> py_rstrip (String c x) = String c (String d r).
Proof. intros H. simpl. now rewrite H. Qed.

Lemma rstrip_idem (s : string) : py_rstrip (py_rstrip s) = py_rstrip s.
Proof.
  induction s as [|c s IH]; [reflexivity|].
  destruct (py_rstrip s) as [|d r] eqn:E.
  - simpl. rewrite E. destruct (is_space c) eqn:Hc; [reflexivity|]. simpl. now rewrite Hc.
  - rewrite (rstrip_cons_nonempty c d s r E). apply rstrip_cons_nonempty. rewrite ?E in IH. exact IH.
Qed.

Lemma strip_idem (s : string) : py_strip (py_strip s) = py_strip s.
Proof.
  unfold py_strip. destruct (lstrip_head s) as [E | [c [r [E Hc]]]]; rewrite E; [reflexivity|].
  destruct (rstrip_head c r Hc) as [r' E']. rewrite E'. simpl. rewrite Hc.
  rewrite <- E'. apply rstrip_idem.
Qed.

Lemma all_chars_lstrip (p : ascii -> bool) (s : string) :
  all_chars p s = true -> all_chars p (py_lstrip s) = true.
Proof.
  induction s as [|c s IH]; simpl; [auto|]. intros H.
  destruct (is_space c); [apply IH; now apply andb_true_iff in H as [_ H] | exact H].
Qed.

Lemma all_chars_rstrip (p : ascii -> bool) (s : string) :
  all_chars p s = true -> all_chars p (py_rstrip s) = true.
Proof.
  induction s as [|c s IH]; simpl; [auto|]. intros H.
  apply andb_true_iff in H as [Hc Hs]. specialize (IH Hs).
  destruct (py_rstrip s); [destruct (is_space c)|]; cbn [all_chars] in *;
    rewrite ?Hc, ?IH; reflexivity.
Qed.

Lemma all_chars_strip (p : ascii -> bool) (s : string) :
  all_chars p s = true -> all_chars p (py_strip s) = true.
Proof. intros H. now apply all_chars_rstrip, all_chars_lstrip. Qed.

(** ** Splitting a join of words without whitespace *)


Lemma all_chars_impl (p q : ascii -> bool) (s : string) :
  (forall c, p c = true -> q c = true) -> all_chars p s = true -> all_chars q s = true.
Proof.
  intros Hpq. induction s as [|c s IH]; simpl; [auto|].
  rewrite !andb_true_iff. intros [Hc Hs]. auto.
Qed.

Lemma no_space_no_char_space (s : string) : no_space s = true -> has_char " " s = false.
Proof.
  intros H. unfold has_char. apply negb_false_iff. revert H. apply all_chars_impl.
  intros c Hc. apply negb_true_iff in Hc. apply negb_true_iff.
  destruct (Ascii.eqb_spec " " c) as [<-|]; [discriminate | reflexivity].
Qed.

Lemma split_ws_go_no_space (cur x rest : string) :
  no_space x = true -> split_ws_go cur (x +++ rest) = split_ws_go (cur +++ x) rest.
Proof.
  unfold no_space. revert cur. induction x as [|d x IH]; intros cur Hx.
  - now rewrite sapp_nil_r.
  - cbn [all_chars] in Hx. apply andb_true_iff in Hx as [Hd Hx]. apply negb_true_iff in Hd.
    simpl. rewrite Hd, IH by exact Hx. now rewrite sapp_assoc.
Qed.

(** [" ".join(l).split() == l] and [" ".join(l).split(" ") == l] for
    non-empty words without whitespace. *)
Lemma split_ws_join (l : list string) :
  Forall (fun x => x <> "" /\ no_space x = true) l -> py_split_ws (py_join " " l) = l.
Proof.
  unfold py_split_ws. induction l as [|x [|y l] IH]; intros Hl; [reflexivity| |].
  - inv Hl. destruct H1 as [Hne Hx]. simpl.
    pose proof (split_ws_go_no_space "" x "" Hx) as E. rewrite sapp_nil_r in E.
    rewrite E. simpl. destruct x; [congruence | reflexivity].
  - inv Hl. destruct H1 as [Hne Hx]. rewrite join_cons by discriminate.
    rewrite split_ws_go_no_space by exact Hx. simpl.
    destruct x as [|c x]; [congruence|]. f_equal. apply IH. exact H2.
Qed.

Lemma split_space_join (l : list string) :
  l <> [] -> Forall (fun x => no_space x = true) l -> py_split " " (py_join " " l) = l.
Proof.
  intros Hne Hl. apply split_join_char; [exact Hne|].
  eapply Forall_impl; [|exact Hl]. intros x. apply no_space_no_char_space.
Qed.

(** ** Runs of spaces *)

Lemma char_lower_space (c : ascii) : Ascii.eqb (char_lower c) " " = Ascii.eqb c " ".
Proof. destruct c as [[] [] [] [] [] [] [] []]; reflexivity. Qed.

Lemma is_space_char_upper (c : ascii) : is_space (char_upper c) = is_space c.
Proof. destruct c as [[] [] [] [] [] [] [] []]; reflexivity. Qed.

Lemma is_space_char_lower (c : ascii) : is_space (char_lower c) = is_space c.
Proof. destruct c as [[] [] [] [] [] [] [] []]; reflexivity. Qed.

Lemma not_space_eqb (c : ascii) : is_space c = false -> Ascii.eqb c " " = false.
Proof. intros H. destruct (Ascii.eqb_spec c " ") as [->|]; [discriminate | reflexivity]. Qed.

Lemma space_run_go_lower (b : bool) (s : string) : space_run_go b (py_lower s) = space_run_go b s.
Proof.
  revert b. induction s as [|c s IH]; intros b; [reflexivity|].
  change (py_lower (String c s)) with (String (char_lower c) (py_lower s)). cbn [space_run_go].
  now rewrite char_lower_space, IH.
Qed.

Lemma space_run_no_space (b : bool) (s : string) : no_space s = true -> space_run_go b s = false.
Proof.
  unfold no_space. revert b. induction s as [|c s IH]; intros b Hs; [reflexivity|].
  cbn [all_chars] in Hs. apply andb_true_iff in Hs as [Hc Hs]. apply negb_true_iff in Hc.
  cbn [space_run_go]. rewrite not_space_eqb, IH by assumption. now destruct b.
Qed.

Lemma space_run_app (b : bool) (x y : string) :
  x <> "" -> no_space x = true -> space_run_go b (x +++ y) = space_run_go false y.
Proof.
  unfold no_space. revert b. induction x as [|c x IH]; intros b Hne Hx; [congruence|].
  cbn [all_chars] in Hx. apply andb_true_iff in Hx as [Hc Hx]. apply negb_true_iff in Hc.
  cbn [space_run_go String.append]. rewrite not_space_eqb by exact Hc. rewrite andb_false_r. cbn [orb].
  destruct x as [|d x]; [reflexivity|]. apply IH; [discriminate | exact Hx].
Qed.

(** Non-empty words without whitespace joined by single spaces hold no
    run of spaces. *)
Lemma space_run_join (b : bool) (l : list string) :
  Forall (fun x => x <> "" /\ no_space x = true) l -> space_run_go b (py_join " " l) = false.
Proof.
  revert b. induction l as [|x [|y l] IH]; intros b Hl; [reflexivity| |].
  - inv Hl. destruct H1 as [_ Hx]. apply space_run_no_space. exact Hx.
  - inv Hl. destruct H1 as [Hne Hx]. rewrite join_cons by discriminate.
    rewrite space_run_app by assumption. cbn [space_run_go]. apply IH. exact H2.
Qed.

Lemma split_ws_go_words (cur s : string) :
  no_space cur = true -> Forall (fun x => x <> "" /\ no_space x = true) (split_ws_go cur s).
Proof.
  revert cur. induction s as [|c s IH]; intros cur Hcur; cbn [split_ws_go].
  - destruct cur; constructor; [split; [discriminate | exact Hcur] | constructor].
  - destruct (is_space c) eqn:Hc.
    + destruct cur; [apply IH; reflexivity|].
      constructor; [split; [discriminate | exact Hcur] | apply IH; reflexivity].
    + apply IH. unfold no_space in *. rewrite all_chars_app, Hcur. cbn. now rewrite Hc.
Qed.

Lemma capitalize_word (x : string) :
  x <> "" /\ no_space x = true -> py_capitalize x <> "" /\ no_space (py_capitalize x) = true.
Proof.
  intros [Hne Hx]. destruct x as [|c r]; [congruence|]. split; [discriminate|].
  unfold no_space in *. cbn [py_capitalize all_chars] in *. apply andb_true_iff in Hx as [Hc Hr].
  rewrite is_space_char_upper, Hc. cbn [andb]. unfold py_lower.
  apply all_chars_smap_pres; [|exact Hr]. intros d Hd. now rewrite is_space_char_lower.
Qed.

(** [" ".join(w.capitalize() for w in s.split())] holds no run of spaces. *)
Lemma space_run_title_ws (s : string) :
  has_space_run (py_join " " (map py_capitalize (py_split_ws s))) = false.
Proof.
  apply space_run_join. apply Forall_map. eapply Forall_impl; [apply capitalize_word|].
  apply split_ws_go_words. reflexivity.
Qed.

Lemma digits_go_nonempty (f n : nat) (acc : string) :
  acc <> "" -> digits_go f n acc <> "".
Proof.
  revert n acc. induction f as [|f IH]; intros n acc H; cbn [digits_go]; [exact H|].
  destruct (n <? 10)%nat; [discriminate | apply IH; discriminate].
Qed.

Lemma py_str_nat_nonempty (n : nat) : py_str_nat n <> "".
Proof.
  unfold py_str_nat. cbn [digits_go].
  destruct (n <? 10)%nat; [discriminate | apply digits_go_nonempty; discriminate].
Qed.

Lemma digits_no_space (s : string) : all_chars is_digit s = true -> no_space s = true.
Proof.
  apply all_chars_impl. intros c. destruct c as [[|] [|] [|] [|] [|] [|] [|] [|]];
    cbv; congruence.
Qed.

Lemma py_str_int_pos (k : Z) : (0 <= k)%Z -> py_str_int k = py_str_nat (Z.to_nat k).
Proof. intros Hk. unfold py_str_int. destruct (k <? 0)%Z eqn:E; [lia | reflexivity]. Qed.

Lemma rstrip_no_space (s : string) : no_space s = true -> py_rstrip s = s.
Proof.
  unfold no_space. induction s as [|c r IH]; [reflexivity|]. cbn [all_chars py_rstrip].
  intros H. apply andb_true_iff in H as [Hc Hr]. rewrite (IH Hr).
  destruct r; [|reflexivity]. apply negb_true_iff in Hc. now rewrite Hc.
Qed.

Lemma strip_no_space (s : string) : no_space s = true -> py_strip s = s.
Proof.
  intros H. unfold py_strip. destruct s as [|c r]; [reflexivity|].
  assert (Hc : is_space c = false)
    by (unfold no_space in H; cbn [all_chars] in H; now destruct (is_space c)).
  cbn [py_lstrip]. rewrite Hc. now apply rstrip_no_space.
Qed.

Lemma digit_chars_no_space (s : string) : all_chars is_digit_char s = true -> no_space s = true.
Proof.
  apply all_chars_impl. intros c. destruct c as [[|] [|] [|] [|] [|] [|] [|] [|]];
    cbv; congruence.
Qed.

Lemma is_digit_ge (c : ascii) : is_digit c = true -> 48 <= nat_of_ascii c.
Proof.
  destruct c as [[|] [|] [|] [|] [|] [|] [|] [|]]; cbv -[Nat.le]; (discriminate || lia).
Qed.
