(* ===== verification/WordLists.v ===== *)
(** * WordLists: loading word lists and the two word filters

    Models [load_words], [load_exclusions] and [filter_excluded_words]
    (each defined identically in SpySpeak.py, SpySpeak-cli.py and
    SpySpeak-web.py) and the length filter written inline in every
    [generate_codename].  A file is given by its decoded contents
    ([Some text]) or is absent ([None], Python's [FileNotFoundError] or
    [os.path.exists] being false).  Reading a file in text mode first
    translates "\r\n" and "\r" to "\n" (universal newlines) and then
    iterates over the lines, each keeping its "\n". *)

From Stdlib Require Import String Ascii List ZArith Lia Bool.
From S2P Require Import Prelude PyStr.
Import ListNotations.
Open Scope string_scope.
Open Scope list_scope.
Open Scope spy_scope.

Definition LF : ascii := "010".
Definition CR : ascii := "013".

(** A one-character string holding a line feed, Python's ["\n"]. *)
Definition nl : string := String LF "".

(** ** Reading a text file *)

(** Universal-newline translation of Python's text mode. *)
Fixpoint translate_newlines (s : string) : string :=
  match s with
  | EmptyString => EmptyString
  | String c r =>
      if Ascii.eqb c CR
      then match r with
           | String d r' => if Ascii.eqb d LF then String LF (translate_newlines r')
                            else String LF (translate_newlines r)
           | EmptyString => String LF EmptyString
           end
      else String c (translate_newlines r)
  end.

(** [for line in file]: the lines, each with its terminating "\n" (the
    last one may have none). *)
Fixpoint lines_go (cur s : string) : list string :=
  match s with
  | EmptyString => match cur with EmptyString => [] | _ => [cur] end
  | String c r =>
      if Ascii.eqb c LF then (cur +++ String LF "") :: lines_go "" r
      else lines_go (cur +++ String c "") r
  end.

Definition file_lines (content : string) : list string :=
  lines_go "" (translate_newlines content).

(** [[line.strip() for line in file if line.strip()]]. *)
Definition stripped_nonblank (lines : list string) : list string :=
  map py_strip (filter (fun l => negb (String.eqb (py_strip l) "")) lines).

(** [load_words(filename)] (SpySpeak.py 8-17): the stripped non-blank
    lines, or [[]] when the file does not exist. *)
Definition load_words (file : option string) : list string :=
  match file with
  | None => []
  | Some content => stripped_nonblank (file_lines content)
  end.

(** [load_exclusions(filename)] (SpySpeak.py 48-60): as [load_words], each
    line also lower-cased. *)
Definition load_exclusions (file : option string) : list string :=
  match file with
  | None => []
  | Some content => map py_lower (stripped_nonblank (file_lines content))
  end.

(** ** Filters *)

(** [filter_excluded_words(words, exclusions)] (SpySpeak.py 96-103). *)
Definition filter_excluded_words (words exclusions : list string) : list string :=
  match exclusions with
  | [] => words
  | _ => filter (fun word => negb (py_in (py_lower word) exclusions)) words
  end.

(** The length filter of [generate_codename] (SpySpeak.py 139-146) on one
    list: [min_length] and [max_length] are Python [int]s, 0 (or less)
    meaning no bound. *)
Definition length_filter (min_length max_length : Z) (words : list string) : list string :=
  let words := if (0 <? min_length)%Z
               then filter (fun w => (min_length <=? Z.of_nat (String.length w))%Z) words
               else words in
  if (0 <? max_length)%Z
  then filter (fun w => (Z.of_nat (String.length w) <=? max_length)%Z) words
  else words.

(** A line as the loaders return it: non-empty, stripped, and without a
    line break. *)
Definition no_newline (s : string) : bool :=
  all_chars (fun c => negb (Ascii.eqb c LF) && negb (Ascii.eqb c CR))%bool s.

Definition canonical_line (s : string) : Prop :=
  s <> "" /\ py_strip s = s /\ no_newline s = true.

Definition len_ok (min_length max_length : Z) (w : string) : bool :=
  ((negb (0 <? min_length) || (min_length <=? Z.of_nat (String.length w)))
   && (negb (0 <? max_length) || (Z.of_nat (String.length w) <=? max_length)))%Z%bool.

Example load_words_ex :
  load_words (Some ("  Brave " +++ String CR (String LF "") +++ String LF "" +++ "Tiger"))
  = ["Brave"; "Tiger"].
Proof. reflexivity. Qed.

(** ** Reading files: the lines carry no line break once stripped *)

Lemma translate_newlines_no_cr (s : string) :
  all_chars (fun c => negb (Ascii.eqb c CR)) (translate_newlines s) = true.
Proof.
  remember (String.length s) as n eqn:Hn. revert s Hn.
  induction n as [n IH] using (well_founded_induction lt_wf). intros [|c r] Hn; [reflexivity|].
  simpl in Hn. cbn [translate_newlines].
  destruct (Ascii.eqb c CR) eqn:Ec.
  - destruct r as [|d r'] eqn:Er; [reflexivity|].
    destruct (Ascii.eqb d LF); cbn [all_chars]; (eapply IH; [|reflexivity]); simpl in Hn |- *; lia.
  - cbn [all_chars]. rewrite Ec. apply (IH (String.length r)); [lia | reflexivity].
Qed.

Lemma is_space_LF : is_space LF = true.
Proof. reflexivity. Qed.

Lemma lines_go_no_newline (cur s : string) :
  all_chars (fun c => negb (Ascii.eqb c CR)) s = true -> no_newline cur = true ->
  Forall (fun l => no_newline (py_strip l) = true) (lines_go cur s).
Proof.
  unfold no_newline. revert cur. induction s as [|c r IH]; intros cur Hs Hcur.
  - destruct cur; constructor; [now apply all_chars_strip | constructor].
  - cbn [all_chars] in Hs. apply andb_true_iff in Hs as [Hc Hr]. cbn [lines_go].
    destruct (Ascii.eqb c LF) eqn:E.
    + constructor; [|apply IH; auto].
      rewrite strip_app_spaces_gen by reflexivity. now apply all_chars_strip.
    + apply IH; [exact Hr|]. rewrite all_chars_app, Hcur. cbn [all_chars].
      now rewrite E, Hc.
Qed.

Lemma stripped_nonblank_canonical (lines : list string) :
  Forall (fun l => no_newline (py_strip l) = true) lines ->
  Forall canonical_line (stripped_nonblank lines).
Proof.
  unfold stripped_nonblank. induction 1 as [|l ls Hl _ IH]; simpl; [constructor|].
  destruct (String.eqb (py_strip l) "") eqn:E; simpl; [exact IH|].
  constructor; [|exact IH]. repeat split; [|apply strip_idem|exact Hl].
  intros H. rewrite H in E. discriminate.
Qed.

Lemma file_lines_canonical (content : string) :
  Forall canonical_line (stripped_nonblank (file_lines content)).
Proof.
  apply stripped_nonblank_canonical.
  apply lines_go_no_newline; [apply translate_newlines_no_cr | reflexivity].
Qed.

(** The lines of a file, stripped, non-blank and lower-cased. *)
Lemma lowered_lines_good (content : string) :
  Forall (fun e => e <> "" /\ py_lower e = e /\ no_newline e = true)
         (map py_lower (stripped_nonblank (file_lines content))).
Proof.
  pose proof (file_lines_canonical content) as Hc.
  apply Forall_map. eapply Forall_impl; [|exact Hc]. intros w [Hne [_ Hnl]].
  repeat split.
  - intros E. apply Hne. destruct w; [reflexivity | discriminate].
  - apply py_lower_idem.
  - revert Hnl. apply all_chars_smap_pres.
    intros c. destruct c as [[|] [|] [|] [|] [|] [|] [|] [|]]; cbv; congruence.
Qed.

(** ** The filters as plain list filters *)

Lemma length_filter_as_filter (mn mx : Z) (words : list string) :
  length_filter mn mx words = filter (len_ok mn mx) words.
Proof.
  unfold length_filter, len_ok.
  destruct (0 <? mn)%Z, (0 <? mx)%Z; simpl; rewrite ?filter_filter_comm;
    [| | | symmetry; now apply filter_id];
    apply filter_ext; intros w; rewrite ?andb_true_r, ?andb_true_l; reflexivity.
Qed.

Lemma len_ok_iff (mn mx : Z) (w : string) :
  len_ok mn mx w = true <->
  ((mn <= 0 \/ mn <= Z.of_nat (String.length w)) /\
   (mx <= 0 \/ Z.of_nat (String.length w) <= mx))%Z.
Proof.
  unfold len_ok. rewrite andb_true_iff, !orb_true_iff, !negb_true_iff,
    !Z.ltb_ge, !Z.leb_le. reflexivity.
Qed.

Lemma length_filter_in (mn mx : Z) (words : list string) (w : string) :
  In w (length_filter mn mx words) <-> In w words /\ len_ok mn mx w = true.
Proof. rewrite length_filter_as_filter. apply filter_In. Qed.

Lemma length_filter_incl (mn mx : Z) (words : list string) :
  incl (length_filter mn mx words) words.
Proof. intros w H. now apply length_filter_in in H. Qed.

Lemma filter_excluded_in (words exclusions : list string) (w : string) :
  In w (filter_excluded_words words exclusions) <->
  In w words /\ ~ In (py_lower w) exclusions.
Proof.
  unfold filter_excluded_words. destruct exclusions as [|e es].
  - simpl. tauto.
  - rewrite filter_In, negb_true_iff, py_in_false. reflexivity.
Qed.

Lemma filter_excluded_incl (words exclusions : list string) :
  incl (filter_excluded_words words exclusions) words.
Proof. intros w H. now apply filter_excluded_in in H. Qed.

#[export] Hint Resolve length_filter_incl filter_excluded_incl : spy.

(** ** Properties of the loaders and filters *)

(** C4 (type). [load_words] returns words as the specification's data
    model describes them (spec 3 and 4.1): each is non-empty, stripped of
    surrounding whitespace and free of line breaks, whatever the file
    holds ("\r\n", "\r" and "\n" endings, blank lines, indentation). *)
Theorem load_words_canonical (file : option string) :
  Forall canonical_line (load_words file).
Proof.
  destruct file as [content|]; [|constructor]. apply file_lines_canonical.
Qed.

(** C7 (type). [load_exclusions] returns non-empty lower-case terms, so
    the exclusion test [word.lower() not in exclusions] compares lower case
    with lower case (spec 3: "ExclusionSet: set of lowercase strings"). *)
Theorem load_exclusions_lowercase (file : option string) :
  Forall (fun e => e <> "" /\ py_lower e = e /\ no_newline e = true) (load_exclusions file).
Proof. destruct file as [content|]; [apply lowered_lines_good | constructor]. Qed.

(** C5 (equivalence, functional). [filter_excluded_words] with its
    short-circuit on an empty exclusion list is the plain filter "keep the
    words whose lower-case form is not excluded" (spec 4.2: the identity
    short-circuit has the same semantics); a word survives exactly when it
    was in the input and its lower-case form is not excluded. *)
Theorem filter_excluded_words_correct (words exclusions : list string) :
  filter_excluded_words words exclusions =
    filter (fun w => negb (py_in (py_lower w) exclusions)) words /\
  (forall w, In w (filter_excluded_words words exclusions) <->
             In w words /\ ~ In (py_lower w) exclusions).
Proof.
  split; [|apply filter_excluded_in].
  destruct exclusions as [|e es]; [|reflexivity].
  symmetry. apply filter_id. reflexivity.
Qed.

(** C6 (functional). The length filter keeps, in order, exactly the words
    whose length is within each active bound (a bound of 0 or less is
    inactive, spec 4.3). *)
Theorem length_filter_correct (min_length max_length : Z) (words : list string) :
  length_filter min_length max_length words = filter (len_ok min_length max_length) words /\
  (forall w, In w (length_filter min_length max_length words) <->
     In w words /\
     (min_length <= 0 \/ min_length <= Z.of_nat (String.length w))%Z /\
     (max_length <= 0 \/ Z.of_nat (String.length w) <= max_length)%Z).
Proof.
  split; [apply length_filter_as_filter|]. intros w.
  rewrite length_filter_in, len_ok_iff. reflexivity.
Qed.
