(* ===== verification/Random.v ===== *)
(** * Random: the pseudo-random source behind [random.choice] and [random.randint]

    The program calls the module-level functions of Python's [random]:
    [random.choice(seq)] and [random.randint(1, 999)].  Both reduce to the
    generator's private [_randbelow(n)], a uniform draw in [0, n).  The
    class [UniformSource] is the interface the generator is verified
    against: a state and a [randbelow] whose draws are below their bound.
    Two instances discharge it: a scripted source (a list of draws, which
    is how a test injects a deterministic source) and a 32-bit linear
    congruential generator.  No claim depends on the quality of the
    draws. *)

From Stdlib Require Import String Ascii List ZArith Lia Bool.
From S2P Require Import Prelude.
Import ListNotations.
Open Scope string_scope.
Open Scope list_scope.
Open Scope spy_scope.

Class UniformSource (S : Type) := {
  randbelow : nat -> S -> nat * S;
  randbelow_lt : forall n s, (0 < n)%nat -> (fst (randbelow n s) < n)%nat
}.

(** A 32-bit linear congruential generator (the constants of Numerical
    Recipes); the state is the 32-bit seed, the draw is the new seed
    reduced modulo the bound. *)
Definition lcg_next (seed : Z) : Z := ((1664525 * seed + 1013904223) mod 2 ^ 32)%Z.

Section Draws.
Context {S : Type} `{UniformSource S}.

(** [random.choice(seq)]:
    [if not len(seq): raise IndexError(...)]; [return seq[self._randbelow(len(seq))]]. *)
Definition choice {A : Type} (d : A) (seq : list A) : PyM S A :=
  match seq with
  | [] => praise IndexError
  | _ => fun s => let (i, s') := randbelow (length seq) s in inr (nth i seq d, s')
  end.

(** [random.randint(a, b)] = [randrange(a, b+1)]: [a + _randbelow(b+1-a)],
    [ValueError] on an empty range. *)
Definition randint (a b : Z) : PyM S Z :=
  if (b <? a)%Z then praise ValueError
  else fun s => let (i, s') := randbelow (Z.to_nat (b + 1 - a)) s in inr ((a + Z.of_nat i)%Z, s').

(** [for _ in range(n): xs.append(c)]: [n] runs of [c], in order. *)
Fixpoint repeat_m {A : Type} (n : nat) (c : PyM S A) : PyM S (list A) :=
  match n with
  | O => pret []
  | Datatypes.S k => x <- c;; xs <- repeat_m k c;; pret (x :: xs)
  end.

Lemma choice_in {A : Type} (d : A) (seq : list A) :
  seq <> [] -> succeeds (choice d seq) (fun x => In x seq).
Proof.
  intros Hne s. destruct seq as [|y ys]; [congruence|]. unfold choice.
  pose proof (randbelow_lt (length (y :: ys)) s ltac:(simpl; lia)) as Hlt.
  destruct (randbelow (length (y :: ys)) s) as [i s'] eqn:E. simpl in Hlt.
  exists (nth i (y :: ys) d), s'. split; [reflexivity|]. apply nth_In. exact Hlt.
Qed.

Lemma choice_singleton {A : Type} (d x : A) :
  forall s, exists s', choice d [x] s = inr (x, s').
Proof.
  intros s. unfold choice. change (length [x]) with 1%nat.
  pose proof (randbelow_lt 1 s ltac:(lia)) as Hlt.
  destruct (randbelow 1 s) as [i s'] eqn:E. simpl in Hlt.
  exists s'. replace i with 0%nat by lia. reflexivity.
Qed.

Lemma choice_empty {A : Type} (d : A) (s : S) : choice d [] s = inl (IndexError, s).
Proof. reflexivity. Qed.

Lemma randint_range (a b : Z) :
  (a <= b)%Z -> succeeds (randint a b) (fun k => (a <= k <= b)%Z).
Proof.
  intros Hab s. unfold randint.
  destruct (b <? a)%Z eqn:E; [apply Z.ltb_lt in E; lia|].
  pose proof (randbelow_lt (Z.to_nat (b + 1 - a)) s ltac:(lia)) as Hlt.
  destruct (randbelow (Z.to_nat (b + 1 - a)) s) as [i s'] eqn:Ed. simpl in Hlt.
  exists (a + Z.of_nat i)%Z, s'. split; [reflexivity | lia].
Qed.

Lemma repeat_m_succeeds {A : Type} (n : nat) (c : PyM S A) (P : A -> Prop) :
  succeeds c P -> succeeds (repeat_m n c) (fun xs => length xs = n /\ Forall P xs).
Proof.
  intros Hc. induction n as [|n IH]; simpl.
  - apply succeeds_ret. auto.
  - apply (succeeds_bind _ _ P); [exact Hc|]. intros x Hx.
    apply (succeeds_bind _ _ _ _ IH). intros xs [Hlen Hxs].
    apply succeeds_ret. simpl. auto.
Qed.

(** A computation that always returns the same value repeats it. *)
Lemma repeat_m_const {A : Type} (n : nat) (c : PyM S A) (x : A) :
  (forall s, exists s', c s = inr (x, s')) ->
  forall s, exists s', repeat_m n c s = inr (List.repeat x n, s').
Proof.
  intros Hc. induction n as [|n IH]; intros s; cbn [repeat_m]; [unfold pret; eauto|].
  destruct (Hc s) as [s1 E1]. rewrite (pbind_inr _ _ _ _ _ E1).
  destruct (IH s1) as [s2 E2]. rewrite (pbind_inr _ _ _ _ _ E2). exists s2. reflexivity.
Qed.

(** Partial-correctness forms, for statements about a run that returned. *)
Lemma randint_inr (a b : Z) (s s' : S) (k : Z) :
  randint a b s = inr (k, s') -> (a <= k <= b)%Z.
Proof.
  unfold randint. destruct (b <? a)%Z eqn:E; [discriminate|]. apply Z.ltb_ge in E.
  pose proof (randbelow_lt (Z.to_nat (b + 1 - a)) s ltac:(lia)) as Hlt.
  destruct (randbelow (Z.to_nat (b + 1 - a)) s) as [i s''] eqn:Ed. simpl in Hlt.
  intros Hk. injection Hk as <- <-. lia.
Qed.

Lemma repeat_m_forall {A : Type} (n : nat) (c : PyM S A) (P : A -> Prop) :
  (forall s x s', c s = inr (x, s') -> P x) ->
  forall s xs s', repeat_m n c s = inr (xs, s') -> Forall P xs.
Proof.
  intros Hc. induction n as [|n IH]; intros s xs s' E; cbn [repeat_m] in E.
  - injection E as <- _. constructor.
  - unfold pbind in E. destruct (c s) as [[e se]|[x s1]] eqn:E1; [discriminate|].
    destruct (repeat_m n c s1) as [[e se]|[ys s2]] eqn:E2; [discriminate|].
    injection E as <- _. constructor; [eapply Hc; eauto | eapply IH; eauto].
Qed.

Lemma repeat_m_length {A : Type} (n : nat) (c : PyM S A) (s s' : S) (xs : list A) :
  repeat_m n c s = inr (xs, s') -> length xs = n.
Proof.
  revert s s' xs. induction n as [|n IH]; intros s s' xs E; cbn [repeat_m] in E.
  - now injection E as <- _.
  - unfold pbind in E. destruct (c s) as [[e se]|[x s1]]; [discriminate|].
    destruct (repeat_m n c s1) as [[e se]|[ys s2]] eqn:E2; [discriminate|].
    injection E as <- _. simpl. f_equal. eapply IH. exact E2.
Qed.

Lemma choice_raises {A : Type} (d : A) (seq : list A) :
  raises_only (fun e => e = IndexError) (choice d seq).
Proof.
  intros s e s'. destruct seq as [|y ys]; [now intros [= <- _]|]. unfold choice.
  destruct (randbelow (length (y :: ys)) s). discriminate.
Qed.

Lemma randint_raises (a b : Z) : raises_only (fun e => e = ValueError) (randint a b).
Proof.
  intros s e s'. unfold randint. destruct (b <? a)%Z; [now intros [= <- _]|].
  destruct (randbelow (Z.to_nat (b + 1 - a)) s). discriminate.
Qed.

Lemma repeat_m_raises {A : Type} (P : py_exc -> Prop) (n : nat) (c : PyM S A) :
  raises_only P c -> raises_only P (repeat_m n c).
Proof.
  intros Hc. induction n as [|n IH]; cbn [repeat_m]; [apply raises_only_ret|].
  apply raises_only_bind; [exact Hc|]. intros x.
  apply raises_only_bind; [exact IH|]. intros xs. apply raises_only_ret.
Qed.

End Draws.

(** ** Instances of the interface *)

(** A scripted source: the draws are read from a list (reduced modulo the
    bound); an exhausted script draws 0. *)
#[export] Instance scripted_source : UniformSource (list nat).
Proof.
  refine {| randbelow := fun n s => match s with
                                    | [] => (0%nat, [])
                                    | x :: xs => (x mod n, xs)
                                    end |}.
  intros n [|x xs] Hn; simpl; [lia | apply Nat.mod_upper_bound; lia].
Defined.

(** The 32-bit linear congruential generator [lcg_next] as a source: the
    state is the seed, the draw is the new seed reduced modulo the
    bound. *)
#[export] Instance lcg_source : UniformSource Z.
Proof.
  refine {| randbelow := fun n seed =>
              let seed' := lcg_next seed in
              (Z.to_nat (seed' mod Z.of_nat n), seed') |}.
  intros n seed Hn. simpl.
  pose proof (Z.mod_pos_bound (lcg_next seed) (Z.of_nat n) ltac:(lia)). lia.
Defined.

Lemma lcg_next_bounds (seed : Z) : (0 <= lcg_next seed < 2 ^ 32)%Z.
Proof. unfold lcg_next. apply Z.mod_pos_bound. lia. Qed.
