(* ===== verification/Generator.v ===== *)
(** * Generator: the pattern engine, the case formatter and [generate_codename]

    The three scripts each define [generate_codename]; the bodies share
    the pattern engine (the [if pattern == ...] chain) and, except for
    one branch of title case in the web version, the case formatter.
    They differ in how they fail:
    - SpySpeak.py (interactive) returns a one-element list holding an
      error message ([Interactive.generate_codename]);
    - SpySpeak-cli.py writes to standard error and calls [sys.exit(1)]
      ([Cli.generate_codename], the exit is the [SystemExit] exception);
    - SpySpeak-web.py returns a dict [{"error": msg}]
      ([Web.generate_codename], the dict is [inl msg]).
    [Spec] states the contract of the specification (section 4.6) as a
    relation between the inputs and an [outcome]; the three refinement
    theorems at the end of the file show each variant implements it. *)

From Stdlib Require Import String Ascii List ZArith Lia Bool.
From S2P Require Import Prelude PyStr WordLists Random.
Import ListNotations.
Open Scope string_scope.
Open Scope list_scope.
Open Scope spy_scope.

Definition is_nil {A : Type} (l : list A) : bool :=
  match l with [] => true | _ => false end.

Section Engine.
Context {S : Type} `{UniformSource S}.

(** The pattern engine, SpySpeak.py 153-180 (identical in SpySpeak-cli.py
    117-144 and SpySpeak-web.py 108-135). *)
Definition raw_name (pattern separator : string) (adjectives nouns : list string) : PyM S string :=
  if String.eqb pattern "adj-noun" then
    adj <- choice "" adjectives;; noun <- choice "" nouns;;
    pret (adj +++ separator +++ noun)
  else if String.eqb pattern "noun-noun" then
    noun1 <- choice "" nouns;; noun2 <- choice "" nouns;;
    pret (noun1 +++ separator +++ noun2)
  else if String.eqb pattern "adj-adj-noun" then
    adj1 <- choice "" adjectives;; adj2 <- choice "" adjectives;; noun <- choice "" nouns;;
    pret (adj1 +++ separator +++ adj2 +++ separator +++ noun)
  else if String.eqb pattern "noun-adj" then
    noun <- choice "" nouns;; adj <- choice "" adjectives;;
    pret (noun +++ separator +++ adj)
  else if String.eqb pattern "adj-noun-number" then
    adj <- choice "" adjectives;; noun <- choice "" nouns;; number <- randint 1 999;;
    pret (adj +++ separator +++ noun +++ separator +++ py_str_int number)
  else
    adj <- choice "" adjectives;; noun <- choice "" nouns;;
    pret (adj +++ separator +++ noun).

(** The case formatter, SpySpeak.py 182-192 (identical in SpySpeak-cli.py
    146-156).  Title case first computes
    [" ".join(word.capitalize() for word in raw_name.split(separator))]
    and, when the separator is not a space, recomputes it joined with the
    separator; [split] raises [ValueError] on an empty separator. *)
Definition format_case (case_style separator raw : string) : PyM S string :=
  if String.eqb case_style "upper" then pret (py_upper raw)
  else if String.eqb case_style "lower" then pret (py_lower raw)
  else if String.eqb case_style "sentence" then pret (py_capitalize raw)
  else
    words <- str_split separator raw;;
    let formatted_name := py_join " " (map py_capitalize words) in
    if negb (String.eqb separator " ") then
      words' <- str_split separator raw;;
      pret (py_join separator (map py_capitalize words'))
    else pret formatted_name.

(** The case formatter of SpySpeak-web.py 137-148: with a space separator,
    title case splits on runs of whitespace ([raw_name.split()]). *)
Definition format_case_web (case_style separator raw : string) : PyM S string :=
  if String.eqb case_style "upper" then pret (py_upper raw)
  else if String.eqb case_style "lower" then pret (py_lower raw)
  else if String.eqb case_style "sentence" then pret (py_capitalize raw)
  else if String.eqb separator " " then
    pret (py_join " " (map py_capitalize (py_split_ws raw)))
  else
    words <- str_split separator raw;;
    pret (py_join separator (map py_capitalize words)).

(** One iteration of the loop body: draw, then format. *)
Definition codename_step (pattern case_style separator : string)
           (adjectives nouns : list string) : PyM S string :=
  raw <- raw_name pattern separator adjectives nouns;;
  format_case case_style separator raw.

Definition codename_step_web (pattern case_style separator : string)
           (adjectives nouns : list string) : PyM S string :=
  raw <- raw_name pattern separator adjectives nouns;;
  format_case_web case_style separator raw.

End Engine.

Module Interactive.
Section WithSource.
Context {S : Type} `{UniformSource S}.

Definition msg_missing := "Could not generate codename due to missing word lists".
Definition msg_excluded := "Could not generate codename: all words were excluded".
Definition msg_length := "Could not generate codename: no words meet the length criteria".

(** [generate_codename] of SpySpeak.py 105-196. *)
Definition generate_codename (adjectives nouns : list string) (count : Z)
           (exclusions : list string) (pattern case_style : string)
           (min_length max_length : Z) (separator : string) : PyM S (list string) :=
  if (is_nil adjectives || is_nil nouns)%bool then pret [msg_missing] else
  let '(adjectives, nouns, excluded_all) :=
    match exclusions with
    | [] => (adjectives, nouns, false)
    | _ => let a := filter_excluded_words adjectives exclusions in
           let n := filter_excluded_words nouns exclusions in
           (a, n, (is_nil a || is_nil n)%bool)
    end in
  if excluded_all then pret [msg_excluded] else
  let adjectives := length_filter min_length max_length adjectives in
  let nouns := length_filter min_length max_length nouns in
  if (is_nil adjectives || is_nil nouns)%bool then pret [msg_length] else
  repeat_m (Z.to_nat count) (codename_step pattern case_style separator adjectives nouns).

End WithSource.
End Interactive.

Module Cli.
Section WithSource.
Context {S : Type} `{UniformSource S}.

(** [generate_codename] of SpySpeak-cli.py 68-160. *)
Definition generate_codename (adjectives nouns : list string) (count : Z) (separator : string)
           (exclusions : list string) (pattern case_style : string)
           (min_length max_length : Z) : PyM S (list string) :=
  let adjectives := match exclusions with [] => adjectives
                    | _ => filter_excluded_words adjectives exclusions end in
  let nouns := match exclusions with [] => nouns
               | _ => filter_excluded_words nouns exclusions end in
  if is_nil adjectives then
    praise (SystemExit 1 ("Error: No valid adjectives available after applying exclusions" +++ nl))
  else if is_nil nouns then
    praise (SystemExit 1 ("Error: No valid nouns available after applying exclusions" +++ nl))
  else
  let adjectives := length_filter min_length max_length adjectives in
  let nouns := length_filter min_length max_length nouns in
  if is_nil adjectives then
    praise (SystemExit 1 ("Error: No adjectives meet the length criteria" +++ nl))
  else if is_nil nouns then
    praise (SystemExit 1 ("Error: No nouns meet the length criteria" +++ nl))
  else
  repeat_m (Z.to_nat count) (codename_step pattern case_style separator adjectives nouns).

End WithSource.
End Cli.

Module Web.
Section WithSource.
Context {S : Type} `{UniformSource S}.

(** [generate_codename] of SpySpeak-web.py 77-152; [inl msg] is the
    returned dict [{"error": msg}]. *)
Definition generate_codename (adjectives nouns : list string) (count : Z) (separator : string)
           (exclusions : list string) (pattern case_style : string)
           (min_length max_length : Z) : PyM S (string + list string) :=
  let adjectives := match exclusions with [] => adjectives
                    | _ => filter_excluded_words adjectives exclusions end in
  let nouns := match exclusions with [] => nouns
               | _ => filter_excluded_words nouns exclusions end in
  if is_nil adjectives then pret (inl "No valid adjectives available after applying exclusions")
  else if is_nil nouns then pret (inl "No valid nouns available after applying exclusions")
  else
  let adjectives := length_filter min_length max_length adjectives in
  let nouns := length_filter min_length max_length nouns in
  if is_nil adjectives then pret (inl "No adjectives meet the length criteria")
  else if is_nil nouns then pret (inl "No nouns meet the length criteria")
  else
  codenames <- repeat_m (Z.to_nat count)
                 (codename_step_web pattern case_style separator adjectives nouns);;
  pret (inr codenames).

End WithSource.
End Web.

(** ** The contract of the specification (section 4 of the spec) *)
Module Spec.

Inductive pattern_kind := AdjNoun | NounNoun | AdjAdjNoun | NounAdj | AdjNounNumber.

(** Unrecognised patterns fall back to adjective-noun (spec 4.4). *)
Definition classify_pattern (p : string) : pattern_kind :=
  if String.eqb p "adj-noun" then AdjNoun
  else if String.eqb p "noun-noun" then NounNoun
  else if String.eqb p "adj-adj-noun" then AdjAdjNoun
  else if String.eqb p "noun-adj" then NounAdj
  else if String.eqb p "adj-noun-number" then AdjNounNumber
  else AdjNoun.

Inductive case_kind := Title | Upper | Lower | Sentence.

(** Unrecognised case styles fall back to title case (spec 4.5). *)
Definition classify_case (c : string) : case_kind :=
  if String.eqb c "upper" then Upper
  else if String.eqb c "lower" then Lower
  else if String.eqb c "sentence" then Sentence
  else Title.

(** The raw strings a pattern may produce from the lists [A] and [N]
    (spec 4.4, draws with replacement). *)
Inductive composed (A N : list string) (sep : string) : pattern_kind -> string -> Prop :=
| comp_adj_noun a n :
    In a A -> In n N -> composed A N sep AdjNoun (a +++ sep +++ n)
| comp_noun_noun n1 n2 :
    In n1 N -> In n2 N -> composed A N sep NounNoun (n1 +++ sep +++ n2)
| comp_adj_adj_noun a1 a2 n :
    In a1 A -> In a2 A -> In n N -> composed A N sep AdjAdjNoun (a1 +++ sep +++ a2 +++ sep +++ n)
| comp_noun_adj n a :
    In n N -> In a A -> composed A N sep NounAdj (n +++ sep +++ a)
| comp_adj_noun_number a n k :
    In a A -> In n N -> (1 <= k <= 999)%Z ->
    composed A N sep AdjNounNumber (a +++ sep +++ n +++ sep +++ py_str_int k).

(** Title case (spec 4.5): split on the separator, capitalize each piece,
    rejoin; a single-space separator splits on runs of whitespace; an
    empty separator degrades to sentence case. *)
Definition title_case (sep raw : string) : string :=
  if String.eqb sep "" then py_capitalize raw
  else if String.eqb sep " " then py_join " " (map py_capitalize (py_split_ws raw))
  else py_join sep (map py_capitalize (py_split sep raw)).

Definition apply_case (k : case_kind) (sep raw : string) : string :=
  match k with
  | Upper => py_upper raw
  | Lower => py_lower raw
  | Sentence => py_capitalize raw
  | Title => title_case sep raw
  end.

(** The generation parameters (GenerationConfig of spec section 3). *)
Record config := mk_config {
  pattern : string;
  case_style : string;
  separator : string;
  min_length : Z;
  max_length : Z;
  count : Z
}.

Definition codename_ok (A N : list string) (cfg : config) (c : string) : Prop :=
  exists raw, composed A N (separator cfg) (classify_pattern (pattern cfg)) raw /\
              c = apply_case (classify_case (case_style cfg)) (separator cfg) raw.

Inductive failure := NoWordsAfterExclusion | NoWordsMeetLengthCriteria.

Inductive outcome := Failed (f : failure) | Generated (codenames : list string).

(** The orchestration contract of spec 4.6: exclusion filter, check,
    length filter, check, then [count] codenames. *)
Definition generate (adjectives nouns exclusions : list string) (cfg : config)
           (o : outcome) : Prop :=
  let A1 := filter_excluded_words adjectives exclusions in
  let N1 := filter_excluded_words nouns exclusions in
  let A2 := length_filter (min_length cfg) (max_length cfg) A1 in
  let N2 := length_filter (min_length cfg) (max_length cfg) N1 in
  if (is_nil A1 || is_nil N1)%bool then o = Failed NoWordsAfterExclusion
  else if (is_nil A2 || is_nil N2)%bool then o = Failed NoWordsMeetLengthCriteria
  else exists l, o = Generated l /\ length l = Z.to_nat (count cfg) /\
                 Forall (codename_ok A2 N2 cfg) l.

End Spec.

Import Spec.

(** ** How each variant reports its outcome *)

(** SpySpeak.py: a failure is a one-element list holding a message. *)
Inductive interactive_reports : outcome -> list string -> Prop :=
| rep_generated l : interactive_reports (Generated l) l
| rep_missing : interactive_reports (Failed NoWordsAfterExclusion) [Interactive.msg_missing]
| rep_excluded : interactive_reports (Failed NoWordsAfterExclusion) [Interactive.msg_excluded]
| rep_length : interactive_reports (Failed NoWordsMeetLengthCriteria) [Interactive.msg_length].

(** SpySpeak-cli.py: a failure is [sys.exit(1)] after a message. *)
Definition cli_outcome {S : Type} (r : (py_exc * S) + (list string * S)) : option outcome :=
  match r with
  | inr (l, _) => Some (Generated l)
  | inl (SystemExit 1 msg, _) =>
      if (String.eqb msg ("Error: No adjectives meet the length criteria" +++ nl)
          || String.eqb msg ("Error: No nouns meet the length criteria" +++ nl))%bool
      then Some (Failed NoWordsMeetLengthCriteria)
      else if (String.eqb msg ("Error: No valid adjectives available after applying exclusions" +++ nl)
               || String.eqb msg ("Error: No valid nouns available after applying exclusions" +++ nl))%bool
      then Some (Failed NoWordsAfterExclusion)
      else None
  | inl _ => None
  end.

(** SpySpeak-web.py: a failure is the dict [{"error": msg}]. *)
Definition web_outcome (r : string + list string) : option outcome :=
  match r with
  | inr l => Some (Generated l)
  | inl msg =>
      if (String.eqb msg "No adjectives meet the length criteria"
          || String.eqb msg "No nouns meet the length criteria")%bool
      then Some (Failed NoWordsMeetLengthCriteria)
      else if (String.eqb msg "No valid adjectives available after applying exclusions"
               || String.eqb msg "No valid nouns available after applying exclusions")%bool
      then Some (Failed NoWordsAfterExclusion)
      else None
  end.

(** A word without whitespace: for such words, splitting on one space and
    splitting on whitespace runs agree. *)
Definition word_simple (w : string) : Prop :=
  w <> "" /\ all_chars (fun c => negb (is_space c)) w = true.

(** The case formatter may be used on a raw name: title case needs a
    non-empty separator, and a space separator needs words without
    whitespace. *)
Definition title_ready (cfg : config) (A N : list string) : Prop :=
  classify_case (case_style cfg) = Title ->
  separator cfg <> "" /\ (separator cfg = " " -> Forall word_simple A /\ Forall word_simple N).

(** The raw name a pattern builds from one adjective and one noun. *)
Definition singleton_raw (k : pattern_kind) (a n sep : string) : string :=
  match k with
  | AdjNoun | AdjNounNumber => a +++ sep +++ n
  | NounNoun => n +++ sep +++ n
  | AdjAdjNoun => a +++ sep +++ a +++ sep +++ n
  | NounAdj => n +++ sep +++ a
  end.

(** A configuration used by the witnesses below. *)
Definition demo_cfg : config := mk_config "adj-noun-number" "title" "-" 0 0 3.

(** ** The engine meets the specification *)

Section EngineProofs.
Context {S : Type} `{UniformSource S}.

(** [draws] discharges the random draws of a pattern: each [choice] is
    from a non-empty list, each [randint] from a non-empty range. *)
Ltac draws :=
  repeat match goal with
  | |- succeeds (pbind (choice _ ?l) _) _ =>
      apply (succeeds_bind _ _ (fun x => In x l)); [apply choice_in; assumption | intros ? ?]
  | |- succeeds (pbind (randint 1 999) _) _ =>
      apply (succeeds_bind _ _ (fun k => (1 <= k <= 999)%Z));
      [apply randint_range; lia | intros ? ?]
  | |- succeeds (pret _) _ => apply succeeds_ret
  end.

Lemma raw_name_composed (pattern sep : string) (A N : list string) :
  A <> [] -> N <> [] ->
  succeeds (raw_name pattern sep A N) (composed A N sep (classify_pattern pattern)).
Proof.
  intros HA HN. unfold raw_name, classify_pattern.
  repeat match goal with
  | |- context [if String.eqb ?p ?q then _ else _] => destruct (String.eqb p q)
  end; draws; constructor; assumption.
Qed.

Lemma format_case_spec (cs sep raw : string) :
  (classify_case cs = Title -> sep <> "" /\ (sep = " " -> py_split " " raw = py_split_ws raw)) ->
  forall s : S, format_case cs sep raw s = inr (apply_case (classify_case cs) sep raw, s).
Proof.
  intros Ht s. revert Ht. unfold format_case, classify_case.
  destruct (String.eqb cs "upper"); [reflexivity|].
  destruct (String.eqb cs "lower"); [reflexivity|].
  destruct (String.eqb cs "sentence"); [reflexivity|].
  intros Ht. destruct (Ht eq_refl) as [Hne Hsp]. unfold str_split, apply_case, title_case.
  destruct sep as [|c r]; [congruence|].
  destruct (String.eqb (String c r) " ") eqn:E; [|reflexivity].
  apply String.eqb_eq in E. rewrite E in *. rewrite Hsp by reflexivity. reflexivity.
Qed.

Lemma format_case_web_spec (cs sep raw : string) :
  (classify_case cs = Title -> sep <> "") ->
  forall s : S, format_case_web cs sep raw s = inr (apply_case (classify_case cs) sep raw, s).
Proof.
  intros Ht s. revert Ht. unfold format_case_web, classify_case.
  destruct (String.eqb cs "upper"); [reflexivity|].
  destruct (String.eqb cs "lower"); [reflexivity|].
  destruct (String.eqb cs "sentence"); [reflexivity|].
  intros Ht. specialize (Ht eq_refl). unfold str_split, apply_case, title_case.
  destruct sep as [|c r]; [congruence|]. simpl String.eqb at 1.
  destruct (String.eqb (String c r) " "); reflexivity.
Qed.

(** A composed raw name is the separator-join of non-empty words taken
    from the lists or of digits. *)
Lemma composed_join (A N : list string) (sep : string) (k : pattern_kind) (raw : string) :
  composed A N sep k raw ->
  exists ws, ws <> [] /\ raw = py_join sep ws /\
    Forall (fun w => In w A \/ In w N \/ (w <> "" /\ all_chars is_digit w = true)) ws.
Proof.
  intros Hc. inv Hc;
    [exists [a; n] | exists [n1; n2] | exists [a1; a2; n] | exists [n; a] | exists [a; n; py_str_int k0]];
    (split; [discriminate | split; [reflexivity|]]);
    apply Forall_forall; simpl; intros w Hw; intuition (subst; auto).
  right; right. rewrite py_str_int_pos by lia.
  split; [apply py_str_nat_nonempty | apply py_str_nat_digits].
Qed.

Lemma composed_split_agree (A N : list string) (k : pattern_kind) (raw : string) :
  Forall word_simple A -> Forall word_simple N -> composed A N " " k raw ->
  py_split " " raw = py_split_ws raw.
Proof.
  intros HA HN Hc. destruct (composed_join _ _ _ _ _ Hc) as [ws [Hne [-> Hws]]].
  assert (Hs : Forall (fun x => x <> "" /\ no_space x = true) ws).
  { eapply Forall_impl; [|exact Hws]. rewrite Forall_forall in HA, HN.
    intros w [Hw | [Hw | [Hne' Hd]]]; [apply HA | apply HN | split; [|apply digits_no_space]]; auto. }
  rewrite split_ws_join, split_space_join; auto.
  eapply Forall_impl; [|exact Hs]. intros x [_ Hx]. exact Hx.
Qed.

Lemma codename_step_spec (cfg : config) (A N : list string) :
  A <> [] -> N <> [] -> title_ready cfg A N ->
  succeeds (codename_step (pattern cfg) (case_style cfg) (separator cfg) A N)
           (codename_ok A N cfg).
Proof.
  intros HA HN Ht. apply (succeeds_bind _ _ _ _ (raw_name_composed _ _ _ _ HA HN)).
  intros raw Hraw s. exists (apply_case (classify_case (case_style cfg)) (separator cfg) raw), s.
  split; [|exists raw; split; [exact Hraw | reflexivity]]. apply format_case_spec.
  intros Htitle. destruct (Ht Htitle) as [Hne Hsp]. split; [exact Hne|].
  intros Hsep. destruct (Hsp Hsep) as [HA' HN']. rewrite Hsep in Hraw.
  exact (composed_split_agree A N _ raw HA' HN' Hraw).
Qed.

Lemma codename_step_web_spec (cfg : config) (A N : list string) :
  A <> [] -> N <> [] -> (classify_case (case_style cfg) = Title -> separator cfg <> "") ->
  succeeds (codename_step_web (pattern cfg) (case_style cfg) (separator cfg) A N)
           (codename_ok A N cfg).
Proof.
  intros HA HN Ht. apply (succeeds_bind _ _ _ _ (raw_name_composed _ _ _ _ HA HN)).
  intros raw Hraw s. exists (apply_case (classify_case (case_style cfg)) (separator cfg) raw), s.
  split; [now apply format_case_web_spec | exists raw; split; [exact Hraw | reflexivity]].
Qed.

End EngineProofs.

(** ** The three outcomes of the contract *)

Lemma is_nil_false {A : Type} (l : list A) : is_nil l = false -> l <> [].
Proof. destruct l; [discriminate | congruence]. Qed.

Lemma excluded_match (l exclusions : list string) :
  match exclusions with [] => l | _ => filter_excluded_words l exclusions end =
  filter_excluded_words l exclusions.
Proof. destruct exclusions; reflexivity. Qed.

Section Outcomes.
Variables (adjectives nouns exclusions : list string) (cfg : config).
Let A1 := filter_excluded_words adjectives exclusions.
Let N1 := filter_excluded_words nouns exclusions.
Let A2 := length_filter (min_length cfg) (max_length cfg) A1.
Let N2 := length_filter (min_length cfg) (max_length cfg) N1.

Lemma spec_excluded :
  (is_nil A1 || is_nil N1)%bool = true -> generate adjectives nouns exclusions cfg (Failed NoWordsAfterExclusion).
Proof. intros E. unfold generate. fold A1 N1. now rewrite E. Qed.

Lemma spec_length :
  (is_nil A1 || is_nil N1)%bool = false -> (is_nil A2 || is_nil N2)%bool = true ->
  generate adjectives nouns exclusions cfg (Failed NoWordsMeetLengthCriteria).
Proof. intros E1 E2. unfold generate. fold A1 N1 A2 N2. now rewrite E1, E2. Qed.

Lemma spec_generated (l : list string) :
  (is_nil A1 || is_nil N1)%bool = false -> (is_nil A2 || is_nil N2)%bool = false ->
  length l = Z.to_nat (count cfg) -> Forall (codename_ok A2 N2 cfg) l ->
  generate adjectives nouns exclusions cfg (Generated l).
Proof. intros E1 E2 Hl Hf. unfold generate. fold A1 N1 A2 N2. rewrite E1, E2. eauto. Qed.

End Outcomes.

Lemma title_ready_incl (cfg : config) (A N A' N' : list string) :
  incl A' A -> incl N' N -> title_ready cfg A N -> title_ready cfg A' N'.
Proof.
  intros HA HN Ht Htitle. destruct (Ht Htitle) as [Hne Hsp]. split; [exact Hne|].
  intros Hsep. destruct (Hsp Hsep). split; eapply incl_Forall; eauto.
Qed.

Lemma filter_excluded_nil (exclusions : list string) :
  filter_excluded_words [] exclusions = [].
Proof. destruct exclusions; reflexivity. Qed.

Lemma is_nil_filter_excluded (l exclusions : list string) :
  is_nil l = true -> is_nil (filter_excluded_words l exclusions) = true.
Proof. destruct l; [now rewrite filter_excluded_nil | discriminate]. Qed.

(** [spec_outcome] closes a goal [generate ... (Failed _)] from the
    [is_nil] tests the code has made. *)
Ltac spec_outcome :=
  repeat match goal with H : is_nil _ = _ |- _ => revert H end;
  first [ intros; apply spec_excluded;
          repeat match goal with H : is_nil _ = _ |- _ => rewrite H end; reflexivity
        | intros; apply spec_length;
          repeat match goal with H : is_nil _ = _ |- _ => rewrite H end; reflexivity ].

Section Refinement.
Context {S : Type} `{UniformSource S}.

(** The interactive loop after a successful exclusion check. *)
Lemma interactive_tail (adjectives nouns exclusions : list string) (cfg : config) :
  title_ready cfg adjectives nouns ->
  (is_nil (filter_excluded_words adjectives exclusions) ||
   is_nil (filter_excluded_words nouns exclusions))%bool = false ->
  let A2 := length_filter (min_length cfg) (max_length cfg) (filter_excluded_words adjectives exclusions) in
  let N2 := length_filter (min_length cfg) (max_length cfg) (filter_excluded_words nouns exclusions) in
  succeeds (if (is_nil A2 || is_nil N2)%bool then pret [Interactive.msg_length]
            else repeat_m (Z.to_nat (count cfg))
                   (codename_step (pattern cfg) (case_style cfg) (separator cfg) A2 N2))
           (fun l => exists o, generate adjectives nouns exclusions cfg o /\ interactive_reports o l).
Proof.
  intros Ht E1 A2 N2. destruct (is_nil A2 || is_nil N2)%bool eqn:E2.
  - apply succeeds_ret. exists (Failed NoWordsMeetLengthCriteria).
    split; [now apply spec_length | constructor].
  - apply orb_false_iff in E2 as [EA2 EN2].
    eapply succeeds_mono.
    + apply repeat_m_succeeds, codename_step_spec; try (apply is_nil_false; assumption).
      eapply title_ready_incl; [| |exact Ht];
        (eapply incl_tran; [apply length_filter_incl | apply filter_excluded_incl]).
    + intros l [Hlen Hall]. exists (Generated l). split; [|constructor].
      apply spec_generated; auto. apply orb_false_iff; split; assumption.
Qed.

End Refinement.

Section Refinements.
Context {S : Type} `{UniformSource S}.

(** C1 (refinement). [generate_codename] of SpySpeak-web.py implements
    the contract of spec 4.6: it always returns (no exception) when title
    case has a non-empty separator, and what it returns is an error dict
    exactly when the contract fails with the matching failure, and
    otherwise [count] codenames each built by the chosen pattern from the
    filtered lists and formatted in the chosen case style. *)
Theorem web_generate_codename_refines (adjectives nouns exclusions : list string) (cfg : config) :
  (classify_case (case_style cfg) = Title -> separator cfg <> "") ->
  succeeds (S := S)
    (Web.generate_codename adjectives nouns (count cfg) (separator cfg) exclusions
       (pattern cfg) (case_style cfg) (min_length cfg) (max_length cfg))
    (fun r => exists o, web_outcome r = Some o /\ generate adjectives nouns exclusions cfg o).
Proof.
  intros Ht. unfold Web.generate_codename. rewrite !excluded_match.
  destruct (is_nil (filter_excluded_words adjectives exclusions)) eqn:EA1;
    [apply succeeds_ret; eexists; split; [reflexivity | spec_outcome]|].
  destruct (is_nil (filter_excluded_words nouns exclusions)) eqn:EN1;
    [apply succeeds_ret; eexists; split; [reflexivity | spec_outcome]|].
  destruct (is_nil (length_filter (min_length cfg) (max_length cfg)
                      (filter_excluded_words adjectives exclusions))) eqn:EA2;
    [apply succeeds_ret; eexists; split; [reflexivity | spec_outcome]|].
  destruct (is_nil (length_filter (min_length cfg) (max_length cfg)
                      (filter_excluded_words nouns exclusions))) eqn:EN2;
    [apply succeeds_ret; eexists; split; [reflexivity | spec_outcome]|].
  apply (succeeds_bind _ _ _ _ (repeat_m_succeeds _ _ _
           (codename_step_web_spec cfg _ _ (is_nil_false _ EA2) (is_nil_false _ EN2) Ht))).
  intros l [Hlen Hall]. apply succeeds_ret. exists (Generated l). split; [reflexivity|].
  apply spec_generated; auto; [now rewrite EA1, EN1 | now rewrite EA2, EN2].
Qed.

(** C2 (refinement). [generate_codename] of SpySpeak-cli.py implements the
    contract of spec 4.6: from every state of the random source it either
    returns [count] codenames allowed by the contract or exits with code
    1 after the message of the contract's failure; title case needs a
    non-empty separator and, with a space separator, words without
    whitespace (it splits on single spaces). *)
Theorem cli_generate_codename_refines (adjectives nouns exclusions : list string) (cfg : config) :
  title_ready cfg adjectives nouns ->
  forall s : S, exists o,
    cli_outcome (Cli.generate_codename adjectives nouns (count cfg) (separator cfg) exclusions
                   (pattern cfg) (case_style cfg) (min_length cfg) (max_length cfg) s) = Some o /\
    generate adjectives nouns exclusions cfg o.
Proof.
  intros Ht s. unfold Cli.generate_codename. rewrite !excluded_match.
  destruct (is_nil (filter_excluded_words adjectives exclusions)) eqn:EA1;
    [eexists; split; [reflexivity | spec_outcome]|].
  destruct (is_nil (filter_excluded_words nouns exclusions)) eqn:EN1;
    [eexists; split; [reflexivity | spec_outcome]|].
  destruct (is_nil (length_filter (min_length cfg) (max_length cfg)
                      (filter_excluded_words adjectives exclusions))) eqn:EA2;
    [eexists; split; [reflexivity | spec_outcome]|].
  destruct (is_nil (length_filter (min_length cfg) (max_length cfg)
                      (filter_excluded_words nouns exclusions))) eqn:EN2;
    [eexists; split; [reflexivity | spec_outcome]|].
  assert (Ht' : title_ready cfg
                  (length_filter (min_length cfg) (max_length cfg) (filter_excluded_words adjectives exclusions))
                  (length_filter (min_length cfg) (max_length cfg) (filter_excluded_words nouns exclusions)))
    by (eapply title_ready_incl; [| |exact Ht];
        (eapply incl_tran; [apply length_filter_incl | apply filter_excluded_incl])).
  destruct (repeat_m_succeeds (Z.to_nat (count cfg)) _ _
              (codename_step_spec cfg _ _ (is_nil_false _ EA2) (is_nil_false _ EN2) Ht') s)
    as [l [s' [E [Hlen Hall]]]].
  rewrite E. exists (Generated l). split; [reflexivity|].
  apply spec_generated; auto; [now rewrite EA1, EN1 | now rewrite EA2, EN2].
Qed.

(** C3 (refinement). [generate_codename] of SpySpeak.py implements the
    contract of spec 4.6: it always returns, and what it returns is either
    [count] codenames allowed by the contract or the one-element message
    list reporting the contract's failure ("missing word lists" and "all
    words were excluded" both report [NoWordsAfterExclusion]). *)
Theorem interactive_generate_codename_refines (adjectives nouns exclusions : list string)
        (cfg : config) :
  title_ready cfg adjectives nouns ->
  succeeds (S := S)
    (Interactive.generate_codename adjectives nouns (count cfg) exclusions
       (pattern cfg) (case_style cfg) (min_length cfg) (max_length cfg) (separator cfg))
    (fun l => exists o, generate adjectives nouns exclusions cfg o /\ interactive_reports o l).
Proof.
  intros Ht. unfold Interactive.generate_codename.
  destruct (is_nil adjectives || is_nil nouns)%bool eqn:E0.
  - apply succeeds_ret. exists (Failed NoWordsAfterExclusion). split; [|constructor].
    apply spec_excluded. apply orb_true_iff in E0 as [E|E]; apply orb_true_iff;
      [left | right]; now apply is_nil_filter_excluded.
  - destruct exclusions as [|e es]; [exact (interactive_tail adjectives nouns [] cfg Ht E0)|].
    cbv beta iota zeta.
    destruct (is_nil (filter_excluded_words adjectives (e :: es)) ||
              is_nil (filter_excluded_words nouns (e :: es)))%bool eqn:E1.
    + apply succeeds_ret. exists (Failed NoWordsAfterExclusion).
      split; [now apply spec_excluded | constructor].
    + exact (interactive_tail adjectives nouns (e :: es) cfg Ht E1).
Qed.

End Refinements.
(** ** Each variant once its checks pass *)

Lemma nonnil_incl {A : Type} (l l' : list A) : incl l l' -> l <> [] -> l' <> [].
Proof.
  intros Hi Hne E. subst. destruct l as [|x l]; [congruence|].
  exact (Hi x (or_introl eq_refl)).
Qed.

Lemma is_nil_nonnil {A : Type} (l : list A) : l <> [] -> is_nil l = false.
Proof. destruct l; [congruence | reflexivity]. Qed.

Section AfterExclusion.
Context {S : Type} `{UniformSource S}.
Variables (adjectives nouns exclusions : list string) (mn mx : Z).
Hypotheses (HA1 : filter_excluded_words adjectives exclusions <> [])
           (HN1 : filter_excluded_words nouns exclusions <> []).

Lemma interactive_after_exclusion (count : Z) (pattern cs sep : string) :
  Interactive.generate_codename (S := S) adjectives nouns count exclusions pattern cs mn mx sep =
  if (is_nil (length_filter mn mx (filter_excluded_words adjectives exclusions)) ||
      is_nil (length_filter mn mx (filter_excluded_words nouns exclusions)))%bool
  then pret [Interactive.msg_length]
  else repeat_m (Z.to_nat count) (codename_step pattern cs sep
         (length_filter mn mx (filter_excluded_words adjectives exclusions))
         (length_filter mn mx (filter_excluded_words nouns exclusions))).
Proof.
  pose proof (nonnil_incl _ _ (filter_excluded_incl _ _) HA1) as HA.
  pose proof (nonnil_incl _ _ (filter_excluded_incl _ _) HN1) as HN.
  unfold Interactive.generate_codename.
  rewrite (is_nil_nonnil _ HA), (is_nil_nonnil _ HN). cbv beta iota zeta.
  destruct exclusions as [|e es]; cbv beta iota zeta; [reflexivity|].
  rewrite (is_nil_nonnil _ HA1), (is_nil_nonnil _ HN1). reflexivity.
Qed.

Lemma cli_after_exclusion (count : Z) (pattern cs sep : string) :
  Cli.generate_codename (S := S) adjectives nouns count sep exclusions pattern cs mn mx =
  if is_nil (length_filter mn mx (filter_excluded_words adjectives exclusions)) then
    praise (SystemExit 1 ("Error: No adjectives meet the length criteria" +++ nl))
  else if is_nil (length_filter mn mx (filter_excluded_words nouns exclusions)) then
    praise (SystemExit 1 ("Error: No nouns meet the length criteria" +++ nl))
  else repeat_m (Z.to_nat count) (codename_step pattern cs sep
         (length_filter mn mx (filter_excluded_words adjectives exclusions))
         (length_filter mn mx (filter_excluded_words nouns exclusions))).
Proof.
  unfold Cli.generate_codename. rewrite !excluded_match.
  rewrite (is_nil_nonnil _ HA1), (is_nil_nonnil _ HN1). reflexivity.
Qed.

Lemma web_after_exclusion (count : Z) (pattern cs sep : string) :
  Web.generate_codename (S := S) adjectives nouns count sep exclusions pattern cs mn mx =
  if is_nil (length_filter mn mx (filter_excluded_words adjectives exclusions)) then
    pret (inl "No adjectives meet the length criteria")
  else if is_nil (length_filter mn mx (filter_excluded_words nouns exclusions)) then
    pret (inl "No nouns meet the length criteria")
  else (codenames <- repeat_m (Z.to_nat count) (codename_step_web pattern cs sep
          (length_filter mn mx (filter_excluded_words adjectives exclusions))
          (length_filter mn mx (filter_excluded_words nouns exclusions)));;
        pret (inr codenames)).
Proof.
  unfold Web.generate_codename. rewrite !excluded_match.
  rewrite (is_nil_nonnil _ HA1), (is_nil_nonnil _ HN1). reflexivity.
Qed.

End AfterExclusion.

Section ChecksPass.
Context {S : Type} `{UniformSource S}.
Variables (adjectives nouns exclusions : list string) (mn mx : Z).
Hypotheses (HA2 : length_filter mn mx (filter_excluded_words adjectives exclusions) <> [])
           (HN2 : length_filter mn mx (filter_excluded_words nouns exclusions) <> []).

Let HA1 : filter_excluded_words adjectives exclusions <> [].
Proof. exact (nonnil_incl _ _ (length_filter_incl _ _ _) HA2). Qed.
Let HN1 : filter_excluded_words nouns exclusions <> [].
Proof. exact (nonnil_incl _ _ (length_filter_incl _ _ _) HN2). Qed.

Lemma interactive_checks_pass (count : Z) (pattern cs sep : string) :
  Interactive.generate_codename (S := S) adjectives nouns count exclusions pattern cs mn mx sep =
  repeat_m (Z.to_nat count) (codename_step pattern cs sep
    (length_filter mn mx (filter_excluded_words adjectives exclusions))
    (length_filter mn mx (filter_excluded_words nouns exclusions))).
Proof.
  rewrite interactive_after_exclusion by assumption.
  now rewrite (is_nil_nonnil _ HA2), (is_nil_nonnil _ HN2).
Qed.

Lemma cli_checks_pass (count : Z) (pattern cs sep : string) :
  Cli.generate_codename (S := S) adjectives nouns count sep exclusions pattern cs mn mx =
  repeat_m (Z.to_nat count) (codename_step pattern cs sep
    (length_filter mn mx (filter_excluded_words adjectives exclusions))
    (length_filter mn mx (filter_excluded_words nouns exclusions))).
Proof.
  rewrite cli_after_exclusion by assumption.
  now rewrite (is_nil_nonnil _ HA2), (is_nil_nonnil _ HN2).
Qed.

Lemma web_checks_pass (count : Z) (pattern cs sep : string) :
  Web.generate_codename (S := S) adjectives nouns count sep exclusions pattern cs mn mx =
  (codenames <- repeat_m (Z.to_nat count) (codename_step_web pattern cs sep
     (length_filter mn mx (filter_excluded_words adjectives exclusions))
     (length_filter mn mx (filter_excluded_words nouns exclusions)));;
   pret (inr codenames)).
Proof.
  rewrite web_after_exclusion by assumption.
  now rewrite (is_nil_nonnil _ HA2), (is_nil_nonnil _ HN2).
Qed.

End ChecksPass.

(** ** Helper facts on single runs *)

Lemma classify_title (cs : string) :
  classify_case cs = Title ->
  String.eqb cs "upper" = false /\ String.eqb cs "lower" = false /\ String.eqb cs "sentence" = false.
Proof.
  unfold classify_case.
  destruct (String.eqb cs "upper"), (String.eqb cs "lower"), (String.eqb cs "sentence");
    easy.
Qed.

Section EmptySeparator.
Context {S : Type} `{UniformSource S}.

(** One codename in title case with an empty separator: the draws of
    the raw name succeed and [str.split("")] raises, in the state those
    draws reached. *)
Lemma title_empty_step (pattern cs : string) (A N : list string) :
  classify_case cs = Title -> A <> [] -> N <> [] ->
  forall s : S, exists raw s1, raw_name pattern "" A N s = inr (raw, s1) /\
    codename_step pattern cs "" A N s = inl (ValueError, s1) /\
    codename_step_web pattern cs "" A N s = inl (ValueError, s1).
Proof.
  intros Hc HA HN s.
  destruct (raw_name_composed pattern "" _ _ HA HN s) as [raw [s1 [E _]]].
  destruct (classify_title cs Hc) as [E1 [E2 E3]].
  exists raw, s1. split; [exact E|].
  unfold codename_step, codename_step_web, format_case, format_case_web, pbind.
  rewrite E, E1, E2, E3. split; reflexivity.
Qed.

(** Every run of the web [generate_codename] ends in one of the
    contract's outcomes or in the [ValueError] of title case with an
    empty separator; this is what the web handlers turn into a response. *)
Lemma web_generate_codename_cases (adjectives nouns exclusions : list string) (cfg : config) (s : S) :
  match Web.generate_codename adjectives nouns (count cfg) (separator cfg) exclusions
          (pattern cfg) (case_style cfg) (min_length cfg) (max_length cfg) s with
  | inr (r, _) => exists o, web_outcome r = Some o /\ generate adjectives nouns exclusions cfg o
  | inl (e, _) => e = ValueError /\ classify_case (case_style cfg) = Title /\ separator cfg = ""
  end.
Proof.
  unfold Web.generate_codename. rewrite !excluded_match.
  destruct (is_nil (filter_excluded_words adjectives exclusions)) eqn:EA1;
    [eexists; split; [reflexivity | spec_outcome]|].
  destruct (is_nil (filter_excluded_words nouns exclusions)) eqn:EN1;
    [eexists; split; [reflexivity | spec_outcome]|].
  destruct (is_nil (length_filter (min_length cfg) (max_length cfg)
                      (filter_excluded_words adjectives exclusions))) eqn:EA2;
    [eexists; split; [reflexivity | spec_outcome]|].
  destruct (is_nil (length_filter (min_length cfg) (max_length cfg)
                      (filter_excluded_words nouns exclusions))) eqn:EN2;
    [eexists; split; [reflexivity | spec_outcome]|].
  apply is_nil_false in EA2, EN2.
  assert (Hdec : (classify_case (case_style cfg) = Title /\ separator cfg = "") \/
                 (classify_case (case_style cfg) = Title -> separator cfg <> "")).
  { destruct (classify_case (case_style cfg)); [destruct (string_dec (separator cfg) "")|..];
      [left; auto | right; congruence ..]. }
  destruct Hdec as [[Ec Es] | Ht].
  - rewrite Es. destruct (Z.to_nat (count cfg)) as [|k] eqn:Ek; cbn [repeat_m].
    + exists (Generated []). split; [reflexivity|].
      apply spec_generated; [now rewrite EA1, EN1 | now rewrite (is_nil_nonnil _ EA2), (is_nil_nonnil _ EN2)
                            | cbn; lia | constructor].
    + destruct (title_empty_step (pattern cfg) (case_style cfg) _ _ Ec EA2 EN2 s) as [raw [s1 [_ [_ E2]]]].
      unfold pbind. rewrite E2. auto.
  - destruct (repeat_m_succeeds (Z.to_nat (count cfg)) _ _
                (codename_step_web_spec cfg _ _ EA2 EN2 Ht) s) as [l [s' [E [Hlen Hall]]]].
    unfold pbind. rewrite E. exists (Generated l). split; [reflexivity|].
    apply spec_generated; auto; [now rewrite EA1, EN1 | now rewrite (is_nil_nonnil _ EA2), (is_nil_nonnil _ EN2)].
Qed.
End EmptySeparator.


Lemma composed_singleton (a n sep : string) (k : pattern_kind) (raw : string) :
  composed [a] [n] sep k raw -> k <> AdjNounNumber -> raw = singleton_raw k a n sep.
Proof.
  intros Hc Hk. inv Hc; simpl in *;
    repeat match goal with H : _ \/ False |- _ => destruct H as [<-|[]] end;
    reflexivity || congruence.
Qed.

Lemma py_lower_digits (d : string) : all_chars is_digit d = true -> py_lower d = d.
Proof.
  intros H. apply py_lower_digits_eq; [|exact H]. unfold py_lower.
  revert H. induction d as [|c d IH]; [reflexivity|]. cbn [all_chars smap].
  rewrite andb_true_iff. intros [Hc Hd]. rewrite IH by exact Hd. f_equal.
  revert Hc. destruct c as [[|] [|] [|] [|] [|] [|] [|] [|]]; cbv; congruence.
Qed.

Section Runs.
Context {S : Type} `{UniformSource S}.

Lemma raw_name_singleton (p sep a n : string) :
  classify_pattern p <> AdjNounNumber ->
  forall s : S, exists s', raw_name p sep [a] [n] s = inr (singleton_raw (classify_pattern p) a n sep, s').
Proof.
  intros Hk s.
  destruct (raw_name_composed p sep [a] [n] ltac:(discriminate) ltac:(discriminate) s)
    as [raw [s' [E Hc]]].
  exists s'. rewrite E. now rewrite (composed_singleton _ _ _ _ _ Hc Hk).
Qed.

(** Whatever the case style, formatting only changes the case of letters
    (title case splits and rejoins on the separator). *)
Lemma format_case_lower (cs sep raw c : string) (s s' : S) :
  format_case cs sep raw s = inr (c, s') -> py_lower c = py_lower raw /\ s' = s.
Proof.
  unfold format_case.
  destruct (String.eqb cs "upper"); [intros E; injection E as <- <-; auto using py_lower_upper|].
  destruct (String.eqb cs "lower"); [intros E; injection E as <- <-; auto using py_lower_idem|].
  destruct (String.eqb cs "sentence");
    [intros E; injection E as <- <-; auto using py_lower_capitalize|].
  unfold str_split. destruct sep as [|x r] eqn:Esep; [discriminate|].
  rewrite <- Esep. unfold pbind, pret.
  assert (Hj : py_lower (py_join sep (map py_capitalize (py_split sep raw))) = py_lower raw).
  { rewrite py_lower_join, map_map.
    rewrite (map_ext _ _ py_lower_capitalize), <- py_lower_join. now rewrite join_split. }
  destruct (negb (String.eqb sep " ")) eqn:E1; intros E; injection E as <- <-; [auto|].
  apply negb_false_iff, String.eqb_eq in E1. rewrite <- E1. auto.
Qed.

Lemma codename_step_number (cs sep : string) (A N : list string) (s s' : S) (c : string) :
  codename_step "adj-noun-number" cs sep A N s = inr (c, s') ->
  exists p k, (1 <= k <= 999)%Z /\ c = p +++ py_str_int k.
Proof.
  unfold codename_step, raw_name. cbn [String.eqb Ascii.eqb Bool.eqb andb]. unfold pbind, pret.
  destruct (choice "" A s) as [[e se]|[a s1]]; [discriminate|].
  destruct (choice "" N s1) as [[e se]|[n s2]]; [discriminate|].
  destruct (randint 1 999 s2) as [[e se]|[k s3]] eqn:Ek; [discriminate|].
  intros E. apply format_case_lower in E as [Hl _]. apply randint_inr in Ek.
  assert (Hd : all_chars is_digit (py_str_int k) = true)
    by (rewrite py_str_int_pos by lia; apply py_str_nat_digits).
  rewrite !py_lower_app, (py_lower_digits _ Hd), <- !sapp_assoc in Hl.
  destruct (py_lower_digit_suffix _ _ _ Hl Hd) as [p ->]. eauto.
Qed.

End Runs.

(** ** Properties of single runs *)

Section RunProperties.
Context {S : Type} `{UniformSource S}.

(** C14 (functional). Single-element word lists collapse the randomness
    (spec 8): with one adjective and one noun that pass the length
    filter, the interactive [generate_codename] returns [count] copies of
    the one codename the pattern and case style determine, from every
    state of the random source. *)
Theorem interactive_singleton_deterministic (a n : string) (cfg : config) :
  title_ready cfg [a] [n] -> classify_pattern (pattern cfg) <> AdjNounNumber ->
  len_ok (min_length cfg) (max_length cfg) a = true ->
  len_ok (min_length cfg) (max_length cfg) n = true ->
  forall s : S, exists s',
    Interactive.generate_codename [a] [n] (count cfg) [] (pattern cfg) (case_style cfg)
      (min_length cfg) (max_length cfg) (separator cfg) s =
    inr (List.repeat (apply_case (classify_case (case_style cfg)) (separator cfg)
                        (singleton_raw (classify_pattern (pattern cfg)) a n (separator cfg)))
                     (Z.to_nat (count cfg)), s').
Proof.
  intros Ht Hk Ha Hn.
  assert (EA : length_filter (min_length cfg) (max_length cfg) (filter_excluded_words [a] []) = [a])
    by (rewrite length_filter_as_filter; simpl; now rewrite Ha).
  assert (EN : length_filter (min_length cfg) (max_length cfg) (filter_excluded_words [n] []) = [n])
    by (rewrite length_filter_as_filter; simpl; now rewrite Hn).
  rewrite interactive_checks_pass by (rewrite ?EA, ?EN; discriminate). rewrite EA, EN.
  apply repeat_m_const. intros s.
  destruct (codename_step_spec cfg [a] [n] ltac:(discriminate) ltac:(discriminate) Ht s)
    as [c [s' [E [raw [Hraw ->]]]]].
  exists s'. rewrite E. now rewrite (composed_singleton _ _ _ _ _ Hraw Hk).
Qed.

(** C15 (error). When exclusion removes every adjective (spec 8: adjectives
    ["ghost"], exclusions ["ghost"]), each variant reports
    [NoWordsAfterExclusion] and draws nothing: the interactive one returns
    its message list, the CLI exits with code 1, the web one returns the
    error dict. *)
Theorem all_adjectives_excluded_fails (adjectives nouns exclusions : list string) (count : Z)
        (pattern cs sep : string) (mn mx : Z) :
  adjectives <> [] -> nouns <> [] -> exclusions <> [] ->
  Forall (fun w => In (py_lower w) exclusions) adjectives ->
  forall s : S,
    Interactive.generate_codename adjectives nouns count exclusions pattern cs mn mx sep s =
      inr ([Interactive.msg_excluded], s) /\
    Cli.generate_codename adjectives nouns count sep exclusions pattern cs mn mx s =
      inl (SystemExit 1 ("Error: No valid adjectives available after applying exclusions" +++ nl), s) /\
    Web.generate_codename adjectives nouns count sep exclusions pattern cs mn mx s =
      inr (inl "No valid adjectives available after applying exclusions", s).
Proof.
  intros HA HN HE Hall s.
  assert (E : filter_excluded_words adjectives exclusions = []).
  { destruct (filter_excluded_words adjectives exclusions) as [|w ws] eqn:Ef; [reflexivity|].
    assert (Hw : In w (filter_excluded_words adjectives exclusions)) by (rewrite Ef; now left).
    apply filter_excluded_in in Hw as [Hin Hnot]. rewrite Forall_forall in Hall.
    now destruct (Hnot (Hall w Hin)). }
  unfold Interactive.generate_codename, Cli.generate_codename, Web.generate_codename.
  rewrite (is_nil_nonnil _ HA), (is_nil_nonnil _ HN), !excluded_match, E.
  destruct exclusions as [|e es]; [congruence|]. cbv beta iota zeta. rewrite ?E.
  repeat split.
Qed.

(** C16 (error). When no adjective or no noun left by exclusion meets the
    length bounds, each variant reports [NoWordsMeetLengthCriteria] and
    draws nothing. *)
Theorem length_criteria_fails (adjectives nouns exclusions : list string) (count : Z)
        (pattern cs sep : string) (mn mx : Z) :
  filter_excluded_words adjectives exclusions <> [] ->
  filter_excluded_words nouns exclusions <> [] ->
  length_filter mn mx (filter_excluded_words adjectives exclusions) = [] \/
  length_filter mn mx (filter_excluded_words nouns exclusions) = [] ->
  forall s : S,
    Interactive.generate_codename adjectives nouns count exclusions pattern cs mn mx sep s =
      inr ([Interactive.msg_length], s) /\
    cli_outcome (Cli.generate_codename adjectives nouns count sep exclusions pattern cs mn mx s) =
      Some (Failed NoWordsMeetLengthCriteria) /\
    (exists msg, Web.generate_codename adjectives nouns count sep exclusions pattern cs mn mx s =
                   inr (inl msg, s) /\ web_outcome (inl msg) = Some (Failed NoWordsMeetLengthCriteria)).
Proof.
  intros HA1 HN1 Hlen s.
  rewrite interactive_after_exclusion, cli_after_exclusion, web_after_exclusion by assumption.
  destruct Hlen as [E | E]; rewrite E;
    [| destruct (is_nil (length_filter mn mx (filter_excluded_words adjectives exclusions)))];
    cbn [is_nil orb];
    (split; [reflexivity | split; [reflexivity | eexists; split; reflexivity]]).
Qed.

(** C17 (bounds). With the [adj-noun-number] pattern every codename the CLI
    returns ends with the decimal digits of a number in [1, 999], whatever
    the case style (spec 8). *)
Theorem cli_number_suffix (adjectives nouns exclusions : list string) (count : Z)
        (cs sep : string) (mn mx : Z) (s s' : S) (l : list string) :
  Cli.generate_codename adjectives nouns count sep exclusions "adj-noun-number" cs mn mx s =
    inr (l, s') ->
  Forall (fun c => exists p k, (1 <= k <= 999)%Z /\ c = p +++ py_str_int k) l.
Proof.
  unfold Cli.generate_codename. rewrite !excluded_match.
  destruct (is_nil (filter_excluded_words adjectives exclusions)); [discriminate|].
  destruct (is_nil (filter_excluded_words nouns exclusions)); [discriminate|].
  destruct (is_nil (length_filter mn mx (filter_excluded_words adjectives exclusions)));
    [discriminate|].
  destruct (is_nil (length_filter mn mx (filter_excluded_words nouns exclusions)));
    [discriminate|].
  apply repeat_m_forall. intros. eapply codename_step_number. eassumption.
Qed.

(** C25 (error). Title case with an empty separator raises [ValueError]
    ("empty separator", from [str.split]) on the first codename instead of
    degrading to sentence case as spec 4.5 says; the interactive shell does
    not catch it (the CLI and the web shell turn it into an error).  The
    exception leaves the random source where the draws of the first raw
    name left it. *)
Theorem title_empty_separator_raises (adjectives nouns exclusions : list string) (count : Z)
        (pattern cs : string) (mn mx : Z) :
  classify_case cs = Title -> (1 <= count)%Z ->
  length_filter mn mx (filter_excluded_words adjectives exclusions) <> [] ->
  length_filter mn mx (filter_excluded_words nouns exclusions) <> [] ->
  forall s : S, exists raw s1,
    raw_name pattern "" (length_filter mn mx (filter_excluded_words adjectives exclusions))
      (length_filter mn mx (filter_excluded_words nouns exclusions)) s = inr (raw, s1) /\
    Interactive.generate_codename adjectives nouns count exclusions pattern cs mn mx "" s =
      inl (ValueError, s1) /\
    Cli.generate_codename adjectives nouns count "" exclusions pattern cs mn mx s = inl (ValueError, s1) /\
    Web.generate_codename adjectives nouns count "" exclusions pattern cs mn mx s = inl (ValueError, s1).
Proof.
  intros Hc Hcount HA2 HN2 s.
  rewrite interactive_checks_pass, cli_checks_pass, web_checks_pass by assumption.
  destruct (Z.to_nat count) as [|k] eqn:Ek; [lia|]. cbn [repeat_m].
  destruct (title_empty_step pattern cs _ _ Hc HA2 HN2 s) as [raw [s1 [Er [E1 E2]]]].
  exists raw, s1. unfold pbind. now rewrite E1, E2.
Qed.

(** C18 (functional). Formatting an ASCII raw name only changes the case
    of its letters, in every case style: the lower-cased result is the
    lower-cased raw name, its length is the raw name's (spec 8, upper and
    lower keep the length; title case splits and rejoins on the
    separator), and no draw is made.  On non-ASCII text Python's case
    maps can change the length ([ß] upper-cases to [SS]), which is
    outside the ASCII case rules of the specification. *)
Theorem format_case_preserves_text (cs sep raw c : string) (s s' : S) :
  py_isascii raw = true ->
  format_case cs sep raw s = inr (c, s') ->
  py_lower c = py_lower raw /\ String.length c = String.length raw /\ s' = s.
Proof.
  intros _ E. destruct (format_case_lower _ _ _ _ _ _ E) as [Hl Hs].
  repeat split; [exact Hl | | exact Hs].
  rewrite <- (smap_length char_lower c), <- (smap_length char_lower raw). fold (py_lower c) (py_lower raw).
  now rewrite Hl.
Qed.

(** [upper] yields no lower-case letter, [lower] no
    upper-case letter, both keep the length, and [lower] is idempotent
    (spec 8). *)
Theorem format_case_upper_lower (sep raw : string) (s : S) :
  format_case "upper" sep raw s = inr (py_upper raw, s) /\
  all_chars (fun c => negb (is_lower c)) (py_upper raw) = true /\
  String.length (py_upper raw) = String.length raw /\
  format_case "lower" sep raw s = inr (py_lower raw, s) /\
  all_chars (fun c => negb (is_upper c)) (py_lower raw) = true /\
  String.length (py_lower raw) = String.length raw /\
  py_lower (py_lower raw) = py_lower raw.
Proof.
  repeat split; try apply smap_length; try apply py_lower_idem;
    apply all_chars_smap; intros c;
    [rewrite char_upper_not_lower | rewrite char_lower_not_upper]; reflexivity.
Qed.

(** The web service does not validate [count]: a count
    of 0 or less succeeds with an empty list of codenames, where spec 7
    classifies [count < 1] as [InvalidConfiguration]. *)
Theorem web_nonpositive_count_empty (adjectives nouns exclusions : list string) (count : Z)
        (pattern cs sep : string) (mn mx : Z) :
  (count <= 0)%Z ->
  length_filter mn mx (filter_excluded_words adjectives exclusions) <> [] ->
  length_filter mn mx (filter_excluded_words nouns exclusions) <> [] ->
  forall s : S,
    Web.generate_codename adjectives nouns count sep exclusions pattern cs mn mx s = inr (inr [], s).
Proof.
  intros Hc HA2 HN2 s. rewrite web_checks_pass by assumption.
  replace (Z.to_nat count) with 0%nat by lia. reflexivity.
Qed.

(** C34 (functional). Title case with a space separator differs between
    the scripts on raw names holding a run of spaces.  From the same
    state both make the same draws, but the codename of SpySpeak.py and
    SpySpeak-cli.py (split on single spaces) keeps every run of spaces of
    the raw name, while the codename of SpySpeak-web.py (split on
    whitespace runs, the behaviour spec 4.5 asks for) never holds one. *)
Theorem title_space_runs_differ (pattern : string) (A N : list string) (s s1 s2 : S) (c1 c2 : string) :
  codename_step pattern "title" " " A N s = inr (c1, s1) ->
  codename_step_web pattern "title" " " A N s = inr (c2, s2) ->
  exists raw, raw_name pattern " " A N s = inr (raw, s1) /\ s2 = s1 /\
    has_space_run c1 = has_space_run raw /\ has_space_run c2 = false.
Proof.
  unfold codename_step, codename_step_web, pbind.
  destruct (raw_name pattern " " A N s) as [[e se]|[raw r]]; [discriminate|].
  intros E1 E2. apply format_case_lower in E1 as [Hl ->].
  cbv [format_case_web String.eqb Ascii.eqb Bool.eqb andb pret] in E2. injection E2 as <- <-.
  exists raw. split; [reflexivity|]. split; [reflexivity|]. split; [|apply space_run_title_ws].
  unfold has_space_run. now rewrite <- (space_run_go_lower _ c1), Hl, space_run_go_lower.
Qed.

(** The interactive [generate_codename] reports failure
    as a list indistinguishable from a successful result: a successful
    generation can return exactly the one-element list that reports
    [NoWordsMeetLengthCriteria] (spec 7 asks for a distinguishable
    failure signal). *)
Theorem interactive_failure_ambiguous :
  forall s : S,
    (exists s', Interactive.generate_codename ["could not generate codename: no words meet the length"]
                  ["criteria"] 1 [] "adj-noun" "sentence" 0 0 " " s =
                inr ([Interactive.msg_length], s')) /\
    Interactive.generate_codename ["ab"] ["xy"] 1 [] "adj-noun" "sentence" 5 0 " " s =
      inr ([Interactive.msg_length], s).
Proof.
  intros s. split; [|reflexivity].
  rewrite interactive_checks_pass by discriminate.
  destruct (raw_name_singleton "adj-noun" " " "could not generate codename: no words meet the length"
              "criteria" ltac:(discriminate) s) as [s' E].
  exists s'. change (Z.to_nat 1) with 1%nat.
  change (length_filter 0 0 (filter_excluded_words ["could not generate codename: no words meet the length"] []))
    with ["could not generate codename: no words meet the length"].
  change (length_filter 0 0 (filter_excluded_words ["criteria"] [])) with ["criteria"].
  cbn [repeat_m]. unfold codename_step, pbind. rewrite E. reflexivity.
Qed.

End RunProperties.

(** ** Witnesses of the properties with hypotheses *)

Lemma interactive_singleton_deterministic_witness :
  exists s', Interactive.generate_codename ["Brave"] ["Tiger"] 1 [] "adj-noun" "title" 0 0 " "
               [7; 7]%nat = inr (["Brave Tiger"], s').
Proof.
  pose proof (interactive_singleton_deterministic (S := list nat) "Brave" "Tiger"
                (mk_config "adj-noun" "title" " " 0 0 1)) as W.
  cbn [count separator pattern case_style min_length max_length] in W.
  apply W; [| discriminate | reflexivity | reflexivity].
  intros _. split; [discriminate|]. intros _.
  split; constructor; (split; [discriminate | reflexivity]) || constructor.
Defined.

Lemma all_adjectives_excluded_fails_witness :
  Interactive.generate_codename ["ghost"] ["wolf"] 1 ["ghost"] "adj-noun" "title" 0 0 " " [1]%nat =
    inr ([Interactive.msg_excluded], [1]%nat) /\
  Cli.generate_codename ["ghost"] ["wolf"] 1 " " ["ghost"] "adj-noun" "title" 0 0 [1]%nat =
    inl (SystemExit 1 ("Error: No valid adjectives available after applying exclusions" +++ nl), [1]%nat) /\
  Web.generate_codename ["ghost"] ["wolf"] 1 " " ["ghost"] "adj-noun" "title" 0 0 [1]%nat =
    inr (inl "No valid adjectives available after applying exclusions", [1]%nat).
Proof.
  apply (all_adjectives_excluded_fails (S := list nat) ["ghost"] ["wolf"] ["ghost"]);
    [discriminate | discriminate | discriminate | repeat constructor].
Defined.

Lemma length_criteria_fails_witness :
  Interactive.generate_codename ["ab"; "cdef"] ["xy"] 1 [] "adj-noun" "title" 3 0 " " [1]%nat =
    inr ([Interactive.msg_length], [1]%nat) /\
  cli_outcome (Cli.generate_codename ["ab"; "cdef"] ["xy"] 1 " " [] "adj-noun" "title" 3 0 [1]%nat) =
    Some (Failed NoWordsMeetLengthCriteria) /\
  (exists msg, Web.generate_codename ["ab"; "cdef"] ["xy"] 1 " " [] "adj-noun" "title" 3 0 [1]%nat =
                 inr (inl msg, [1]%nat) /\ web_outcome (inl msg) = Some (Failed NoWordsMeetLengthCriteria)).
Proof.
  apply (length_criteria_fails (S := list nat)); [discriminate | discriminate | right; reflexivity].
Defined.

Lemma cli_number_suffix_witness :
  Cli.generate_codename ["brave"] ["tiger"] 1 " " [] "adj-noun-number" "upper" 0 0 [0; 0; 41]%nat =
    inr (["BRAVE TIGER 42"], []) /\
  Forall (fun c => exists p k, (1 <= k <= 999)%Z /\ c = p +++ py_str_int k) ["BRAVE TIGER 42"].
Proof.
  split; [reflexivity|]. apply (cli_number_suffix ["brave"] ["tiger"] [] 1 "upper" " " 0 0 [0; 0; 41]%nat []).
  reflexivity.
Defined.

Lemma title_empty_separator_raises_witness :
  raw_name "adj-noun" "" ["brave"] ["tiger"] [0; 0]%nat = inr ("bravetiger", []) /\
  Interactive.generate_codename ["brave"] ["tiger"] 1 [] "adj-noun" "title" 0 0 "" [0; 0]%nat =
    inl (ValueError, []) /\
  Cli.generate_codename ["brave"] ["tiger"] 1 "" [] "adj-noun" "title" 0 0 [0; 0]%nat = inl (ValueError, []) /\
  Web.generate_codename ["brave"] ["tiger"] 1 "" [] "adj-noun" "title" 0 0 [0; 0]%nat = inl (ValueError, []).
Proof.
  destruct (title_empty_separator_raises (S := list nat) ["brave"] ["tiger"] [] 1 "adj-noun" "title" 0 0
              ltac:(reflexivity) ltac:(lia) ltac:(discriminate) ltac:(discriminate) [0; 0]%nat)
    as [raw [s1 [Er Rest]]].
  vm_compute in Er. injection Er as <- <-. split; [reflexivity | exact Rest].
Defined.

Lemma format_case_preserves_text_witness :
  py_isascii "brave-TIGER-7" = true /\
  format_case "title" "-" "brave-TIGER-7" [0]%nat = inr ("Brave-Tiger-7", [0]%nat) /\
  py_lower "Brave-Tiger-7" = py_lower "brave-TIGER-7" /\
  String.length "Brave-Tiger-7" = String.length "brave-TIGER-7" /\ [0]%nat = [0]%nat.
Proof.
  split; [reflexivity|]. split; [reflexivity|].
  apply (format_case_preserves_text "title" "-" "brave-TIGER-7" _ [0]%nat); reflexivity.
Defined.

Lemma web_nonpositive_count_empty_witness :
  Web.generate_codename ["brave"] ["tiger"] 0 " " [] "adj-noun" "title" 0 0 [5]%nat =
    inr (inr [], [5]%nat).
Proof.
  apply (web_nonpositive_count_empty (S := list nat)); [lia | discriminate | discriminate].
Defined.

(** ** Witnesses: the refinement theorems at concrete inputs *)

Lemma web_generate_codename_refines_witness :
  exists r s',
    Web.generate_codename ["brave"; "silent"] ["tiger"] 3 "-" ["ghost"]
      "adj-noun-number" "title" 0 0 [3; 1; 4; 1; 5; 9]%nat = inr (r, s') /\
    exists o, web_outcome r = Some o /\ generate ["brave"; "silent"] ["tiger"] ["ghost"] demo_cfg o.
Proof.
  pose proof (web_generate_codename_refines (S := list nat) ["brave"; "silent"] ["tiger"] ["ghost"] demo_cfg) as W.
  cbn [demo_cfg count separator pattern case_style min_length max_length] in W.
  apply W. intros _. discriminate.
Defined.

Lemma cli_generate_codename_refines_witness :
  exists o,
    cli_outcome (Cli.generate_codename ["brave"; "silent"] ["tiger"] 3 "-" ["ghost"]
                   "adj-noun-number" "title" 0 0 [3; 1; 4; 1; 5; 9]%nat) = Some o /\
    generate ["brave"; "silent"] ["tiger"] ["ghost"] demo_cfg o.
Proof.
  pose proof (cli_generate_codename_refines (S := list nat) ["brave"; "silent"] ["tiger"] ["ghost"] demo_cfg) as W.
  cbn [demo_cfg count separator pattern case_style min_length max_length] in W.
  apply W. intros _. cbn. split; [discriminate | intros E; discriminate E].
Defined.

Lemma interactive_generate_codename_refines_witness :
  exists l s',
    Interactive.generate_codename ["brave"; "silent"] ["tiger"] 3 ["ghost"]
      "adj-noun-number" "title" 0 0 "-" [3; 1; 4; 1; 5; 9]%nat = inr (l, s') /\
    exists o, generate ["brave"; "silent"] ["tiger"] ["ghost"] demo_cfg o /\ interactive_reports o l.
Proof.
  pose proof (interactive_generate_codename_refines (S := list nat) ["brave"; "silent"] ["tiger"] ["ghost"] demo_cfg) as W.
  cbn [demo_cfg count separator pattern case_style min_length max_length] in W.
  apply W. intros _. cbn. split; [discriminate | intros E; discriminate E].
Defined.

Lemma title_space_runs_differ_witness :
  exists raw, raw_name "adj-noun" " " ["new  york"] ["tiger"] [0; 0]%nat = inr (raw, []) /\ [] = @nil nat /\
    has_space_run "New  York Tiger" = has_space_run raw /\ has_space_run "New York Tiger" = false.
Proof.
  apply (title_space_runs_differ (S := list nat) "adj-noun" ["new  york"] ["tiger"] [0; 0]%nat [] []);
    vm_compute; reflexivity.
Defined.
