(* ===== verification/Output.v ===== *)
(** * Output: [format_output] and readers for its formats

    Models [format_output(codenames, format_type)] (SpySpeak.py 198-222,
    identical in SpySpeak-cli.py 162-184): [json.dumps({"codenames": ...},
    indent=2)] with its default [ensure_ascii] escaping, [csv.writer] with
    the default (excel) dialect, the HTML page and the newline-joined text.
    To state the round trips of spec 8, the file also defines readers: a
    JSON reader for documents of the shape [{"codenames": [...]}] (any
    JSON whitespace, every string escape), a CSV reader with the state
    machine of Python's [csv.reader] (an empty line is an empty row), a
    line-based reader of the HTML list and the text lines. *)

From Stdlib Require Import String Ascii List ZArith Lia Bool.
From S2P Require Import Prelude PyStr WordLists.
Import ListNotations.
Open Scope string_scope.
Open Scope list_scope.
Open Scope spy_scope.

(** Characters of the formats. *)
Definition DQ : ascii := "034".
Definition BSL : ascii := "092".
Definition COMMA : ascii := ",".
Definition TAB : ascii := "009".
Definition BS : ascii := "008".
Definition FF : ascii := "012".

Definition crlf : string := String CR (String LF "").
Definition dq : string := String DQ "".

(** ** JSON *)

Definition hex_digit (n : nat) : ascii :=
  if (n <? 10)%nat then ascii_of_nat (48 + n) else ascii_of_nat (87 + n).

(** [py_encode_basestring_ascii] on one character: the two-character
    escapes, printable ASCII as is, everything else as [\u00xx]. *)
Definition json_escape_char (c : ascii) : string :=
  let n := nat_of_ascii c in
  if Ascii.eqb c DQ then String BSL (String DQ "")
  else if Ascii.eqb c BSL then String BSL (String BSL "")
  else if Ascii.eqb c LF then String BSL "n"
  else if Ascii.eqb c CR then String BSL "r"
  else if Ascii.eqb c TAB then String BSL "t"
  else if Ascii.eqb c BS then String BSL "b"
  else if Ascii.eqb c FF then String BSL "f"
  else if ((32 <=? n) && (n <=? 126))%nat then String c ""
  else String BSL ("u00" +++ String (hex_digit (n / 16)) (String (hex_digit (n mod 16)) "")).

Fixpoint json_escape (s : string) : string :=
  match s with
  | EmptyString => ""
  | String c r => json_escape_char c +++ json_escape r
  end.

Definition json_string (s : string) : string := dq +++ json_escape s +++ dq.

(** [json.dumps({"codenames": codenames}, indent=2)]: item separator
    [","] plus a newline and the indentation, key separator [": "], and
    [[]] for an empty list. *)
Definition json_item (s : string) : string := "    " +++ json_string s.

Definition json_dumps_codenames (codenames : list string) : string :=
  "{" +++ nl +++ "  " +++ json_string "codenames" +++ ": " +++
  match codenames with
  | [] => "[]"
  | _ => "[" +++ nl +++ py_join ("," +++ nl) (map json_item codenames) +++ nl +++ "  ]"
  end +++ nl +++ "}".

(** ** CSV *)

(** [csv.writer] with [QUOTE_MINIMAL]: a field is quoted when it holds the
    delimiter, the quote character or a line break, and a row made of one
    empty field is written as [""] (otherwise it would read back as an
    empty row); quotes inside a quoted field are doubled. *)
Fixpoint double_quotes (s : string) : string :=
  match s with
  | EmptyString => ""
  | String c r => if Ascii.eqb c DQ then String DQ (String DQ (double_quotes r))
                  else String c (double_quotes r)
  end.

Definition csv_special (c : ascii) : bool :=
  (Ascii.eqb c COMMA || Ascii.eqb c DQ || Ascii.eqb c CR || Ascii.eqb c LF)%bool.

Definition needs_quote (f : string) : bool :=
  (String.eqb f "" || negb (all_chars (fun c => negb (csv_special c)) f))%bool.

Definition csv_field (f : string) : string :=
  if needs_quote f then dq +++ double_quotes f +++ dq else f.

(** [csv_writer.writerow([name])] with the [\r\n] line terminator. *)
Definition csv_row (f : string) : string := csv_field f +++ crlf.

Definition csv_output (codenames : list string) : string :=
  csv_row "Codename" +++ fold_right (fun n acc => csv_row n +++ acc) "" codenames.

(** ** HTML *)

Definition html_head : string :=
  "<html>" +++ nl +++ "<head><title>Generated Codenames</title></head>" +++ nl +++ "<body>" +++ nl
  +++ "<h1>Generated Codenames</h1>" +++ nl +++ "<ul>" +++ nl.

Definition html_tail : string := "</ul>" +++ nl +++ "</body>" +++ nl +++ "</html>".

Definition html_item (name : string) : string := "  <li>" +++ name +++ "</li>" +++ nl.

Definition html_output (codenames : list string) : string :=
  html_head +++ fold_right (fun n acc => html_item n +++ acc) "" codenames +++ html_tail.

(** ** [format_output] *)

(** SpySpeak.py 198-222. *)
Definition format_output (codenames : list string) (format_type : string) : string :=
  if String.eqb format_type "json" then json_dumps_codenames codenames
  else if String.eqb format_type "csv" then csv_output codenames
  else if String.eqb format_type "html" then html_output codenames
  else py_join nl codenames.

(** ** Readers *)

Definition is_json_ws (c : ascii) : bool :=
  (Ascii.eqb c " " || Ascii.eqb c TAB || Ascii.eqb c LF || Ascii.eqb c CR)%bool.

Fixpoint skip_ws (s : string) : string :=
  match s with
  | String c r => if is_json_ws c then skip_ws r else s
  | EmptyString => EmptyString
  end.

(** The next non-blank character must be [c]. *)
Definition expect (c : ascii) (s : string) : option string :=
  match skip_ws s with
  | String d r => if Ascii.eqb c d then Some r else None
  | EmptyString => None
  end.

Definition hex_value (c : ascii) : option nat :=
  let n := nat_of_ascii c in
  if ((48 <=? n) && (n <=? 57))%nat then Some (n - 48)
  else if ((97 <=? n) && (n <=? 102))%nat then Some (n - 87)
  else if ((65 <=? n) && (n <=? 70))%nat then Some (n - 55)
  else None.

(** The code point of a [\uXXXX] escape, when it is one of our characters. *)
Definition hex4 (a b c d : ascii) : option ascii :=
  match hex_value a, hex_value b, hex_value c, hex_value d with
  | Some 0, Some 0, Some x, Some y => Some (ascii_of_nat (16 * x + y))
  | _, _, _, _ => None
  end%nat.

Definition cons_opt (c : ascii) (r : option (string * string)) : option (string * string) :=
  match r with
  | Some (x, rest) => Some (String c x, rest)
  | None => None
  end.

(** The body of a JSON string after its opening quote: its value and what
    follows the closing quote.  Raw control characters are refused. *)
Fixpoint json_str_body (s : string) : option (string * string) :=
  match s with
  | EmptyString => None
  | String c r =>
      if Ascii.eqb c DQ then Some ("", r)
      else if Ascii.eqb c BSL then
        match r with
        | String e r' =>
            if Ascii.eqb e DQ then cons_opt DQ (json_str_body r')
            else if Ascii.eqb e BSL then cons_opt BSL (json_str_body r')
            else if Ascii.eqb e "/" then cons_opt "/" (json_str_body r')
            else if Ascii.eqb e "n" then cons_opt LF (json_str_body r')
            else if Ascii.eqb e "r" then cons_opt CR (json_str_body r')
            else if Ascii.eqb e "t" then cons_opt TAB (json_str_body r')
            else if Ascii.eqb e "b" then cons_opt BS (json_str_body r')
            else if Ascii.eqb e "f" then cons_opt FF (json_str_body r')
            else if Ascii.eqb e "u" then
              match r' with
              | String h1 (String h2 (String h3 (String h4 r''))) =>
                  match hex4 h1 h2 h3 h4 with
                  | Some x => cons_opt x (json_str_body r'')
                  | None => None
                  end
              | _ => None
              end
            else None
        | EmptyString => None
        end
      else if (nat_of_ascii c <? 32)%nat then None
      else cons_opt c (json_str_body r)
  end.

Definition json_string_at (s : string) : option (string * string) :=
  match expect DQ s with
  | Some r => json_str_body r
  | None => None
  end.

(** The elements of a non-empty array, up to and after its [\]]. *)
Fixpoint json_elements (fuel : nat) (s : string) : option (list string * string) :=
  match fuel with
  | O => None
  | S f =>
      match json_string_at s with
      | Some (x, r) =>
          match skip_ws r with
          | String c r' =>
              if Ascii.eqb c COMMA then
                match json_elements f r' with
                | Some (xs, rest) => Some (x :: xs, rest)
                | None => None
                end
              else if Ascii.eqb c "]" then Some ([x], r')
              else None
          | EmptyString => None
          end
      | None => None
      end
  end.

Definition json_array (s : string) : option (list string * string) :=
  match expect "[" s with
  | Some r =>
      match skip_ws r with
      | String c r' => if Ascii.eqb c "]" then Some ([], r') else json_elements (String.length r) r
      | EmptyString => None
      end
  | None => None
  end.

(** A document [{"codenames": [ ... ]}]: the list it holds. *)
Definition read_codenames_json (s : string) : option (list string) :=
  match expect "{" s with
  | Some s1 =>
      match json_string_at s1 with
      | Some (key, s2) =>
          if String.eqb key "codenames" then
            match expect ":" s2 with
            | Some s3 =>
                match json_array s3 with
                | Some (items, s4) =>
                    match expect "}" s4 with
                    | Some s5 => match skip_ws s5 with EmptyString => Some items | _ => None end
                    | None => None
                    end
                | None => None
                end
            | None => None
            end
          else None
      | None => None
      end
  | None => None
  end.

(** The state machine of Python's [csv.reader] (default dialect, not
    strict): rows are read until the end of the text; a line ending right
    at the start of a record is an empty row. *)
Inductive csv_state := RecordStart | FieldStart | Unquoted | Quoted | QuoteInQuoted | AfterCR.

Fixpoint csv_go (st : csv_state) (field : string) (row : list string)
         (rows : list (list string)) (s : string) : option (list (list string)) :=
  match s with
  | EmptyString =>
      match st with
      | RecordStart | AfterCR => Some (rev rows)
      | FieldStart | Unquoted | QuoteInQuoted => Some (rev (rev (field :: row) :: rows))
      | Quoted => None
      end
  | String c r =>
      match st with
      | RecordStart =>
          if Ascii.eqb c CR then csv_go AfterCR "" [] ([] :: rows) r
          else if Ascii.eqb c LF then csv_go RecordStart "" [] ([] :: rows) r
          else if Ascii.eqb c DQ then csv_go Quoted "" [] rows r
          else if Ascii.eqb c COMMA then csv_go FieldStart "" [""] rows r
          else csv_go Unquoted (String c "") [] rows r
      | FieldStart =>
          if Ascii.eqb c CR then csv_go AfterCR "" [] (rev ("" :: row) :: rows) r
          else if Ascii.eqb c LF then csv_go RecordStart "" [] (rev ("" :: row) :: rows) r
          else if Ascii.eqb c DQ then csv_go Quoted "" row rows r
          else if Ascii.eqb c COMMA then csv_go FieldStart "" ("" :: row) rows r
          else csv_go Unquoted (String c "") row rows r
      | Unquoted | QuoteInQuoted =>
          if Ascii.eqb c CR then csv_go AfterCR "" [] (rev (field :: row) :: rows) r
          else if Ascii.eqb c LF then csv_go RecordStart "" [] (rev (field :: row) :: rows) r
          else if Ascii.eqb c COMMA then csv_go FieldStart "" (field :: row) rows r
          else if (Ascii.eqb c DQ && match st with QuoteInQuoted => true | _ => false end)%bool
          then csv_go Quoted (field +++ dq) row rows r
          else csv_go Unquoted (field +++ String c "") row rows r
      | Quoted =>
          if Ascii.eqb c DQ then csv_go QuoteInQuoted field row rows r
          else csv_go Quoted (field +++ String c "") row rows r
      | AfterCR =>
          if Ascii.eqb c LF then csv_go RecordStart "" [] rows r else None
      end
  end.

Definition read_csv (s : string) : option (list (list string)) := csv_go RecordStart "" [] [] s.

(** One line of the HTML list. *)
Definition li_line (name : string) : string := "  <li>" +++ name +++ "</li>".

(** A character the JSON rendering may hold: a line feed or printable ASCII. *)
Definition json_out_char (c : ascii) : bool :=
  (Ascii.eqb c LF || ((32 <=? nat_of_ascii c) && (nat_of_ascii c <=? 126))%nat)%bool.

(** The items of the HTML list, one [<li>] line each. *)
Fixpoint html_list_lines (lines : list string) : option (list string) :=
  match lines with
  | [] => None
  | l :: ls =>
      if String.eqb l "</ul>" then Some []
      else if (String.eqb (stake 6 l) "  <li>" && ends_with "</li>" l)%bool then
        match html_list_lines ls with
        | Some items => Some (stake (String.length l - 11) (sdrop 6 l) :: items)
        | None => None
        end
      else None
  end.

Definition read_html_items (page : string) : option (list string) :=
  match py_split nl page with
  | "<html>" :: "<head><title>Generated Codenames</title></head>" :: "<body>" ::
    "<h1>Generated Codenames</h1>" :: "<ul>" :: rest => html_list_lines rest
  | _ => None
  end.

Section Tests.
Example json_t1 : read_codenames_json (format_output ["Brave Tiger"; "a" +++ dq +++ "b"] "json")
                  = Some ["Brave Tiger"; "a" +++ dq +++ "b"].
Proof. vm_compute. reflexivity. Qed.
Example csv_t1 : read_csv (format_output [""; "a,b"; "x" +++ dq] "csv")
                 = Some [["Codename"]; [""]; ["a,b"]; ["x" +++ dq]].
Proof. vm_compute. reflexivity. Qed.
Example html_t1 : read_html_items (format_output ["A"; "B<i>"] "html") = Some ["A"; "B<i>"].
Proof. vm_compute. reflexivity. Qed.
Example json_t2 : json_escape (String "200" "") = String BSL "u00c8".
Proof. reflexivity. Qed.
End Tests.

(** ** JSON: the reader inverts the writer *)

Lemma json_escape_char_read (c : ascii) (rest : string) :
  json_str_body (json_escape_char c +++ rest) = cons_opt c (json_str_body rest).
Proof. destruct c as [[|] [|] [|] [|] [|] [|] [|] [|]]; reflexivity. Qed.

Lemma json_escape_read (s rest : string) :
  json_str_body (json_escape s +++ dq +++ rest) = Some (s, rest).
Proof.
  induction s as [|c s IH]; [reflexivity|]. cbn [json_escape].
  now rewrite sapp_assoc, json_escape_char_read, IH.
Qed.

Lemma skip_ws_nl (s : string) : skip_ws (nl +++ s) = skip_ws s.
Proof. reflexivity. Qed.

Lemma skip_ws_comma (s : string) : skip_ws ("," +++ s) = String COMMA s.
Proof. reflexivity. Qed.

Lemma skip_ws_space (s : string) : skip_ws (String " " s) = skip_ws s.
Proof. reflexivity. Qed.

Lemma skip_ws_nonblank (c : ascii) (s : string) :
  is_json_ws c = false -> skip_ws (String c s) = String c s.
Proof. intros H. simpl. now rewrite H. Qed.

Lemma expect_here (c : ascii) (s : string) : is_json_ws c = false -> expect c (String c s) = Some s.
Proof. intros H. unfold expect. rewrite skip_ws_nonblank by exact H. now rewrite Ascii.eqb_refl. Qed.

Lemma json_string_at_string (x rest : string) :
  json_string_at (json_string x +++ rest) = Some (x, rest).
Proof.
  unfold json_string, json_string_at, expect. rewrite !sapp_assoc.
  change (dq +++ json_escape x +++ dq +++ rest) with (String DQ (json_escape x +++ dq +++ rest)).
  rewrite skip_ws_nonblank by reflexivity. rewrite Ascii.eqb_refl. apply json_escape_read.
Qed.

Lemma json_string_at_ws (w s : string) :
  all_chars is_json_ws w = true -> json_string_at (w +++ s) = json_string_at s.
Proof.
  intros Hw. unfold json_string_at, expect. f_equal.
  induction w as [|c w IH]; [reflexivity|]. cbn [all_chars] in Hw.
  apply andb_true_iff in Hw as [Hc Hw]. simpl. rewrite Hc. auto.
Qed.

Lemma json_string_at_item (x rest : string) :
  json_string_at (json_item x +++ rest) = Some (x, rest).
Proof.
  unfold json_item. rewrite sapp_assoc, json_string_at_ws by reflexivity.
  apply json_string_at_string.
Qed.

Lemma expect_sp (c : ascii) (s : string) : expect c (" " +++ s) = expect c s.
Proof. reflexivity. Qed.

Lemma expect_nl (c : ascii) (s : string) : expect c (nl +++ s) = expect c s.
Proof. reflexivity. Qed.

Lemma expect_prefix (c : ascii) (p s : string) :
  is_json_ws c = false -> expect c (String c p +++ s) = Some (p +++ s).
Proof. intros H. apply expect_here. exact H. Qed.

Lemma json_elements_nl (f : nat) (s : string) :
  json_elements f (nl +++ s) = json_elements f s.
Proof. destruct f; reflexivity. Qed.

Lemma json_elements_items (l : list string) (rest : string) (f : nat) :
  l <> [] -> length l <= f ->
  json_elements f (py_join ("," +++ nl) (map json_item l) +++ nl +++ "  ]" +++ rest) =
  Some (l, rest).
Proof.
  revert f. induction l as [|x [|y l] IH]; intros f Hne Hf; [congruence| |].
  - destruct f as [|f]; [simpl in Hf; lia|]. cbn [map py_join json_elements].
    rewrite json_string_at_item. reflexivity.
  - destruct f as [|f]; [simpl in Hf; lia|].
    change (map json_item (x :: y :: l)) with (json_item x :: map json_item (y :: l)).
    rewrite join_cons by discriminate. rewrite !sapp_assoc.
    cbn [json_elements]. rewrite json_string_at_item.
    rewrite skip_ws_comma, Ascii.eqb_refl, json_elements_nl, IH by (discriminate || simpl in *; lia).
    reflexivity.
Qed.

Lemma join_length_ge (sep : string) (xs : list string) :
  Forall (fun x => x <> "") xs -> length xs <= String.length (py_join sep xs).
Proof.
  induction 1 as [|x xs Hx Hxs IH]; [simpl; lia|].
  destruct xs as [|y xs].
  - simpl. destruct x; [congruence | simpl; lia].
  - rewrite join_cons by discriminate. rewrite !slength_app.
    destruct x; [congruence|]. simpl in *. lia.
Qed.

Lemma json_join_head (sep x : string) (l : list string) :
  exists t, py_join sep (map json_item (x :: l)) = "    " +++ dq +++ t.
Proof.
  destruct l as [|y l].
  - exists (json_escape x +++ dq). reflexivity.
  - rewrite map_cons, join_cons by discriminate.
    exists (json_escape x +++ dq +++ sep +++ py_join sep (map json_item (y :: l))).
    unfold json_item, json_string. now rewrite !sapp_assoc.
Qed.

Lemma json_array_items (x : string) (l : list string) (rest : string) :
  json_array (" " +++ "[" +++ nl +++ py_join ("," +++ nl) (map json_item (x :: l)) +++
              nl +++ "  ]" +++ rest) = Some (x :: l, rest).
Proof.
  unfold json_array. rewrite expect_sp, (expect_prefix "[" "") by reflexivity.
  rewrite sapp_nil_l. destruct (json_join_head ("," +++ nl) x l) as [t Ht].
  rewrite skip_ws_nl.
  assert (Hs : skip_ws (py_join ("," +++ nl) (map json_item (x :: l)) +++ nl +++ "  ]" +++ rest)
               = String DQ (t +++ nl +++ "  ]" +++ rest))
    by (rewrite Ht, !sapp_assoc; reflexivity).
  rewrite Hs. assert (E : Ascii.eqb DQ "]" = false) by reflexivity. rewrite E.
  rewrite json_elements_nl. apply json_elements_items; [discriminate|].
  rewrite slength_app, slength_app, slength_app.
  pose proof (join_length_ge ("," +++ nl) (map json_item (x :: l))) as Hj.
  rewrite length_map in Hj. enough (Datatypes.length (x :: l) <= String.length (py_join ("," +++ nl) (map json_item (x :: l)))) by lia.
  apply Hj. apply Forall_forall. intros w Hw. apply in_map_iff in Hw as [v [<- _]]. discriminate.
Qed.

Lemma read_json_dumps (codenames : list string) :
  read_codenames_json (json_dumps_codenames codenames) = Some codenames.
Proof.
  destruct codenames as [|x l]; [reflexivity|].
  unfold json_dumps_codenames, read_codenames_json.
  rewrite expect_prefix by reflexivity. rewrite sapp_nil_l.
  rewrite (json_string_at_ws nl), (json_string_at_ws "  ") by reflexivity.
  rewrite json_string_at_string, String.eqb_refl.
  rewrite expect_prefix by reflexivity.
  rewrite !sapp_assoc, json_array_items.
  reflexivity.
Qed.

(** C8 (roundtrip). Reading back the [json] rendering gives the list
    rendered, for every list of strings (spec 8: parsing the JSON output
    yields an object whose [codenames] field equals the original ordered
    list). *)
Theorem json_output_roundtrip (codenames : list string) :
  read_codenames_json (format_output codenames "json") = Some codenames.
Proof. apply read_json_dumps. Qed.

(** ** CSV: the reader inverts the writer *)

Lemma csv_unquoted_run (x rest f : string) (row : list string) (rows : list (list string)) :
  all_chars (fun c => negb (csv_special c)) x = true ->
  csv_go Unquoted f row rows (x +++ rest) = csv_go Unquoted (f +++ x) row rows rest.
Proof.
  revert f. induction x as [|c x IH]; intros f Hx; [now rewrite sapp_nil_r|].
  cbn [all_chars] in Hx. apply andb_true_iff in Hx as [Hc Hx].
  unfold csv_special in Hc. rewrite !negb_orb, !andb_true_iff, !negb_true_iff in Hc.
  destruct Hc as [[[Hcomma Hdq] Hcr] Hlf].
  cbn [String.append csv_go]. rewrite Hcr, Hlf, Hcomma, Hdq. cbn [andb].
  rewrite IH by exact Hx. now rewrite sapp_assoc.
Qed.

Lemma csv_quoted_run (x rest f : string) (row : list string) (rows : list (list string)) :
  csv_go Quoted f row rows (double_quotes x +++ rest) = csv_go Quoted (f +++ x) row rows rest.
Proof.
  revert f. induction x as [|c x IH]; intros f; [now rewrite sapp_nil_r|].
  cbn [double_quotes]. destruct (Ascii.eqb c DQ) eqn:E.
  - apply Ascii.eqb_eq in E. subst c. cbn [String.append csv_go].
    rewrite Ascii.eqb_refl. cbn. rewrite IH. now rewrite sapp_assoc.
  - cbn [String.append csv_go]. rewrite E. rewrite IH. now rewrite sapp_assoc.
Qed.

Lemma csv_row_read (x rest : string) (rows : list (list string)) :
  csv_go RecordStart "" [] rows (csv_row x +++ rest) = csv_go RecordStart "" [] ([x] :: rows) rest.
Proof.
  unfold csv_row, csv_field. destruct (needs_quote x) eqn:Eq.
  - unfold dq, crlf. rewrite !sapp_assoc. cbn [String.append csv_go Ascii.eqb].
    rewrite csv_quoted_run. cbn. reflexivity.
  - unfold needs_quote in Eq. apply orb_false_iff in Eq as [Ene Hx].
    apply negb_false_iff in Hx. destruct x as [|c x]; [discriminate|].
    cbn [all_chars] in Hx. apply andb_true_iff in Hx as [Hc Hx].
    pose proof Hc as Hc'. unfold csv_special in Hc.
    rewrite !negb_orb, !andb_true_iff, !negb_true_iff in Hc.
    destruct Hc as [[[Hcomma Hdq] Hcr] Hlf].
    unfold crlf. rewrite sapp_assoc. cbn [String.append csv_go].
    rewrite Hcr, Hlf, Hdq, Hcomma. rewrite csv_unquoted_run by exact Hx. reflexivity.
Qed.

Lemma csv_rows_read (l : list string) (rows : list (list string)) :
  csv_go RecordStart "" [] rows (fold_right (fun n acc => csv_row n +++ acc) "" l) =
  Some (rev rows ++ map (fun x => [x]) l).
Proof.
  revert rows. induction l as [|x l IH]; intros rows.
  - cbn. now rewrite app_nil_r.
  - cbn [fold_right]. rewrite csv_row_read, IH. cbn [rev map]. now rewrite <- app_assoc.
Qed.

(** C9 (roundtrip). Reading back the [csv] rendering with the rules of
    Python's [csv.reader] gives the header row [Codename] and one row per
    codename, each holding exactly that codename (spec 8), for every list
    of strings: commas, quotes, line breaks and the empty string
    included. *)
Theorem csv_output_roundtrip (codenames : list string) :
  read_csv (format_output codenames "csv") = Some (["Codename"] :: map (fun x => [x]) codenames).
Proof.
  change (format_output codenames "csv") with (csv_output codenames).
  unfold read_csv, csv_output. rewrite csv_row_read, csv_rows_read. reflexivity.
Qed.

(** ** HTML and text: the lines give back the codenames *)

Lemma has_char_app (c : ascii) (a b : string) :
  has_char c (a +++ b) = (has_char c a || has_char c b)%bool.
Proof. unfold has_char. now rewrite all_chars_app, negb_andb. Qed.

Lemma ends_with_app (suf p : string) : ends_with suf (p +++ suf) = true.
Proof.
  unfold ends_with. rewrite slength_app. replace (String.length p + String.length suf - String.length suf)
    with (String.length p) by lia. rewrite sdrop_app. apply String.eqb_refl.
Qed.

Lemma html_body_join (l : list string) :
  fold_right (fun n acc => html_item n +++ acc) "" l +++ html_tail =
  py_join nl (map li_line l ++ ["</ul>"; "</body>"; "</html>"]).
Proof.
  induction l as [|x l IH]; [reflexivity|]. cbn [fold_right map app].
  rewrite join_cons by (destruct l; discriminate). rewrite <- IH.
  unfold html_item, li_line. now rewrite !sapp_assoc.
Qed.

Lemma html_output_join (l : list string) :
  html_output l =
  py_join nl (["<html>"; "<head><title>Generated Codenames</title></head>"; "<body>";
               "<h1>Generated Codenames</h1>"; "<ul>"] ++ map li_line l ++ ["</ul>"; "</body>"; "</html>"]).
Proof.
  unfold html_output. rewrite html_body_join. unfold html_head. cbn [app].
  rewrite !join_cons by (destruct l; discriminate). now rewrite !sapp_assoc.
Qed.

Lemma html_list_lines_items (l : list string) :
  html_list_lines (map li_line l ++ ["</ul>"; "</body>"; "</html>"]) = Some l.
Proof.
  induction l as [|x l IH]; [reflexivity|]. cbn [map app html_list_lines].
  assert (E1 : String.eqb (li_line x) "</ul>" = false) by reflexivity.
  assert (E2 : stake 6 (li_line x) = "  <li>") by (apply (stake_app "  <li>")).
  assert (E3 : ends_with "</li>" (li_line x) = true)
    by (unfold li_line; rewrite <- sapp_assoc; apply ends_with_app).
  rewrite E1, E2, E3, IH. cbn [String.eqb andb]. rewrite ?String.eqb_refl. cbn [andb].
  unfold li_line. rewrite (sdrop_app "  <li>"), !slength_app.
  replace (String.length "  <li>" + (String.length x + String.length "</li>") - 11)%nat
    with (String.length x) by (simpl; lia).
  now rewrite stake_app.
Qed.

(** C19 (roundtrip). The lines of the [html] rendering hold the codenames
    verbatim, one [<li>] per codename in order, when no codename holds a
    line break (spec 4.7: values are inserted without escaping). *)
Theorem html_output_roundtrip (codenames : list string) :
  Forall (fun x => has_char LF x = false) codenames ->
  read_html_items (format_output codenames "html") = Some codenames.
Proof.
  intros Hl. change (format_output codenames "html") with (html_output codenames).
  unfold read_html_items. rewrite html_output_join. unfold nl. rewrite split_join_char.
  - cbn [app]. apply html_list_lines_items.
  - destruct codenames; discriminate.
  - apply Forall_app. split; [repeat constructor|].
    apply Forall_app. split; [|repeat constructor].
    apply Forall_map. eapply Forall_impl; [|exact Hl]. intros x Hx.
    unfold li_line. now rewrite !has_char_app, Hx.
Qed.

(** C20 (roundtrip). Splitting the [text] rendering on line breaks gives
    back a non-empty list of codenames without line breaks; an unknown
    format falls back to [text]. *)
Theorem text_output_roundtrip (codenames : list string) (format_type : string) :
  codenames <> [] -> Forall (fun x => has_char LF x = false) codenames ->
  ~ In format_type ["json"; "csv"; "html"] ->
  py_split nl (format_output codenames format_type) = codenames.
Proof.
  intros Hne Hl Hf. unfold format_output.
  destruct (String.eqb_spec format_type "json") as [->|]; [simpl in Hf; tauto|].
  destruct (String.eqb_spec format_type "csv") as [->|]; [simpl in Hf; tauto|].
  destruct (String.eqb_spec format_type "html") as [->|]; [simpl in Hf; tauto|].
  unfold nl. now apply split_join_char.
Qed.

(** ** JSON: the rendering is printable ASCII *)

Lemma json_escape_char_out (c : ascii) : all_chars json_out_char (json_escape_char c) = true.
Proof. destruct c as [[|] [|] [|] [|] [|] [|] [|] [|]]; reflexivity. Qed.

Lemma json_escape_out (s : string) : all_chars json_out_char (json_escape s) = true.
Proof.
  induction s as [|c s IH]; [reflexivity|]. cbn [json_escape].
  now rewrite all_chars_app, json_escape_char_out, IH.
Qed.

Lemma all_chars_join (p : ascii -> bool) (sep : string) (l : list string) :
  all_chars p sep = true -> Forall (fun x => all_chars p x = true) l ->
  all_chars p (py_join sep l) = true.
Proof.
  intros Hs. induction 1 as [|x l Hx Hl IH]; [reflexivity|].
  destruct l as [|y l]; [exact Hx|].
  rewrite join_cons by discriminate. now rewrite !all_chars_app, Hx, Hs, IH.
Qed.

(** C21 (bounds). With [ensure_ascii] the [json] rendering holds only line
    feeds and printable ASCII characters, whatever the codenames hold
    (control characters and code points above U+007E are escaped). *)
Theorem json_output_ascii (codenames : list string) :
  all_chars json_out_char (format_output codenames "json") = true.
Proof.
  change (format_output codenames "json") with (json_dumps_codenames codenames).
  unfold json_dumps_codenames, json_string.
  destruct codenames as [|x l]; [reflexivity|].
  rewrite !all_chars_app, all_chars_join.
  - reflexivity.
  - reflexivity.
  - apply Forall_map, Forall_forall. intros y _. unfold json_item, json_string.
    now rewrite !all_chars_app, json_escape_out.
Qed.

(** Witnesses: the round trips at concrete lists of codenames. *)
Lemma html_output_roundtrip_witness :
  Forall (fun x => has_char LF x = false) ["Brave Tiger"; "<b>x</b>"] /\
  read_html_items (format_output ["Brave Tiger"; "<b>x</b>"] "html") = Some ["Brave Tiger"; "<b>x</b>"].
Proof.
  assert (H : Forall (fun x => has_char LF x = false) ["Brave Tiger"; "<b>x</b>"])
    by (repeat constructor).
  split; [exact H | apply (html_output_roundtrip _ H)].
Defined.

Lemma text_output_roundtrip_witness :
  ["Brave Tiger"; "Silent Owl"] <> [] /\
  Forall (fun x => has_char LF x = false) ["Brave Tiger"; "Silent Owl"] /\
  ~ In "yaml" ["json"; "csv"; "html"] /\
  py_split nl (format_output ["Brave Tiger"; "Silent Owl"] "yaml") = ["Brave Tiger"; "Silent Owl"].
Proof.
  assert (H1 : ["Brave Tiger"; "Silent Owl"] <> []) by discriminate.
  assert (H2 : Forall (fun x => has_char LF x = false) ["Brave Tiger"; "Silent Owl"])
    by (repeat constructor).
  assert (H3 : ~ In "yaml" ["json"; "csv"; "html"]) by (simpl; intuition discriminate).
  split; [exact H1|]. split; [exact H2|]. split; [exact H3|].
  apply (text_output_roundtrip _ _ H1 H2 H3).
Defined.
