(* ===== verification/Favorites.v ===== *)
(** * Favorites: the favorites file and the operations on it

    Models the favorites store of SpySpeak.py ([save_favorites],
    [load_favorites], [export_favorites] and the favorites branches of
    [main]) and of SpySpeak-cli.py (its own [load_favorites] and
    [save_favorites], [list_favorites], [add_favorite], [export_favorites]).  The file system is a [world]: the decoded
    contents of the files by path (a stdpp [gmap]), the paths that [open]
    refuses (a [gset]: a [PermissionError] in both modes), the lines
    written to standard output (one string per write) and the text written to standard error.
    The interactive shell keeps the favorites in memory and writes the
    whole list back after each change; its session is the pair of that
    list and the world. *)

From Stdlib Require Import String Ascii List ZArith Lia Bool.
From stdpp Require Import base gmap.
From S2P Require Import Prelude PyStr WordLists Output.
Import ListNotations.
Open Scope string_scope.
Open Scope list_scope.
Open Scope spy_scope.

Record world := mk_world {
  files : gmap string string;
  locked : gset string;
  stdout : list string;
  stderr : string
}.

(** [print(text, end='')]: one write to standard output. *)
Definition write_out (text : string) (w : world) : world :=
  mk_world (files w) (locked w) (stdout w ++ [text]) (stderr w).

(** [print(line)]. *)
Definition print (line : string) (w : world) : world := write_out (line +++ nl) w.

(** [sys.stderr.write(text)]. *)
Definition err (text : string) (w : world) : world :=
  mk_world (files w) (locked w) (stdout w) (stderr w +++ text).

(** [open(path, 'w')] followed by the writes: the file's new contents. *)
Definition set_file (path content : string) (w : world) : world :=
  mk_world (<[path := content]> (files w)) (locked w) (stdout w) (stderr w).

(** [str(e)] of the [PermissionError] raised by [open]. *)
Definition oserror (path : string) : string :=
  "[Errno 13] Permission denied: '" +++ path +++ "'".

(** The text [save_favorites] writes: [f"{name}\n"] for each name. *)
Definition favorites_text (favorites : list string) : string :=
  fold_right (fun name acc => name +++ nl +++ acc) "" favorites.

(** [save_favorites(favorites, filename)] (SpySpeak.py 19-31, the same in
    SpySpeak-cli.py): overwrite the file, report, return whether it was
    written. *)
Definition save_favorites (favorites : list string) (filename : string) (w : world) : bool * world :=
  if decide (filename ∈ locked w)
  then (false, print ("Error saving favorites: " +++ oserror filename) w)
  else (true, print ("Successfully saved " +++ py_str_nat (length favorites) +++
                     " favorites to " +++ filename)
                    (set_file filename (favorites_text favorites) w)).

(** [load_favorites(filename)] (SpySpeak.py 33-46): [[]] with a notice
    when the file does not exist, [[]] with an error when it cannot be
    opened, else the stripped non-blank lines. *)
Definition load_favorites (filename : string) (w : world) : list string * world :=
  match files w !! filename with
  | None => ([], print ("No favorites file found at " +++ filename) w)
  | Some content =>
      if decide (filename ∈ locked w)
      then ([], print ("Error loading favorites: " +++ oserror filename) w)
      else (stripped_nonblank (file_lines content), w)
  end.

(** ** The command-line tool (SpySpeak-cli.py) *)

(** [load_favorites(filename)] of SpySpeak-cli.py (45-55): as above, but
    silent on a missing file and reporting errors on standard error. *)
Definition cli_load_favorites (filename : string) (w : world) : list string * world :=
  match files w !! filename with
  | None => ([], w)
  | Some content =>
      if decide (filename ∈ locked w)
      then ([], err ("Error loading favorites: " +++ oserror filename +++ nl) w)
      else (stripped_nonblank (file_lines content), w)
  end.

(** [save_favorites(favorites, filename)] of SpySpeak-cli.py (57-66): no
    success message, errors on standard error. *)
Definition cli_save_favorites (favorites : list string) (filename : string) (w : world) : bool * world :=
  if decide (filename ∈ locked w)
  then (false, err ("Error saving favorites: " +++ oserror filename +++ nl) w)
  else (true, set_file filename (favorites_text favorites) w).

(** [list_favorites(favorites_file)] (SpySpeak-cli.py 216-224). *)
Definition list_favorites (favorites_file : string) (w : world) : world :=
  let (favorites, w) := cli_load_favorites favorites_file w in
  match favorites with
  | [] => err ("No favorites found." +++ nl) w
  | _ => fold_left (fun w name => print name w) favorites w
  end.

(** [add_favorite(codename, favorites_file)] (SpySpeak-cli.py 226-235). *)
Definition add_favorite (codename favorites_file : string) (w : world) : world :=
  let (favorites, w) := cli_load_favorites favorites_file w in
  if py_in codename favorites
  then err ("Codename '" +++ codename +++ "' is already in favorites." +++ nl) w
  else let (ok, w) := cli_save_favorites (favorites ++ [codename]) favorites_file w in
       if ok then err ("Added '" +++ codename +++ "' to favorites." +++ nl) w else w.

(** [export_favorites(favorites_file, output_file, format_type)]
    (SpySpeak-cli.py 237-252). *)
Definition cli_export_favorites (favorites_file output_file format_type : string) (w : world) : world :=
  let (favorites, w) := cli_load_favorites favorites_file w in
  match favorites with
  | [] => err ("No favorites to export." +++ nl) w
  | _ =>
      let output := format_output favorites format_type in
      if decide (output_file ∈ locked w)
      then err ("Error exporting favorites: " +++ oserror output_file +++ nl) w
      else err ("Exported " +++ py_str_nat (length favorites) +++ " favorites to " +++
                output_file +++ " in " +++ format_type +++ " format." +++ nl)
               (set_file output_file output w)
  end.

(** ** The interactive shell (SpySpeak.py) *)

(** [int(s)] on a string: surrounding whitespace, an optional sign, then
    decimal digits with single underscores between them; [None] is the
    [ValueError]. *)
Fixpoint digits_val (s : string) (acc : Z) (prev_us : bool) : option Z :=
  match s with
  | EmptyString => if prev_us then None else Some acc
  | String c r =>
      if is_digit c then digits_val r (acc * 10 + (Z.of_nat (nat_of_ascii c) - 48))%Z false
      else if (Ascii.eqb c "_" && negb prev_us)%bool then digits_val r acc true
      else None
  end.

(** The optional sign in front of the digits. *)
Definition sign_split (t : string) : bool * string :=
  match t with
  | String "-" r => (true, r)
  | String "+" r => (false, r)
  | _ => (false, t)
  end.

Definition py_int (s : string) : option Z :=
  let '(neg, body) := sign_split (py_strip s) in
  match body with
  | String c _ =>
      if is_digit c
      then option_map (fun v => if neg then (- v)%Z else v) (digits_val body 0 false)
      else None
  | EmptyString => None
  end.

Fixpoint enumerate_lines (i : nat) (favorites : list string) : list string :=
  match favorites with
  | [] => []
  | name :: rest => (py_str_nat i +++ ". " +++ name) :: enumerate_lines (S i) rest
  end.

(** [print("\nYour favorite codenames:")] and
    [for i, name in enumerate(favorites, 1): print(f"{i}. {name}")]
    (SpySpeak.py 435-437 and 464-466). *)
Definition show_favorites (favorites : list string) (w : world) : world :=
  fold_left (fun w line => print line w)
            ((nl +++ "Your favorite codenames:") :: enumerate_lines 1 favorites) w.

(** A session of the shell, as far as the favorites go: the list in memory
    ([favorites] of [main]) and the world; [favorites_file] is fixed. *)
Definition session : Type := list string * world.

(** [favorites.append(name)]; [save_favorites(favorites, favorites_file)]
    (SpySpeak.py 385-386, 446-447 and 460-461).  The list keeps the name
    whether or not the save succeeds. *)
Definition interactive_add (favorites_file name : string) (st : session) : session :=
  let (favorites, w) := st in
  let favorites := favorites ++ [name] in
  (favorites, snd (save_favorites favorites favorites_file w)).

(** The "Remove a favorite" branch after the listing (SpySpeak.py
    468-477): [input] is the line read, a 1-based number; pop it and save. *)
Definition interactive_remove (favorites_file input : string) (st : session) : session :=
  let (favorites, w) := st in
  match py_int input with
  | None => (favorites, print "Please enter a valid number" w)
  | Some k =>
      let remove_idx := (k - 1)%Z in
      if ((0 <=? remove_idx) && (remove_idx <? Z.of_nat (length favorites)))%Z%bool
      then
        let removed := nth (Z.to_nat remove_idx) favorites "" in
        let favorites := delete (Z.to_nat remove_idx) favorites in
        let w := snd (save_favorites favorites favorites_file w) in
        (favorites, print ("Removed '" +++ removed +++ "' from favorites") w)
      else (favorites, print "Invalid number" w)
  end.

(** [export_favorites(favorites, format_type, filename)] (SpySpeak.py
    224-239): write the rendering when a file name is given. *)
Definition interactive_export (favorites : list string) (format_type filename : string)
    (w : world) : string * world :=
  let output := format_output favorites format_type in
  match filename with
  | EmptyString => (output, w)
  | _ =>
      if decide (filename ∈ locked w)
      then (output, print ("Error exporting favorites: " +++ oserror filename) w)
      else (output, print ("Successfully exported " +++ py_str_nat (length favorites) +++
                           " favorites to " +++ filename) (set_file filename output w))
  end.

(** The favorites actions of the menu, as the session sees them. *)
Inductive fav_action :=
  | FavAdd (name : string)
  | FavRemove (input : string)
  | FavExport (format_choice filename : string).

(** The "Export favorites" branch (SpySpeak.py 479-486): the chosen format
    when it is one of json, csv, html (after [.lower()]), else text. *)
Definition export_format (format_choice : string) : string :=
  let c := py_lower format_choice in
  if py_in c ["json"; "csv"; "html"] then c else "text".

Definition fav_step (favorites_file : string) (a : fav_action) (st : session) : session :=
  match a with
  | FavAdd name => interactive_add favorites_file name st
  | FavRemove input => interactive_remove favorites_file input (fst st, show_favorites (fst st) (snd st))
  | FavExport choice filename =>
      (fst st, snd (interactive_export (fst st) (export_format choice) filename (snd st)))
  end.

(** A sequence of favorites actions, one [fav_step] after another: the
    harness the invariant is stated over, not a function of the code
    (in [main] the steps are separated by other menu choices, which
    Session.v relates to [fav_step]). *)
Definition fav_run (favorites_file : string) (actions : list fav_action) (st : session) : session :=
  fold_left (fun st a => fav_step favorites_file a st) actions st.

(** What the favorites file reads back as (by either [load_favorites]). *)
Definition read_favorites (fn : string) (w : world) : list string :=
  match files w !! fn with
  | None => []
  | Some content => if decide (fn ∈ locked w) then [] else stripped_nonblank (file_lines content)
  end.

(** A session whose favorites file holds exactly the list in memory. *)
Definition mirrors (favorites_file : string) (st : session) : Prop :=
  files (snd st) !! favorites_file = Some (favorites_text (fst st)).

Definition empty_world : world := mk_world ∅ ∅ [] "".

(** Two worlds with the same files and the same unwritable paths: they
    differ at most in what was printed. *)
Definition same_store (w1 w2 : world) : Prop := files w1 = files w2 /\ locked w1 = locked w2.

(** The file [fn] is not the target of an export action. *)
Definition exports_to (fn : string) (a : fav_action) : bool :=
  match a with
  | FavExport _ filename => String.eqb filename fn
  | _ => false
  end.

(** A name typed at [input()] holds no line break. *)
Definition typed_line (a : fav_action) : bool :=
  match a with
  | FavAdd name => no_newline name
  | _ => true
  end.

(** The invariant of the interactive session: the favorites file holds
    the list in memory, whose entries are single lines. *)
Definition fav_inv (fn : string) (st : session) : Prop :=
  mirrors fn st /\ Forall (fun x => no_newline x = true) (fst st).

(** Worlds and sessions for the witnesses. *)
Definition locked_world : world := mk_world ∅ {["favorites.txt"]} [] "".

Definition session0 : session := ([], set_file "favorites.txt" "" empty_world).

Definition actions0 : list fav_action :=
  [FavAdd "Brave Tiger"; FavAdd "  Silent Owl"; FavRemove "1"; FavExport "JSON" "out.json"].

Definition world0 : world :=
  set_file "favorites.txt" ("Brave Tiger" +++ nl +++ nl +++ "  Silent Owl " +++ nl) empty_world.

(** ** Reading back what [save_favorites] wrote *)

Lemma translate_newlines_id (s : string) :
  all_chars (fun c => negb (Ascii.eqb c CR)) s = true -> translate_newlines s = s.
Proof.
  induction s as [|c r IH]; [reflexivity|]. cbn [all_chars translate_newlines].
  intros H. apply andb_true_iff in H as [Hc Hr]. apply negb_true_iff in Hc.
  now rewrite Hc, IH.
Qed.

Lemma lines_go_app (cur x s : string) :
  all_chars (fun c => negb (Ascii.eqb c LF)) x = true ->
  lines_go cur (x +++ s) = lines_go (cur +++ x) s.
Proof.
  revert cur. induction x as [|c r IH]; intros cur H; [now rewrite sapp_nil_r|].
  cbn [all_chars] in H. apply andb_true_iff in H as [Hc Hr]. apply negb_true_iff in Hc.
  change (String c r +++ s) with (String c (r +++ s)). cbn [lines_go]. rewrite Hc, IH by exact Hr. rewrite sapp_assoc. reflexivity.
Qed.

Lemma favorites_text_chars (p : ascii -> bool) (l : list string) :
  p LF = true -> Forall (fun x => all_chars p x = true) l ->
  all_chars p (favorites_text l) = true.
Proof.
  intros HLF. induction 1 as [|x l Hx _ IH]; [reflexivity|].
  change (favorites_text (x :: l)) with (x +++ nl +++ favorites_text l).
  rewrite !all_chars_app, Hx, IH. cbn. now rewrite HLF.
Qed.

Lemma no_newline_no_lf (x : string) :
  no_newline x = true -> all_chars (fun c => negb (Ascii.eqb c LF)) x = true.
Proof. apply all_chars_impl. intros c H. now apply andb_true_iff in H as [H _]. Qed.

Lemma no_newline_no_cr (x : string) :
  no_newline x = true -> all_chars (fun c => negb (Ascii.eqb c CR)) x = true.
Proof. apply all_chars_impl. intros c H. now apply andb_true_iff in H as [_ H]. Qed.

Lemma file_lines_favorites_text (l : list string) :
  Forall (fun x => no_newline x = true) l ->
  file_lines (favorites_text l) = map (fun x => x +++ nl) l.
Proof.
  intros Hl. unfold file_lines. rewrite translate_newlines_id.
  - induction Hl as [|x l Hx _ IH]; [reflexivity|].
    change (favorites_text (x :: l)) with (x +++ nl +++ favorites_text l).
    rewrite lines_go_app by now apply no_newline_no_lf.
    cbn [map]. rewrite <- IH. reflexivity.
  - apply favorites_text_chars; [reflexivity|].
    eapply List.Forall_impl; [|exact Hl]. exact no_newline_no_cr.
Qed.

Lemma stripped_nonblank_app (a b : list string) :
  stripped_nonblank (a ++ b) = stripped_nonblank a ++ stripped_nonblank b.
Proof. unfold stripped_nonblank. now rewrite List.filter_app, map_app. Qed.

Lemma stripped_nonblank_nl (l : list string) :
  stripped_nonblank (map (fun x => x +++ nl) l) = stripped_nonblank l.
Proof.
  induction l as [|x l IH]; [reflexivity|]. cbn [map].
  change ((x +++ nl) :: map (fun x => x +++ nl) l) with ([x +++ nl] ++ map (fun x => x +++ nl) l).
  change (x :: l) with ([x] ++ l). rewrite !stripped_nonblank_app, IH.
  unfold stripped_nonblank. cbn [List.filter map].
  rewrite strip_app_spaces_gen by reflexivity.
  destruct (negb (py_strip x =? "")); cbn [map]; [now rewrite strip_app_spaces_gen | reflexivity].
Qed.

Lemma stripped_nonblank_id (l : list string) :
  Forall canonical_line l -> stripped_nonblank l = l.
Proof.
  unfold stripped_nonblank. induction 1 as [|x l [Hne [Hs _]] _ IH]; [reflexivity|].
  cbn [List.filter]. rewrite Hs. destruct (String.eqb_spec x "") as [E|E]; [congruence|].
  cbn [negb map]. now rewrite Hs, IH.
Qed.

Lemma canonical_no_newline (l : list string) :
  Forall canonical_line l -> Forall (fun x => no_newline x = true) l.
Proof. apply List.Forall_impl. now intros x [_ [_ H]]. Qed.

(** What a save of [l] reads back as: the stripped non-blank entries. *)
Lemma read_saved (l : list string) :
  Forall (fun x => no_newline x = true) l ->
  stripped_nonblank (file_lines (favorites_text l)) = stripped_nonblank l.
Proof. intros Hl. now rewrite file_lines_favorites_text, stripped_nonblank_nl. Qed.

Lemma read_saved_canonical (l : list string) :
  Forall canonical_line l -> stripped_nonblank (file_lines (favorites_text l)) = l.
Proof. intros Hl. rewrite read_saved by now apply canonical_no_newline. now apply stripped_nonblank_id. Qed.

(** ** What the operations do to the world *)

Lemma load_favorites_read (fn : string) (w : world) :
  fst (load_favorites fn w) = read_favorites fn w /\
  files (snd (load_favorites fn w)) = files w /\ locked (snd (load_favorites fn w)) = locked w.
Proof.
  unfold load_favorites, read_favorites.
  destruct (files w !! fn); [destruct (decide _)|]; auto.
Qed.

Lemma cli_load_favorites_read (fn : string) (w : world) :
  fst (cli_load_favorites fn w) = read_favorites fn w /\
  files (snd (cli_load_favorites fn w)) = files w /\ locked (snd (cli_load_favorites fn w)) = locked w.
Proof.
  unfold cli_load_favorites, read_favorites.
  destruct (files w !! fn); [destruct (decide _)|]; auto.
Qed.

(** The favorites file reads back from the files and the locked paths only. *)
Lemma read_favorites_ext (fn : string) (w w' : world) :
  files w = files w' -> locked w = locked w' -> read_favorites fn w = read_favorites fn w'.
Proof. intros Hf Hl. unfold read_favorites. now rewrite Hf, Hl. Qed.

Lemma read_favorites_canonical (fn : string) (w : world) :
  Forall canonical_line (read_favorites fn w).
Proof.
  unfold read_favorites. destruct (files w !! fn) as [c|]; [|constructor].
  destruct (decide _); [constructor | apply file_lines_canonical].
Qed.

Lemma save_favorites_ok (l : list string) (fn : string) (w : world) :
  fn ∉ locked w ->
  fst (save_favorites l fn w) = true /\
  files (snd (save_favorites l fn w)) = <[fn := favorites_text l]> (files w) /\
  locked (snd (save_favorites l fn w)) = locked w.
Proof. intros H. unfold save_favorites. rewrite decide_False by exact H. auto. Qed.

Lemma cli_save_favorites_ok (l : list string) (fn : string) (w : world) :
  fn ∉ locked w ->
  fst (cli_save_favorites l fn w) = true /\
  files (snd (cli_save_favorites l fn w)) = <[fn := favorites_text l]> (files w) /\
  locked (snd (cli_save_favorites l fn w)) = locked w.
Proof. intros H. unfold cli_save_favorites. rewrite decide_False by exact H. auto. Qed.

(** After writing [l] to a writable favorites file, it reads back as the
    stripped non-blank entries of [l]. *)
Lemma read_after_write (l : list string) (fn : string) (w w' : world) :
  fn ∉ locked w -> files w' = <[fn := favorites_text l]> (files w) -> locked w' = locked w ->
  Forall (fun x => no_newline x = true) l ->
  read_favorites fn w' = stripped_nonblank l.
Proof.
  intros H Hf Hl Hn. unfold read_favorites.
  rewrite Hf, lookup_insert_eq, Hl, decide_False by exact H. now apply read_saved.
Qed.

(** A file that mirrors a list reads back as its stripped non-blank entries. *)
Lemma load_mirrored (fn : string) (st : session) :
  mirrors fn st -> fn ∉ locked (snd st) -> Forall (fun x => no_newline x = true) (fst st) ->
  fst (load_favorites fn (snd st)) = stripped_nonblank (fst st).
Proof.
  unfold mirrors, load_favorites. intros Hm Hl Hn. rewrite Hm, decide_False by exact Hl.
  now apply read_saved.
Qed.

Lemma stripped_nonblank_single (name : string) :
  canonical_line name -> stripped_nonblank [name] = [name].
Proof. intros H. apply stripped_nonblank_id. constructor; [exact H | constructor]. Qed.

(** [add_favorite] loads, then appends the name and saves unless it is
    already loaded. *)
Lemma add_favorite_read (name fn : string) (w : world) :
  no_newline name = true -> fn ∉ locked w ->
  read_favorites fn (add_favorite name fn w) =
    (if py_in name (read_favorites fn w) then read_favorites fn w
     else read_favorites fn w ++ stripped_nonblank [name]) /\
  locked (add_favorite name fn w) = locked w.
Proof.
  intros Hn Hfn. unfold add_favorite.
  pose proof (read_favorites_canonical fn w) as Hc.
  destruct (cli_load_favorites_read fn w) as [Hr [Hf Hl]].
  destruct (cli_load_favorites fn w) as [favs w1]. cbn [fst snd] in *. subst favs.
  destruct (py_in name (read_favorites fn w)).
  - split; [|exact Hl]. now apply read_favorites_ext.
  - rewrite <- Hl in Hfn.
    destruct (cli_save_favorites_ok (read_favorites fn w ++ [name]) fn w1 Hfn) as [Hok [Hf' Hl']].
    destruct (cli_save_favorites (read_favorites fn w ++ [name]) fn w1) as [ok w2].
    cbn [fst snd] in *. subst ok. split; [|cbn [err locked]; congruence].
    rewrite (read_after_write (read_favorites fn w ++ [name]) fn w1 (err _ w2) Hfn Hf' Hl').
    + rewrite stripped_nonblank_app. f_equal. now apply stripped_nonblank_id.
    + apply Forall_app. split; [now apply canonical_no_newline | now repeat constructor].
Qed.

Lemma canonical_not_in (name : string) (l : list string) :
  Forall canonical_line l -> py_strip name <> name -> py_in name l = false.
Proof.
  intros Hl Hs. apply py_in_false. intros Hin.
  rewrite List.Forall_forall in Hl. destruct (Hl name Hin) as [_ [H _]]. contradiction.
Qed.

(** ** The command-line favorites *)

(** C11 (functional). [add_favorite] run twice with the same codename
    leaves the favorites file as one run does: the codename is appended
    once, unless the file already held it (spec 8: "FavoritesStore.add
    called twice with the same exact string results in the persisted file
    containing that entry exactly once"), for a codename as the file
    stores it (non-empty, stripped, on one line) and a writable file. *)
Theorem add_favorite_twice (name fn : string) (w : world) :
  canonical_line name -> fn ∉ locked w ->
  let favs := read_favorites fn w in
  read_favorites fn (add_favorite name fn (add_favorite name fn w)) =
    read_favorites fn (add_favorite name fn w) /\
  read_favorites fn (add_favorite name fn w) =
    (if py_in name favs then favs else favs ++ [name]) /\
  (~ In name favs ->
   count_occ string_dec (read_favorites fn (add_favorite name fn (add_favorite name fn w))) name = 1%nat).
Proof.
  intros Hc Hfn favs. pose proof Hc as [_ [_ Hn]].
  destruct (add_favorite_read name fn w Hn Hfn) as [H1 Hl1].
  rewrite <- Hl1 in Hfn. destruct (add_favorite_read name fn _ Hn Hfn) as [H2 _].
  rewrite stripped_nonblank_single in H1, H2 by exact Hc.
  fold favs in H1. rewrite H2, H1.
  assert (Hin : py_in name (if py_in name favs then favs else favs ++ [name]) = true).
  { destruct (py_in name favs) eqn:E; [exact E|]. apply py_in_iff, in_or_app. simpl; auto. }
  rewrite Hin. split; [reflexivity|]. split; [reflexivity|].
  intros Hnot. rewrite <- py_in_false in Hnot. rewrite Hnot, count_occ_app.
  rewrite (proj1 (count_occ_not_In string_dec favs name)) by now apply py_in_false.
  simpl. now destruct (string_dec name name).
Qed.

(** C26 (functional). A codename with surrounding whitespace is added
    again on every run: the file holds stripped lines, so the test
    [codename in favorites] never sees it, and the stripped codename ends
    up in the file once per run. *)
Theorem add_favorite_unstripped_twice (name fn : string) (w : world) :
  no_newline name = true -> py_strip name <> name -> py_strip name <> "" -> fn ∉ locked w ->
  read_favorites fn (add_favorite name fn (add_favorite name fn w)) =
    read_favorites fn w ++ [py_strip name; py_strip name].
Proof.
  intros Hn Hs Hne Hfn.
  assert (Hsn : stripped_nonblank [name] = [py_strip name]).
  { unfold stripped_nonblank. cbn [List.filter]. destruct (String.eqb_spec (py_strip name) "");
      [contradiction | reflexivity]. }
  destruct (add_favorite_read name fn w Hn Hfn) as [H1 Hl1].
  rewrite <- Hl1 in Hfn. destruct (add_favorite_read name fn _ Hn Hfn) as [H2 _].
  rewrite Hsn in H1, H2. rewrite H2, H1.
  rewrite (canonical_not_in name _ (read_favorites_canonical fn w) Hs).
  rewrite (canonical_not_in name (read_favorites fn w ++ [py_strip name])).
  - now rewrite <- app_assoc.
  - pose proof (read_favorites_canonical fn (add_favorite name fn w)) as Hc.
    now rewrite H1, (canonical_not_in name _ (read_favorites_canonical fn w) Hs) in Hc.
  - exact Hs.
Qed.

(** ** [int()] reads back [str()] *)

Lemma digit_char_val (d : nat) :
  (d < 10)%nat -> (Z.of_nat (nat_of_ascii (digit_char d)) - 48 = Z.of_nat d)%Z.
Proof. intros H. unfold digit_char. rewrite nat_ascii_embedding by lia. lia. Qed.

Lemma digits_val_go (f n : nat) (acc : string) (v : Z) :
  (n < 10 ^ f)%nat ->
  exists e, (0 <= e)%Z /\
    digits_val (digits_go f n acc) v false = digits_val acc (v * 10 ^ e + Z.of_nat n)%Z false.
Proof.
  revert n acc v. induction f as [|f IH]; intros n acc v Hn.
  - exists 0%Z. simpl in Hn. replace n with 0%nat by lia. split; [lia|]. f_equal. lia.
  - assert (Hm : (n mod 10 < 10)%nat) by (apply Nat.mod_upper_bound; lia).
    cbn [digits_go]. destruct (n <? 10)%nat eqn:E.
    + apply Nat.ltb_lt in E. exists 1%Z. split; [lia|]. cbn [digits_val].
      rewrite digit_char_is_digit, digit_char_val by exact Hm.
      rewrite Nat.mod_small by lia. f_equal; lia.
    + apply Nat.ltb_ge in E.
      destruct (IH (n / 10)%nat (String (digit_char (n mod 10)) acc) v) as [e [He Hv]].
      { apply Nat.Div0.div_lt_upper_bound. rewrite Nat.pow_succ_r' in Hn. lia. }
      exists (e + 1)%Z. split; [lia|]. rewrite Hv. cbn [digits_val].
      rewrite digit_char_is_digit, digit_char_val by exact Hm. f_equal.
      pose proof (Nat.div_mod_eq n 10). rewrite Z.pow_add_r by lia. lia.
Qed.

Lemma sign_split_digit (c : ascii) (r : string) :
  is_digit c = true -> sign_split (String c r) = (false, String c r).
Proof. destruct c as [[|] [|] [|] [|] [|] [|] [|] [|]]; intros H; cbv in H |- *; congruence. Qed.

Lemma py_int_str_nat (n : nat) : py_int (py_str_nat n) = Some (Z.of_nat n).
Proof.
  unfold py_int. rewrite strip_no_space by apply digits_no_space, py_str_nat_digits.
  pose proof (py_str_nat_digits n) as Hd.
  assert (Hv : exists e, (0 <= e)%Z /\ digits_val (py_str_nat n) 0 false = Some (0 * 10 ^ e + Z.of_nat n)%Z).
  { apply digits_val_go. pose proof (Nat.pow_gt_lin_r 10 n ltac:(lia)).
    rewrite Nat.pow_succ_r'. lia. }
  destruct Hv as [e [_ Hv]]. rewrite Z.mul_0_l, Z.add_0_l in Hv.
  destruct (py_str_nat n) as [|c r] eqn:E; [now destruct (py_str_nat_nonempty n)|].
  cbn [all_chars] in Hd. apply andb_true_iff in Hd as [Hc _].
  rewrite sign_split_digit, Hc, Hv by exact Hc. reflexivity.
Qed.

Lemma enumerate_lines_nth (i k : nat) (l : list string) :
  (k < length l)%nat -> In (py_str_nat (i + k) +++ ". " +++ nth k l "") (enumerate_lines i l).
Proof.
  revert i k. induction l as [|x l IH]; intros i k Hk; [simpl in Hk; lia|].
  destruct k as [|k]; cbn [enumerate_lines nth In].
  - left. now rewrite Nat.add_0_r.
  - right. rewrite <- Nat.add_succ_comm. apply IH. simpl in Hk. lia.
Qed.

(** ** The interactive session *)

Lemma print_lines_world (ls : list string) (w : world) :
  files (fold_left (fun w line => print line w) ls w) = files w /\
  locked (fold_left (fun w line => print line w) ls w) = locked w.
Proof. revert w. induction ls as [|l ls IH]; intros w; [auto|]. cbn [fold_left]. apply (IH (print l w)). Qed.

Lemma show_favorites_world (favorites : list string) (w : world) :
  files (show_favorites favorites w) = files w /\ locked (show_favorites favorites w) = locked w.
Proof. apply print_lines_world. Qed.

Lemma interactive_add_spec (fn name : string) (st : session) :
  fn ∉ locked (snd st) ->
  fst (interactive_add fn name st) = fst st ++ [name] /\
  mirrors fn (interactive_add fn name st) /\
  locked (snd (interactive_add fn name st)) = locked (snd st).
Proof.
  destruct st as [favs w]. intros H. cbn [snd] in H.
  destruct (save_favorites_ok (favs ++ [name]) fn w H) as [_ [Hf Hl]].
  unfold mirrors, interactive_add. cbn [fst snd]. rewrite Hf, lookup_insert_eq. auto.
Qed.

(** Removing the entry at a valid 0-based position [k - 1]. *)
Lemma interactive_remove_valid (fn input : string) (favs : list string) (w : world) (k : Z) :
  py_int input = Some k -> (1 <= k <= Z.of_nat (length favs))%Z -> fn ∉ locked w ->
  fst (interactive_remove fn input (favs, w)) = delete (Z.to_nat (k - 1)) favs /\
  mirrors fn (interactive_remove fn input (favs, w)) /\
  locked (snd (interactive_remove fn input (favs, w))) = locked w.
Proof.
  intros Hk Hr H. unfold interactive_remove. rewrite Hk.
  replace ((0 <=? k - 1) && (k - 1 <? Z.of_nat (length favs)))%Z%bool with true
    by (symmetry; apply andb_true_iff; split; [apply Z.leb_le | apply Z.ltb_lt]; lia).
  destruct (save_favorites_ok (delete (Z.to_nat (k - 1)) favs) fn w H) as [_ [Hf Hl]].
  unfold mirrors. cbn [fst snd print write_out files locked]. rewrite Hf, lookup_insert_eq, Hl. auto.
Qed.

Lemma interactive_remove_invalid (fn input : string) (favs : list string) (w : world) :
  (forall k, py_int input = Some k -> (k < 1 \/ Z.of_nat (length favs) < k)%Z) ->
  fst (interactive_remove fn input (favs, w)) = favs /\
  files (snd (interactive_remove fn input (favs, w))) = files w /\
  locked (snd (interactive_remove fn input (favs, w))) = locked w.
Proof.
  intros Hk. unfold interactive_remove.
  destruct (py_int input) as [k|]; [|cbn; auto].
  specialize (Hk k eq_refl).
  replace ((0 <=? k - 1) && (k - 1 <? Z.of_nat (length favs)))%Z%bool with false
    by (symmetry; apply andb_false_iff; destruct Hk; [left; apply Z.leb_gt | right; apply Z.ltb_ge]; lia).
  cbn; auto.
Qed.

Lemma Forall_delete_nat (P : string -> Prop) (i : nat) (l : list string) :
  Forall P l -> Forall P (delete i l).
Proof.
  revert i. induction l as [|x l IH]; intros i Hl; [constructor|].
  inversion Hl; subst. destruct i as [|i]; cbn; [assumption|]. constructor; auto.
Qed.

Lemma fav_step_inv (fn : string) (a : fav_action) (st : session) :
  fn ∉ locked (snd st) -> exports_to fn a = false -> typed_line a = true ->
  fav_inv fn st ->
  fav_inv fn (fav_step fn a st) /\ locked (snd (fav_step fn a st)) = locked (snd st).
Proof.
  destruct st as [favs w]. cbn [snd]. intros Hfn Hex Hty [Hm Hn].
  destruct a as [name | input | choice filename]; cbn [fav_step].
  - destruct (interactive_add_spec fn name (favs, w) Hfn) as [Hfst [Hm' Hl']].
    split; [split|]; [exact Hm' | | exact Hl']. rewrite Hfst. cbn [fst].
    apply Forall_app. split; [exact Hn | now constructor].
  - assert (Hcase : (exists k, py_int input = Some k /\ (1 <= k <= Z.of_nat (length favs))%Z) \/
                      (forall k, py_int input = Some k -> (k < 1 \/ Z.of_nat (length favs) < k)%Z)).
    { destruct (py_int input) as [k|]; [|right; intros k' E; discriminate].
      destruct (Z_le_gt_dec 1 k), (Z_le_gt_dec k (Z.of_nat (length favs)));
        [left; exists k; split; [reflexivity | lia] | right; intros k' E; injection E as <-; lia ..]. }
    cbn [fst snd]. destruct (show_favorites_world favs w) as [Hsf Hsl].
    set (w' := show_favorites favs w) in *. rewrite <- Hsl. rewrite <- Hsl in Hfn.
    destruct Hcase as [[k [Ek Hr]] | Hinv].
    + destruct (interactive_remove_valid fn input favs w' k Ek Hr Hfn) as [Hfst [Hm' Hl']].
      split; [split|]; [exact Hm' | | exact Hl']. rewrite Hfst. now apply Forall_delete_nat.
    + destruct (interactive_remove_invalid fn input favs w' Hinv) as [Hfst [Hf Hl']].
      split; [split|]; [| rewrite Hfst; exact Hn | exact Hl'].
      unfold mirrors in *. cbn [fst snd] in *. rewrite Hf, Hfst, Hsf. exact Hm.
  - cbn [exports_to] in Hex. apply String.eqb_neq in Hex. cbn [fst snd].
    unfold interactive_export. split; [split|]; [| exact Hn |];
      destruct filename as [|c r]; [exact Hm| |reflexivity|]; destruct (decide _); try reflexivity; try exact Hm.
    unfold mirrors. cbn. rewrite lookup_insert_ne by congruence. exact Hm.
Qed.

(** ** Properties of the interactive favorites *)

(** C27 (functional). The shell's "Add to favorites" keeps no check for
    duplicates: adding the same codename twice puts it in the list and in
    the file twice, against spec 4.8 ("add is a no-op if name already
    exists") and the add-twice property of spec 8. *)
Theorem interactive_add_twice (fn name : string) (favorites : list string) (w : world) :
  canonical_line name -> Forall canonical_line favorites -> fn ∉ locked w ->
  fst (interactive_add fn name (interactive_add fn name (favorites, w))) = favorites ++ [name; name] /\
  fst (load_favorites fn (snd (interactive_add fn name (interactive_add fn name (favorites, w))))) =
    favorites ++ [name; name].
Proof.
  intros Hc Hf H.
  destruct (interactive_add_spec fn name (favorites, w) H) as [H1 [_ Hl1]].
  destruct (interactive_add_spec fn name (interactive_add fn name (favorites, w))) as [H2 [Hm2 Hl2]];
    [now rewrite Hl1|].
  assert (Hall : Forall canonical_line (favorites ++ [name; name]))
    by (apply Forall_app; split; [exact Hf | constructor; [exact Hc | constructor; [exact Hc | constructor]]]).
  rewrite H2, H1. cbn [fst]. rewrite <- app_assoc. split; [reflexivity|].
  rewrite load_mirrored; [| exact Hm2 | now rewrite Hl2, Hl1 | ].
  - rewrite H2, H1. cbn [fst]. rewrite <- app_assoc. exact (stripped_nonblank_id _ Hall).
  - rewrite H2, H1. cbn [fst]. rewrite <- app_assoc. exact (canonical_no_newline _ Hall).
Qed.

(** C28 (error). When the favorites file cannot be written, the shell's
    add reports the error but keeps the codename in its list, which then
    differs from the file (spec 7: a [PersistenceFailure] leaves the
    operation "considered not-applied"). *)
Theorem interactive_add_unsaved (fn name : string) (favorites : list string) (w : world) :
  fn ∈ locked w ->
  fst (interactive_add fn name (favorites, w)) = favorites ++ [name] /\
  files (snd (interactive_add fn name (favorites, w))) = files w /\
  last (stdout (snd (interactive_add fn name (favorites, w)))) =
    Some ("Error saving favorites: " +++ oserror fn +++ nl).
Proof.
  intros H. unfold interactive_add, save_favorites. rewrite decide_True by exact H.
  cbn [fst snd print write_out files stdout]. rewrite last_snoc. auto.
Qed.

(** C22 (roundtrip). Typing the number the shell shows in front of a
    favorite removes that favorite: [str(k)] read back by [int()] is [k],
    entry [k] is the [(k-1)]-th of the list, and the file is rewritten to
    the remaining list. *)
Theorem interactive_remove_shown (fn : string) (favorites : list string) (w : world) (k : nat) :
  (1 <= k <= length favorites)%nat -> fn ∉ locked w ->
  In (py_str_nat k +++ ". " +++ nth (k - 1) favorites "") (enumerate_lines 1 favorites) /\
  fst (interactive_remove fn (py_str_nat k) (favorites, w)) = delete (k - 1) favorites /\
  mirrors fn (interactive_remove fn (py_str_nat k) (favorites, w)).
Proof.
  intros Hk H. split.
  - replace k with (1 + (k - 1))%nat at 1 by lia. apply enumerate_lines_nth. lia.
  - destruct (interactive_remove_valid fn (py_str_nat k) favorites w (Z.of_nat k)
                (py_int_str_nat k) ltac:(lia) H) as [H1 [H2 _]].
    split; [|exact H2]. rewrite H1. f_equal. lia.
Qed.

(** C23 (error). An input that is not a number, or a number outside
    1..len(favorites), removes nothing and leaves the files as they were;
    the shell answers "Please enter a valid number" or "Invalid number"
    (spec 4.8: an out-of-range index is reported, not applied). *)
Theorem interactive_remove_rejects (fn input : string) (favorites : list string) (w : world) :
  (forall k, py_int input = Some k -> (k < 1 \/ Z.of_nat (length favorites) < k)%Z) ->
  fst (interactive_remove fn input (favorites, w)) = favorites /\
  files (snd (interactive_remove fn input (favorites, w))) = files w /\
  last (stdout (snd (interactive_remove fn input (favorites, w)))) =
    Some (match py_int input with
          | Some _ => "Invalid number"
          | None => "Please enter a valid number"
          end +++ nl).
Proof.
  intros Hk. destruct (interactive_remove_invalid fn input favorites w Hk) as [H1 [H2 _]].
  split; [exact H1|]. split; [exact H2|]. unfold interactive_remove.
  destruct (py_int input) as [k|]; [|cbn [snd stdout print write_out]; apply last_snoc].
  specialize (Hk k eq_refl).
  replace ((0 <=? k - 1) && (k - 1 <? Z.of_nat (length favorites)))%Z%bool with false
    by (symmetry; apply andb_false_iff; destruct Hk; [left; apply Z.leb_gt | right; apply Z.ltb_ge]; lia).
  cbn [snd stdout print write_out]. apply last_snoc.
Qed.

(** C12 (invariant). Along any sequence of adds, removals and exports of
    the shell, the favorites file holds the list in memory and reloads as
    its stripped non-blank entries, as long as the file stays writable and
    no export is written over it (an export to the favorites file replaces
    it with the rendering). *)
Theorem fav_run_inv (fn : string) (actions : list fav_action) (st : session) :
  fn ∉ locked (snd st) ->
  Forall (fun a => exports_to fn a = false /\ typed_line a = true) actions ->
  fav_inv fn st ->
  fav_inv fn (fav_run fn actions st) /\
  fst (load_favorites fn (snd (fav_run fn actions st))) = stripped_nonblank (fst (fav_run fn actions st)).
Proof.
  intros Hfn Ha. unfold fav_run. revert st Hfn.
  induction Ha as [|a actions [Hex Hty] _ IH]; intros st Hfn Hinv; cbn [fold_left].
  - split; [exact Hinv|]. destruct Hinv as [Hm Hn]. now apply load_mirrored.
  - destruct (fav_step_inv fn a st Hfn Hex Hty Hinv) as [Hinv' Hl].
    apply IH; [now rewrite Hl | exact Hinv'].
Qed.

(** C24 (roundtrip). [--export-favorites] with [--format json] writes a
    file that reads back as the favorites read from the favorites file. *)
Theorem cli_export_json_roundtrip (fn out : string) (w : world) :
  read_favorites fn w <> [] -> out ∉ locked w ->
  match files (cli_export_favorites fn out "json" w) !! out with
  | Some text => read_codenames_json text
  | None => None
  end = Some (read_favorites fn w).
Proof.
  intros Hne Hout. unfold cli_export_favorites.
  destruct (cli_load_favorites_read fn w) as [Hr [_ Hl]].
  destruct (cli_load_favorites fn w) as [favs w1]. cbn [fst snd] in *. subst favs.
  destruct (read_favorites fn w) as [|x l]; [contradiction|]. rewrite <- Hl in Hout.
  rewrite decide_False by exact Hout. cbn [err set_file files].
  rewrite lookup_insert_eq. apply read_json_dumps.
Qed.

(** ** Witnesses at concrete worlds *)

Lemma add_favorite_twice_witness :
  canonical_line "Brave Tiger" /\ ("favorites.txt" ∉ locked empty_world) /\
  read_favorites "favorites.txt"
         (add_favorite "Brave Tiger" "favorites.txt" (add_favorite "Brave Tiger" "favorites.txt" empty_world)) =
    read_favorites "favorites.txt" (add_favorite "Brave Tiger" "favorites.txt" empty_world) /\
  read_favorites "favorites.txt" (add_favorite "Brave Tiger" "favorites.txt" empty_world) =
    (if py_in "Brave Tiger" (read_favorites "favorites.txt" empty_world)
     then read_favorites "favorites.txt" empty_world
     else read_favorites "favorites.txt" empty_world ++ ["Brave Tiger"]) /\
  (~ In "Brave Tiger" (read_favorites "favorites.txt" empty_world) ->
   count_occ string_dec (read_favorites "favorites.txt"
     (add_favorite "Brave Tiger" "favorites.txt" (add_favorite "Brave Tiger" "favorites.txt" empty_world)))
     "Brave Tiger" = 1%nat).
Proof.
  assert (Hc : canonical_line "Brave Tiger") by (split; [discriminate | split; reflexivity]).
  assert (Hl : ("favorites.txt" ∉ locked empty_world)) by apply not_elem_of_empty.
  split; [exact Hc|]. split; [exact Hl|].
  exact (add_favorite_twice "Brave Tiger" "favorites.txt" empty_world Hc Hl).
Defined.

Lemma add_favorite_unstripped_twice_witness :
  no_newline " Brave Tiger" = true /\ py_strip " Brave Tiger" <> " Brave Tiger" /\
  py_strip " Brave Tiger" <> "" /\ ("favorites.txt" ∉ locked empty_world) /\
  read_favorites "favorites.txt"
         (add_favorite " Brave Tiger" "favorites.txt" (add_favorite " Brave Tiger" "favorites.txt" empty_world)) =
    read_favorites "favorites.txt" empty_world ++ [py_strip " Brave Tiger"; py_strip " Brave Tiger"].
Proof.
  assert (H1 : no_newline " Brave Tiger" = true) by reflexivity.
  assert (H2 : py_strip " Brave Tiger" <> " Brave Tiger") by (vm_compute; discriminate).
  assert (H3 : py_strip " Brave Tiger" <> "") by (vm_compute; discriminate).
  assert (H4 : ("favorites.txt" ∉ locked empty_world)) by apply not_elem_of_empty.
  split; [exact H1|]. split; [exact H2|]. split; [exact H3|]. split; [exact H4|].
  exact (add_favorite_unstripped_twice " Brave Tiger" "favorites.txt" empty_world H1 H2 H3 H4).
Defined.

Lemma interactive_add_twice_witness :
  canonical_line "Brave Tiger" /\ Forall canonical_line ["Silent Owl"] /\
  ("favorites.txt" ∉ locked empty_world) /\
  fst (interactive_add "favorites.txt" "Brave Tiger"
         (interactive_add "favorites.txt" "Brave Tiger" (["Silent Owl"], empty_world))) =
    ["Silent Owl"] ++ ["Brave Tiger"; "Brave Tiger"] /\
  fst (load_favorites "favorites.txt" (snd (interactive_add "favorites.txt" "Brave Tiger"
         (interactive_add "favorites.txt" "Brave Tiger" (["Silent Owl"], empty_world))))) =
    ["Silent Owl"] ++ ["Brave Tiger"; "Brave Tiger"].
Proof.
  assert (Hc : canonical_line "Brave Tiger") by (split; [discriminate | split; reflexivity]).
  assert (Hf : Forall canonical_line ["Silent Owl"])
    by (constructor; [split; [discriminate | split; reflexivity] | constructor]).
  assert (Hl : ("favorites.txt" ∉ locked empty_world)) by apply not_elem_of_empty.
  split; [exact Hc|]. split; [exact Hf|]. split; [exact Hl|].
  exact (interactive_add_twice "favorites.txt" "Brave Tiger" ["Silent Owl"] empty_world Hc Hf Hl).
Defined.

Lemma interactive_add_unsaved_witness :
  ("favorites.txt" ∈ locked locked_world) /\
  fst (interactive_add "favorites.txt" "Brave Tiger" ([], locked_world)) = [] ++ ["Brave Tiger"] /\
  files (snd (interactive_add "favorites.txt" "Brave Tiger" ([], locked_world))) = files locked_world /\
  last (stdout (snd (interactive_add "favorites.txt" "Brave Tiger" ([], locked_world)))) =
    Some ("Error saving favorites: " +++ oserror "favorites.txt" +++ nl).
Proof.
  assert (H : "favorites.txt" ∈ locked locked_world) by (cbn [locked locked_world]; now apply elem_of_singleton).
  split; [exact H|]. exact (interactive_add_unsaved "favorites.txt" "Brave Tiger" [] locked_world H).
Defined.

Lemma interactive_remove_shown_witness :
  (1 <= 2 <= length ["Brave Tiger"; "Silent Owl"; "Iron Fox"])%nat /\
  ("favorites.txt" ∉ locked empty_world) /\
  In (py_str_nat 2 +++ ". " +++ nth (2 - 1) ["Brave Tiger"; "Silent Owl"; "Iron Fox"] "")
     (enumerate_lines 1 ["Brave Tiger"; "Silent Owl"; "Iron Fox"]) /\
  fst (interactive_remove "favorites.txt" (py_str_nat 2) (["Brave Tiger"; "Silent Owl"; "Iron Fox"], empty_world)) =
    delete (2 - 1) ["Brave Tiger"; "Silent Owl"; "Iron Fox"] /\
  mirrors "favorites.txt"
    (interactive_remove "favorites.txt" (py_str_nat 2) (["Brave Tiger"; "Silent Owl"; "Iron Fox"], empty_world)).
Proof.
  assert (Hk : (1 <= 2 <= length ["Brave Tiger"; "Silent Owl"; "Iron Fox"])%nat) by (simpl; lia).
  assert (Hl : ("favorites.txt" ∉ locked empty_world)) by apply not_elem_of_empty.
  split; [exact Hk|]. split; [exact Hl|].
  exact (interactive_remove_shown "favorites.txt" _ empty_world 2 Hk Hl).
Defined.

Lemma interactive_remove_rejects_witness :
  (forall k, py_int " 7 " = Some k -> (k < 1 \/ Z.of_nat (length ["Brave Tiger"; "Silent Owl"]) < k)%Z) /\
  fst (interactive_remove "favorites.txt" " 7 " (["Brave Tiger"; "Silent Owl"], empty_world)) =
    ["Brave Tiger"; "Silent Owl"] /\
  files (snd (interactive_remove "favorites.txt" " 7 " (["Brave Tiger"; "Silent Owl"], empty_world))) =
    files empty_world /\
  last (stdout (snd (interactive_remove "favorites.txt" " 7 " (["Brave Tiger"; "Silent Owl"], empty_world)))) =
    Some (match py_int " 7 " with
          | Some _ => "Invalid number"
          | None => "Please enter a valid number"
          end +++ nl).
Proof.
  assert (Hk : forall k, py_int " 7 " = Some k ->
                 (k < 1 \/ Z.of_nat (length ["Brave Tiger"; "Silent Owl"]) < k)%Z)
    by (intros k E; vm_compute in E; injection E as <-; simpl; lia).
  split; [exact Hk|].
  exact (interactive_remove_rejects "favorites.txt" " 7 " _ empty_world Hk).
Defined.

Lemma fav_run_inv_witness :
  ("favorites.txt" ∉ locked (snd session0)) /\
  Forall (fun a => exports_to "favorites.txt" a = false /\ typed_line a = true) actions0 /\
  fav_inv "favorites.txt" session0 /\
  fav_inv "favorites.txt" (fav_run "favorites.txt" actions0 session0) /\
  fst (load_favorites "favorites.txt" (snd (fav_run "favorites.txt" actions0 session0))) =
    stripped_nonblank (fst (fav_run "favorites.txt" actions0 session0)).
Proof.
  assert (H1 : "favorites.txt" ∉ locked (snd session0)) by apply not_elem_of_empty.
  assert (H2 : Forall (fun a => exports_to "favorites.txt" a = false /\ typed_line a = true) actions0)
    by (repeat constructor).
  assert (H3 : fav_inv "favorites.txt" session0) by (split; [reflexivity | constructor]).
  split; [exact H1|]. split; [exact H2|]. split; [exact H3|].
  exact (fav_run_inv "favorites.txt" actions0 session0 H1 H2 H3).
Defined.

Lemma cli_export_json_roundtrip_witness :
  read_favorites "favorites.txt" world0 <> [] /\ ("out.json" ∉ locked world0) /\
  match files (cli_export_favorites "favorites.txt" "out.json" "json" world0) !! "out.json" with
  | Some text => read_codenames_json text
  | None => None
  end = Some (read_favorites "favorites.txt" world0).
Proof.
  assert (H1 : read_favorites "favorites.txt" world0 <> []) by (vm_compute; discriminate).
  assert (H2 : ("out.json" ∉ locked world0)) by apply not_elem_of_empty.
  split; [exact H1|]. split; [exact H2|].
  exact (cli_export_json_roundtrip "favorites.txt" "out.json" world0 H1 H2).
Defined.

Lemma digits_val_nonneg (s : string) (acc : Z) (b : bool) (v : Z) :
  (0 <= acc)%Z -> digits_val s acc b = Some v -> (0 <= v)%Z.
Proof.
  revert acc b. induction s as [|c r IH]; intros acc b Hacc E; cbn [digits_val] in E.
  - destruct b; congruence.
  - destruct (is_digit c) eqn:Ed.
    + apply is_digit_ge in Ed. eapply IH; [|exact E]. lia.
    + destruct (Ascii.eqb c "_" && negb b)%bool; [exact (IH _ _ Hacc E) | discriminate].
Qed.

(** [int(s)] of a string for which [s.isdigit()] holds is non-negative. *)
Lemma py_int_isdigit_nonneg (s : string) (k : Z) :
  py_isdigit s = true -> py_int s = Some k -> (0 <= k)%Z.
Proof.
  unfold py_isdigit. intros [_ Hd]%andb_true_iff Hk.
  unfold py_int in Hk. rewrite strip_no_space in Hk by (now apply digit_chars_no_space).
  destruct s as [|c r]; [discriminate|]. cbn [all_chars] in Hd.
  apply andb_true_iff in Hd as [Hc _].
  assert (Hs : sign_split (String c r) = (false, String c r))
    by (destruct c as [[|] [|] [|] [|] [|] [|] [|] [|]]; cbv in Hc |- *; congruence).
  rewrite Hs in Hk. destruct (is_digit c); [|discriminate].
  destruct (digits_val _ _ _) eqn:E; cbn in Hk; [|discriminate]. injection Hk as <-.
  exact (digits_val_nonneg _ _ _ _ (Z.le_refl 0) E).
Qed.

#[export] Instance same_store_equiv : Equivalence same_store.
Proof.
  split; unfold same_store.
  - intros w. split; reflexivity.
  - intros w1 w2 [Hf Hl]. split; congruence.
  - intros w1 w2 w3 [Hf Hl] [Hf' Hl']. split; congruence.
Qed.

Lemma same_store_write (text : string) (w : world) : same_store (write_out text w) w.
Proof. split; reflexivity. Qed.

Lemma same_store_print (line : string) (w : world) : same_store (print line w) w.
Proof. split; reflexivity. Qed.

Lemma same_store_set_file (fn content : string) (w1 w2 : world) :
  same_store w1 w2 -> same_store (set_file fn content w1) (set_file fn content w2).
Proof. intros [Hf Hl]. split; cbn; congruence. Qed.

Lemma same_store_show (favs : list string) (w : world) : same_store (show_favorites favs w) w.
Proof. apply show_favorites_world. Qed.

Lemma save_favorites_store (l : list string) (fn : string) (w1 w2 : world) :
  same_store w1 w2 -> same_store (snd (save_favorites l fn w1)) (snd (save_favorites l fn w2)).
Proof.
  intros [Hf Hl]. unfold save_favorites. rewrite Hl.
  destruct (decide (fn ∈ locked w2)); unfold same_store; cbn; split; congruence.
Qed.

(** The favorites actions see only the files and the unwritable paths:
    from worlds with the same store they give the same list and worlds
    with the same store. *)
Lemma interactive_add_store (fn name : string) (favs : list string) (w1 w2 : world) :
  same_store w1 w2 ->
  fst (interactive_add fn name (favs, w1)) = fst (interactive_add fn name (favs, w2)) /\
  same_store (snd (interactive_add fn name (favs, w1))) (snd (interactive_add fn name (favs, w2))).
Proof. intros Hs. split; [reflexivity | now apply save_favorites_store]. Qed.

Lemma interactive_remove_store (fn input : string) (favs : list string) (w1 w2 : world) :
  same_store w1 w2 ->
  fst (interactive_remove fn input (favs, w1)) = fst (interactive_remove fn input (favs, w2)) /\
  same_store (snd (interactive_remove fn input (favs, w1))) (snd (interactive_remove fn input (favs, w2))).
Proof.
  intros Hs. unfold interactive_remove.
  destruct (py_int input) as [k|]; [destruct (_ && _)%bool|];
    (split; [reflexivity|]); cbn [snd];
    try (destruct Hs as [Hf Hl]; unfold same_store; cbn; split; congruence).
  pose proof (save_favorites_store (delete (Z.to_nat (k - 1)) favs) fn w1 w2 Hs) as [Hf Hl].
  unfold same_store; cbn; split; congruence.
Qed.

Lemma interactive_export_store (favs : list string) (fmt filename : string) (w1 w2 : world) :
  same_store w1 w2 ->
  same_store (snd (interactive_export favs fmt filename w1)) (snd (interactive_export favs fmt filename w2)).
Proof.
  intros [Hf Hl]. unfold interactive_export. destruct filename as [|c r]; [split; assumption|].
  rewrite Hl. destruct (decide _); unfold same_store; cbn; split; congruence.
Qed.

Lemma fav_step_store (fn : string) (a : fav_action) (favs : list string) (w1 w2 : world) :
  same_store w1 w2 ->
  fst (fav_step fn a (favs, w1)) = fst (fav_step fn a (favs, w2)) /\
  same_store (snd (fav_step fn a (favs, w1))) (snd (fav_step fn a (favs, w2))).
Proof.
  intros Hs. destruct a as [name | input | choice filename]; cbn [fav_step fst snd].
  - now apply interactive_add_store.
  - apply interactive_remove_store. destruct Hs as [Hf Hl].
    destruct (show_favorites_world favs w1), (show_favorites_world favs w2). split; congruence.
  - split; [reflexivity | now apply interactive_export_store].
Qed.
