(* ===== verification/Shells.v ===== *)
(** * Shells: theme discovery, the CLI's [main] and the web handlers

    The command-line tool and the web service wrap the core in a shell:
    - SpySpeak-cli.py's [main] (253-421) runs one of the favorites
      commands, or resolves the word lists (a theme or two files), loads
      the exclusions, validates [count] and the length bounds, generates,
      renders and writes the result ([cli_main]);
    - SpySpeak-web.py's [/generate] (163-224) and [/api/codenames]
      (227-291) read their parameters, load the word lists (a theme or the
      default files), generate and answer with a page or a JSON document
      ([web_generate], [api_generate]); [/], [/api/themes] and
      [/favicon.ico] are [web_index], [api_themes] and [web_favicon], and
      the service's [__main__] block is [web_main].
    Both discover themes with [get_available_themes] over a listing of the
    [themes] directory and load them with [load_themed_words].  The
    shells run over the [world] of Favorites.v; parsed arguments and
    request parameters are inputs ([argparse] and Flask are not
    modelled), the directory listing is an input too (its order is the
    operating system's).  The web service's log lines go to Flask's
    logger and are not part of the model.  The random state is the one
    of the service's process: a request that ends in an exception keeps
    the draws made before it.

    The theorems: what a CLI run with status 0 or 1 did, the JSON
    pipeline of the CLI, the refinement of the contract by
    [/api/codenames] ([api_generate_refines]), and theme discovery
    (sound and complete for the listing). *)

From Stdlib Require Import String Ascii List ZArith Lia Bool.
From stdpp Require Import base gmap.
From S2P Require Import Prelude PyStr WordLists Random Generator Output Favorites.
Import ListNotations.
Open Scope string_scope.
Open Scope list_scope.
Open Scope spy_scope.

(** ** Files *)

(** [os.path.exists(p)]. *)
Definition path_exists (p : string) (w : world) : bool :=
  match files w !! p with Some _ => true | None => false end.

(** Opening a file for reading: absent, refused, or its contents. *)
Inductive read_result := NotFound | Denied | Contents (content : string).

Definition open_read (p : string) (w : world) : read_result :=
  match files w !! p with
  | None => NotFound
  | Some c => if decide (p ∈ locked w) then Denied else Contents c
  end.

(** [str(e)] of the exceptions [generate_codename] can raise. *)
Definition exc_str (e : py_exc) : string :=
  match e with
  | IndexError => "Cannot choose from an empty sequence"
  | ValueError => "empty separator"
  | SystemExit _ msg => msg
  end.

(** Python's truth value of an optional string argument. *)
Definition truthy (o : option string) : option string :=
  match o with
  | Some (String c r) => Some (String c r)
  | _ => None
  end.

(** ** Loaders of SpySpeak-cli.py and SpySpeak-web.py *)

(** [load_words(filename)] of SpySpeak-cli.py (10-23). *)
Definition cli_load_words (filename : string) (w : world) : list string * world :=
  match open_read filename w with
  | NotFound => ([], err ("Error: Could not find the file '" +++ filename +++ "'" +++ nl) w)
  | Denied => ([], err ("Error reading '" +++ filename +++ "': " +++ oserror filename +++ nl) w)
  | Contents c =>
      let words := stripped_nonblank (file_lines c) in
      (words, if is_nil words
              then err ("Warning: File '" +++ filename +++ "' exists but contains no usable words" +++ nl) w
              else w)
  end.

(** [load_exclusions(filename)] of SpySpeak-cli.py (25-36). *)
Definition cli_load_exclusions (filename : string) (w : world) : list string * world :=
  if negb (path_exists filename w) then ([], w) else
  match open_read filename w with
  | Contents c => (map py_lower (stripped_nonblank (file_lines c)), w)
  | _ => ([], err ("Error reading exclusions from '" +++ filename +++ "': " +++ oserror filename +++ nl) w)
  end.

(** [load_words] and [load_exclusions] of SpySpeak-web.py (14-38). *)
Definition web_load_words (filename : string) (w : world) : list string :=
  match open_read filename w with
  | Contents c => stripped_nonblank (file_lines c)
  | _ => []
  end.

Definition web_load_exclusions (filename : string) (w : world) : list string :=
  if negb (path_exists filename w) then [] else
  match open_read filename w with
  | Contents c => map py_lower (stripped_nonblank (file_lines c))
  | _ => []
  end.

(** ** Themes *)

Definition theme_file (theme suffix : string) : string := path_join "themes" (theme +++ suffix).

(** [get_available_themes()] (SpySpeak-cli.py 186-199, the same in
    SpySpeak.py and SpySpeak-web.py): [listing] is [os.listdir("themes")],
    [None] when the directory does not exist. *)
(** The body of its loop over the listing. *)
Definition theme_step (w : world) (themes : list string) (item : string) : list string :=
  if ends_with "_adj.txt" item then
    let theme_name := py_replace item "_adj.txt" "" in
    if path_exists (theme_file theme_name "_nouns.txt") w
    then themes ++ [theme_name] else themes
  else themes.

Definition get_available_themes (listing : option (list string)) (w : world) : list string :=
  match listing with
  | None => []
  | Some items => fold_left (theme_step w) items []
  end.

(** [load_themed_words(theme)] of SpySpeak-cli.py (201-214). *)
Definition cli_load_themed_words (theme : string) (w : world) : (list string * list string) * world :=
  let adj_file := theme_file theme "_adj.txt" in
  let noun_file := theme_file theme "_nouns.txt" in
  if (negb (path_exists adj_file w) || negb (path_exists noun_file w))%bool
  then (([], []), err ("Theme '" +++ theme +++ "' not found. Make sure both " +++ adj_file +++
                       " and " +++ noun_file +++ " exist." +++ nl) w)
  else let (adjectives, w) := cli_load_words adj_file w in
       let (nouns, w) := cli_load_words noun_file w in
       ((adjectives, nouns), w).

(** [load_themed_words(theme)] of SpySpeak-web.py (47-60). *)
Definition web_load_themed_words (theme : string) (w : world) : list string * list string :=
  let adj_file := theme_file theme "_adj.txt" in
  let noun_file := theme_file theme "_nouns.txt" in
  if (negb (path_exists adj_file w) || negb (path_exists noun_file w))%bool
  then ([], [])
  else (web_load_words adj_file w, web_load_words noun_file w).

(** ** The command-line tool's [main] (SpySpeak-cli.py 253-421) *)

(** The parsed arguments ([args] after [parser.parse_args()]); an option
    without a default is [None] when absent. *)
Record cli_args := mk_cli_args {
  arg_adjectives : string;
  arg_nouns : string;
  arg_count : Z;
  arg_separator : string;
  arg_verbose : bool;
  arg_format : string;
  arg_output : option string;
  arg_theme : option string;
  arg_list_themes : bool;
  arg_exclusions : string;
  arg_pattern : string;
  arg_case : string;
  arg_min_length : Z;
  arg_max_length : Z;
  arg_favorites : string;
  arg_list_favorites : bool;
  arg_add_favorite : option string;
  arg_export_favorites : option string
}.

(** The defaults of the parser (SpySpeak-cli.py 258-291). *)
Definition default_args : cli_args :=
  mk_cli_args "adjectives.txt" "nouns.txt" 1 " " false "text" None None false
              "exclusions.txt" "adj-noun" "title" 0 0 "favorites.txt" false None None.

Definition verbose_err (args : cli_args) (text : string) (w : world) : world :=
  if arg_verbose args then err text w else w.

(** The word lists of [main] (331-357): [inr w] is [sys.exit(1)]. *)
Definition cli_words (script_dir : string) (args : cli_args) (w : world) :
    (list string * list string * world) + world :=
  match truthy (arg_theme args) with
  | Some theme =>
      let w := verbose_err args ("Loading theme '" +++ theme +++ "'..." +++ nl) w in
      let '((adjectives, nouns), w) := cli_load_themed_words theme w in
      if (is_nil adjectives || is_nil nouns)%bool then inr w else inl (adjectives, nouns, w)
  | None =>
      let adj_path := if path_isabs (arg_adjectives args) then arg_adjectives args
                      else path_join script_dir (arg_adjectives args) in
      let noun_path := if path_isabs (arg_nouns args) then arg_nouns args
                       else path_join script_dir (arg_nouns args) in
      let w := verbose_err args ("Loading nouns from: " +++ noun_path +++ nl)
                 (verbose_err args ("Loading adjectives from: " +++ adj_path +++ nl) w) in
      if negb (path_exists adj_path w)
      then inr (err ("Error: Adjectives file '" +++ adj_path +++ "' not found." +++ nl) w)
      else if negb (path_exists noun_path w)
      then inr (err ("Error: Nouns file '" +++ noun_path +++ "' not found." +++ nl) w)
      else let (adjectives, w) := cli_load_words adj_path w in
           let (nouns, w) := cli_load_words noun_path w in
           inl (adjectives, nouns, w)
  end.

(** [os.makedirs("themes", exist_ok=True)] when the directory is missing
    (296-299): it then exists and is empty. *)
Definition make_themes_dir (args : cli_args) (listing : option (list string)) (w : world) :
    option (list string) * world :=
  match listing with
  | None => (Some [], verbose_err args ("Creating themes directory..." +++ nl) w)
  | Some items => (Some items, w)
  end.

(** The exclusions of [main] (359-364). *)
Definition cli_exclusions (args : cli_args) (w : world) : list string * world :=
  if path_exists (arg_exclusions args) w then
    let (e, w) := cli_load_exclusions (arg_exclusions args) w in
    (e, if negb (is_nil e) then verbose_err args ("Loaded " +++ py_str_nat (length e) +++ " exclusions" +++ nl) w else w)
  else ([], w).

Section CliMain.
Context {S : Type} `{UniformSource S}.

(** Generation, rendering and output (359-419), after the word lists:
    the exit status, the random state and the world. *)
Definition cli_generate (args : cli_args) (adjectives nouns : list string) (s : S) (w : world) :
    Z * S * world :=
  let '(exclusions, w) := cli_exclusions args w in
  if is_nil adjectives then (1%Z, s, err ("Error: No adjectives loaded. Please check your adjectives file." +++ nl) w)
  else if is_nil nouns then (1%Z, s, err ("Error: No nouns loaded. Please check your nouns file." +++ nl) w)
  else
  let w := verbose_err args ("Loaded " +++ py_str_nat (length adjectives) +++ " adjectives and " +++
                             py_str_nat (length nouns) +++ " nouns" +++ nl) w in
  if (arg_count args <? 1)%Z then (1%Z, s, err ("Error: Count must be at least 1" +++ nl) w)
  else if ((0 <? arg_min_length args) && (0 <? arg_max_length args) &&
           (arg_max_length args <? arg_min_length args))%Z%bool
  then (1%Z, s, err ("Error: Minimum length cannot be greater than maximum length" +++ nl) w)
  else
  match Cli.generate_codename adjectives nouns (arg_count args) (arg_separator args) exclusions
          (arg_pattern args) (arg_case args) (arg_min_length args) (arg_max_length args) s with
  | inl (SystemExit code msg, s') => (code, s', err msg w)
  | inl (e, s') => (1%Z, s', err ("Error generating codenames: " +++ exc_str e +++ nl) w)
  | inr (codenames, s') =>
      let output := format_output codenames (arg_format args) in
      match truthy (arg_output args) with
      | Some out =>
          if decide (out ∈ locked w)
          then (1%Z, s', err ("Error writing to output file: " +++ oserror out +++ nl) w)
          else (0%Z, s', verbose_err args ("Output written to " +++ out +++ nl) (set_file out output w))
      | None => (0%Z, s', write_out output w)
      end
  end.

(** [main()]: [listing] is [os.listdir("themes")], [None] when the
    directory is missing. *)
Definition cli_main (script_dir : string) (listing : option (list string)) (args : cli_args)
    (s : S) (w : world) : Z * S * world :=
  let '(listing, w) := make_themes_dir args listing w in
  if arg_list_themes args then
    let themes := get_available_themes listing w in
    (0%Z, s, match themes with
             | [] => err ("No themes available. Create theme files in the themes/ directory." +++ nl) w
             | _ => fold_left (fun w t => err ("- " +++ t +++ nl) w) themes (err ("Available themes:" +++ nl) w)
             end)
  else if arg_list_favorites args then (0%Z, s, list_favorites (arg_favorites args) w)
  else match truthy (arg_add_favorite args) with
  | Some name => (0%Z, s, add_favorite name (arg_favorites args) w)
  | None =>
  match truthy (arg_export_favorites args) with
  | Some out => (0%Z, s, cli_export_favorites (arg_favorites args) out (arg_format args) w)
  | None =>
  match cli_words script_dir args w with
  | inr w => (1%Z, s, w)
  | inl (adjectives, nouns, w) => cli_generate args adjectives nouns s w
  end
  end
  end.

End CliMain.

(** ** The web handlers (SpySpeak-web.py 162-291) *)

(** Request parameters ([request.form] or [request.args]): the first
    value of a key wins. *)
Definition params := list (string * string).

Definition param_get (ps : params) (key default : string) : string :=
  match find (fun kv => String.eqb (fst kv) key) ps with
  | Some (_, v) => v
  | None => default
  end.

(** [int(ps.get(key, default))]: the [ValueError] message on failure. *)
Definition param_int (ps : params) (key : string) (default : Z) : string + Z :=
  match find (fun kv => String.eqb (fst kv) key) ps with
  | Some (_, v) =>
      match py_int v with
      | Some k => inr k
      | None => inl ("invalid literal for int() with base 10: '" +++ v +++ "'")
      end
  | None => inr default
  end.

(** The settings a successful request echoes back. *)
Record web_settings := mk_web_settings {
  ws_count : Z;
  ws_theme : string;
  ws_pattern : string;
  ws_case : string;
  ws_separator : string;
  ws_min_length : Z;
  ws_max_length : Z
}.

(** The word lists of a request (180-189): the theme's files, or the
    default files beside the script. *)
Definition web_words (script_dir theme : string) (w : world) : list string * list string :=
  if negb (String.eqb theme "default") then web_load_themed_words theme w
  else (web_load_words (path_join script_dir "adjectives.txt") w,
        web_load_words (path_join script_dir "nouns.txt") w).

(** The exclusions of a request (191-193). *)
Definition web_exclusions (script_dir : string) (w : world) : list string :=
  let exclusions_file := path_join script_dir "exclusions.txt" in
  if path_exists exclusions_file w then web_load_exclusions exclusions_file w else [].

Section WebHandlers.
Context {S : Type} `{UniformSource S}.

(** The body shared by both handlers (165-208 and 229-272): [inl msg] is
    an exception with [str(e) = msg], [inr (inl msg)] the error dict of
    [generate_codename], [inr (inr (codenames, settings))] a result. *)
Definition web_request (script_dir : string) (ps : params) (s : S) (w : world) :
    (string + (string + (list string * web_settings))) * S :=
  match param_int ps "count" 1 with
  | inl msg => (inl msg, s)
  | inr count =>
  let theme := param_get ps "theme" "default" in
  let pattern := param_get ps "pattern" "adj-noun" in
  let case_style := param_get ps "case" "title" in
  let separator := param_get ps "separator" " " in
  match param_int ps "min_length" 0 with
  | inl msg => (inl msg, s)
  | inr min_length =>
  match param_int ps "max_length" 0 with
  | inl msg => (inl msg, s)
  | inr max_length =>
  let '(adjectives, nouns) := web_words script_dir theme w in
  let exclusions := web_exclusions script_dir w in
  match Web.generate_codename adjectives nouns count separator exclusions pattern case_style
          min_length max_length s with
  | inl (e, s') => (inl (exc_str e), s')
  | inr (inl msg, s') => (inr (inl msg), s')
  | inr (inr codenames, s') =>
      (inr (inr (codenames, mk_web_settings count theme pattern case_style separator min_length max_length)), s')
  end
  end
  end
  end.

(** The page [/generate] renders: [index.html] with an error or with the
    codenames and the settings, and the themes. *)
Inductive page :=
  | ErrorPage (error : string) (themes : list string)
  | ResultPage (codenames : list string) (settings : web_settings) (themes : list string).

(** [generate()] (SpySpeak-web.py 162-224). *)
Definition web_generate (script_dir : string) (listing : option (list string)) (ps : params)
    (s : S) (w : world) : page * S :=
  let '(r, s) := web_request script_dir ps s w in
  let themes := get_available_themes listing w in
  match r with
  | inl msg => (ErrorPage ("Error generating codenames: " +++ msg) themes, s)
  | inr (inl msg) => (ErrorPage msg themes, s)
  | inr (inr (codenames, settings)) => (ResultPage codenames settings themes, s)
  end.

(** The JSON document [/api/codenames] answers, with its HTTP status. *)
Inductive api_body :=
  | ApiError (error : string)
  | ApiOk (codenames : list string) (settings : web_settings).

(** [api_generate()] (SpySpeak-web.py 226-291). *)
Definition api_generate (script_dir : string) (ps : params) (s : S) (w : world) :
    (Z * api_body) * S :=
  let '(r, s) := web_request script_dir ps s w in
  match r with
  | inl msg => ((400%Z, ApiError msg), s)
  | inr (inl msg) => ((400%Z, ApiError msg), s)
  | inr (inr (codenames, settings)) => ((200%Z, ApiOk codenames settings), s)
  end.

End WebHandlers.

(** [api_themes()] (SpySpeak-web.py 293-300): [{"success": true, "themes": ...}]. *)
Definition api_themes (listing : option (list string)) (w : world) : list string :=
  get_available_themes listing w.

(** [index()] (SpySpeak-web.py 156-160): [index.html] is rendered with
    the available themes; the template itself is outside the model. *)
Definition web_index (listing : option (list string)) (w : world) : list string :=
  get_available_themes listing w.

(** What [send_from_directory] answers. *)
Inductive file_response := Served (content : string) | NotFound404 | ServerError500.

(** [favicon()] (302-305): [static/favicon.ico] under [app.root_path];
    a missing file is a 404, an unreadable one a 500. *)
Definition web_favicon (root_path : string) (w : world) : file_response :=
  match open_read (path_join (path_join root_path "static") "favicon.ico") w with
  | Contents c => Served c
  | NotFound => NotFound404
  | Denied => ServerError500
  end.

(** [create_required_directories()] (308-312), relative to the working
    directory: [os.makedirs(d, exist_ok=True)] for each [d] in turn,
    which raises [FileExistsError] when a regular file has that name.
    [None] when all exist afterwards, [Some d] for the first failure. *)
Definition create_required_directories (w : world) : option string :=
  find (fun d => path_exists d w) ["themes"; "static"; "templates"].

(** The arguments of [app.run]. *)
Record run_config := mk_run_config { rc_host : string; rc_port : Z; rc_debug : bool }.

(** The [__main__] block (314-317): [env] is [os.environ]; [inl msg]
    is the uncaught exception that stops the program before the server
    runs. *)
Definition web_main (env : params) (w : world) : string + run_config :=
  match create_required_directories w with
  | Some d => inl ("[Errno 17] File exists: '" +++ d +++ "'")
  | None =>
      match param_int env "PORT" 5000 with
      | inl msg => inl msg
      | inr port => inr (mk_run_config "0.0.0.0" port true)
      end
  end.

(** The world changed only on standard error. *)
Definition stderr_only (w w' : world) : Prop :=
  files w' = files w /\ locked w' = locked w /\ stdout w' = stdout w.

(** [count < 1], or both bounds active and crossed: the configurations
    [main] rejects (spec 7: [InvalidConfiguration]). *)
Definition invalid_config (args : cli_args) : Prop :=
  (arg_count args < 1)%Z \/
  (0 < arg_min_length args /\ 0 < arg_max_length args /\ arg_max_length args < arg_min_length args)%Z.

(** The generation parameters a request to [/api/codenames] asks for:
    its integer parameters parse, the others are read with their
    defaults (SpySpeak-web.py 239-246). *)
Definition request_config (ps : params) (cfg : Spec.config) : Prop :=
  param_int ps "count" 1 = inr (Spec.count cfg) /\
  param_int ps "min_length" 0 = inr (Spec.min_length cfg) /\
  param_int ps "max_length" 0 = inr (Spec.max_length cfg) /\
  Spec.pattern cfg = param_get ps "pattern" "adj-noun" /\
  Spec.case_style cfg = param_get ps "case" "title" /\
  Spec.separator cfg = param_get ps "separator" " ".

(** Worlds and arguments for the witnesses: a theme directory, and two
    word files beside the script. *)
Definition theme_world : world :=
  set_file "themes/x_adj.txt_adj.txt" ("Brave" +++ nl)
    (set_file "themes/x_nouns.txt" ("Tiger" +++ nl) empty_world).

Definition cli_world : world :=
  set_file "/app/adjectives.txt" ("Brave" +++ nl +++ "Silent" +++ nl)
    (set_file "/app/nouns.txt" ("Tiger" +++ nl) empty_world).

Definition json_args : cli_args :=
  mk_cli_args "adjectives.txt" "nouns.txt" 2 "-" false "json" None None false
              "exclusions.txt" "adj-noun" "upper" 0 0 "favorites.txt" false None None.

Definition cli_run : Z * list nat * world :=
  cli_main "/app" (Some []) json_args [1; 0; 0; 0] cli_world.

Definition zero_args : cli_args :=
  mk_cli_args "adjectives.txt" "nouns.txt" 0 " " true "text" None None false
              "exclusions.txt" "adj-noun" "title" 0 0 "favorites.txt" false None None.

Definition zero_run : Z * list nat * world :=
  cli_main "/app" None zero_args [5] cli_world.

(** ** Exceptions of the generator *)

Section NoExit.
Context {S : Type} `{UniformSource S}.

Lemma str_split_not_exit (sep raw : string) : raises_only not_exit (@str_split S sep raw).
Proof. unfold str_split. destruct sep; [apply raises_only_raise; exact I | apply raises_only_ret]. Qed.

Lemma choice_not_exit (seq : list string) : raises_only not_exit (@choice S _ string "" seq).
Proof. eapply raises_only_mono; [apply choice_raises | intros e ->; exact I]. Qed.

Lemma randint_not_exit (a b : Z) : raises_only not_exit (@randint S _ a b).
Proof. eapply raises_only_mono; [apply randint_raises | intros e ->; exact I]. Qed.

Ltac not_exit_tac :=
  repeat first
    [ apply raises_only_ret | apply str_split_not_exit | apply choice_not_exit
    | apply randint_not_exit
    | apply raises_only_bind; [| intros ?]
    | match goal with |- raises_only _ (if ?b then _ else _) => destruct b end ].

(** The loop body never calls [sys.exit]. *)
Lemma codename_step_not_exit (pattern cs sep : string) (adjectives nouns : list string) :
  raises_only not_exit (@codename_step S _ pattern cs sep adjectives nouns).
Proof. unfold codename_step, raw_name, format_case. not_exit_tac. Qed.

(** The CLI's [generate_codename] exits with status 1 only. *)
Lemma cli_generate_codename_exit (adjectives nouns exclusions : list string) (count mn mx : Z)
      (sep pattern cs : string) (s s' : S) (code : Z) (msg : string) :
  Cli.generate_codename adjectives nouns count sep exclusions pattern cs mn mx s =
    inl (SystemExit code msg, s') -> code = 1%Z.
Proof.
  unfold Cli.generate_codename.
  repeat match goal with |- context [if is_nil ?l then _ else _] => destruct (is_nil l) end;
    try (intros [= <- _ _]; reflexivity).
  intros E. exact (False_ind _ (repeat_m_raises not_exit _ _ (codename_step_not_exit _ _ _ _ _) s _ _ E)).
Qed.

End NoExit.

(** ** What the shells leave unchanged *)

#[export] Instance stderr_only_preorder : PreOrder stderr_only.
Proof.
  split; [intros w; repeat split|].
  intros a b c [Hf1 [Hl1 Ho1]] [Hf2 [Hl2 Ho2]]. repeat split; congruence.
Qed.

Lemma err_stderr_only (text : string) (w : world) : stderr_only w (err text w).
Proof. repeat split. Qed.

Lemma verbose_err_stderr_only (args : cli_args) (text : string) (w : world) :
  stderr_only w (verbose_err args text w).
Proof. unfold verbose_err. destruct (arg_verbose args); [apply err_stderr_only | reflexivity]. Qed.

#[export] Hint Resolve err_stderr_only verbose_err_stderr_only : spy.

(** Close a goal [stderr_only w w'] built from [err], [verbose_err] and
    the loaders, by transitivity along the chain. *)
Ltac stderr_chain :=
  repeat match goal with
  | |- stderr_only ?w ?w => reflexivity
  | |- stderr_only ?w (err _ ?w') => transitivity w'; [|apply err_stderr_only]
  | |- stderr_only ?w (verbose_err _ _ ?w') => transitivity w'; [|apply verbose_err_stderr_only]
  end.

Lemma cli_load_words_stderr_only (filename : string) (w : world) :
  stderr_only w (snd (cli_load_words filename w)).
Proof.
  unfold cli_load_words. destruct (open_read filename w); cbn [snd]; stderr_chain.
  destruct (is_nil _); stderr_chain.
Qed.

Lemma cli_load_exclusions_stderr_only (filename : string) (w : world) :
  stderr_only w (snd (cli_load_exclusions filename w)).
Proof.
  unfold cli_load_exclusions. destruct (negb _); [reflexivity|].
  destruct (open_read filename w); cbn [snd]; stderr_chain.
Qed.

Lemma cli_load_themed_words_stderr_only (theme : string) (w : world) :
  stderr_only w (snd (cli_load_themed_words theme w)).
Proof.
  unfold cli_load_themed_words. destruct (_ || _)%bool; cbn [snd]; [stderr_chain|].
  pose proof (cli_load_words_stderr_only (theme_file theme "_adj.txt") w) as H1.
  destruct (cli_load_words (theme_file theme "_adj.txt") w) as [a w1].
  pose proof (cli_load_words_stderr_only (theme_file theme "_nouns.txt") w1) as H2.
  destruct (cli_load_words (theme_file theme "_nouns.txt") w1) as [n w2].
  cbn [snd] in *. etransitivity; eassumption.
Qed.

Lemma cli_exclusions_stderr_only (args : cli_args) (w : world) :
  stderr_only w (snd (cli_exclusions args w)).
Proof.
  unfold cli_exclusions. destruct (path_exists _ w); [|reflexivity].
  pose proof (cli_load_exclusions_stderr_only (arg_exclusions args) w) as H1.
  destruct (cli_load_exclusions (arg_exclusions args) w) as [e w1]. cbn [snd] in *.
  destruct (negb _); [|exact H1]. etransitivity; [exact H1 | apply verbose_err_stderr_only].
Qed.

Lemma cli_words_stderr_only (script_dir : string) (args : cli_args) (w : world) :
  match cli_words script_dir args w with
  | inl (_, _, w') => stderr_only w w'
  | inr w' => stderr_only w w'
  end.
Proof.
  unfold cli_words. destruct (truthy (arg_theme args)) as [theme|].
  - set (w0 := verbose_err _ _ w).
    pose proof (cli_load_themed_words_stderr_only theme w0) as H1.
    destruct (cli_load_themed_words theme w0) as [[a n] w1]. cbn [snd] in H1.
    assert (stderr_only w w1) by (etransitivity; [apply verbose_err_stderr_only | exact H1]).
    destruct (_ || _)%bool; assumption.
  - set (w0 := verbose_err _ _ (verbose_err _ _ w)).
    assert (H0 : stderr_only w w0) by (unfold w0; stderr_chain).
    destruct (negb (path_exists _ w0)); [etransitivity; [exact H0 | apply err_stderr_only]|].
    destruct (negb (path_exists _ w0)); [etransitivity; [exact H0 | apply err_stderr_only]|].
    pose proof (cli_load_words_stderr_only (if path_isabs (arg_adjectives args) then arg_adjectives args
                  else path_join script_dir (arg_adjectives args)) w0) as H1.
    destruct (cli_load_words _ w0) as [a w1].
    pose proof (cli_load_words_stderr_only (if path_isabs (arg_nouns args) then arg_nouns args
                  else path_join script_dir (arg_nouns args)) w1) as H2.
    destruct (cli_load_words _ w1) as [n w2]. cbn [snd] in *.
    etransitivity; [exact H0|]. etransitivity; eassumption.
Qed.

(** ** The CLI's [main] *)

Section CliProofs.
Context {S : Type} `{UniformSource S}.

(** An exit with status 1 that only wrote to standard error. *)
Ltac exit1 :=
  intros [= <- <- <-]; split; [reflexivity | split; [reflexivity | stderr_chain]].

(** A rejected configuration exits with status 1 before drawing. *)
Lemma cli_generate_invalid (args : cli_args) (adjectives nouns : list string) (s s' : S)
      (w w' : world) (code : Z) :
  invalid_config args -> cli_generate args adjectives nouns s w = (code, s', w') ->
  code = 1%Z /\ s' = s /\ stderr_only w w'.
Proof.
  intros Hinv. unfold cli_generate.
  pose proof (cli_exclusions_stderr_only args w) as H0.
  destruct (cli_exclusions args w) as [exclusions w1]. cbn [snd] in H0.
  destruct (is_nil adjectives); [exit1; exact H0|].
  destruct (is_nil nouns); [exit1; exact H0|].
  destruct (arg_count args <? 1)%Z eqn:Ec; [exit1; exact H0|].
  destruct ((0 <? arg_min_length args) && (0 <? arg_max_length args) &&
            (arg_max_length args <? arg_min_length args))%Z%bool eqn:Em; [exit1; exact H0|].
  exfalso. unfold invalid_config in Hinv. py_bool. lia.
Qed.

(** Status 0 after the word lists: the configuration passed the checks,
    [generate_codename] returned, and its rendering went where asked. *)
Lemma cli_generate_exit0 (args : cli_args) (adjectives nouns : list string) (s s' : S)
      (w w' : world) :
  cli_generate args adjectives nouns s w = (0%Z, s', w') ->
  adjectives <> [] /\ nouns <> [] /\ ~ invalid_config args /\
  exists exclusions codenames,
    Cli.generate_codename adjectives nouns (arg_count args) (arg_separator args) exclusions
      (arg_pattern args) (arg_case args) (arg_min_length args) (arg_max_length args) s =
      inr (codenames, s') /\
    match truthy (arg_output args) with
    | Some out => files w' !! out = Some (format_output codenames (arg_format args))
    | None => last (stdout w') = Some (format_output codenames (arg_format args))
    end.
Proof.
  unfold cli_generate. destruct (cli_exclusions args w) as [exclusions w1].
  destruct (is_nil adjectives) eqn:Ea; [discriminate|].
  destruct (is_nil nouns) eqn:En; [discriminate|].
  destruct (arg_count args <? 1)%Z eqn:Ec; [discriminate|].
  destruct ((0 <? arg_min_length args) && (0 <? arg_max_length args) &&
            (arg_max_length args <? arg_min_length args))%Z%bool eqn:Em; [discriminate|].
  assert (Hval : ~ invalid_config args) by (unfold invalid_config; py_bool; lia).
  destruct (Cli.generate_codename _ _ _ _ _ _ _ _ _ s) as [[e se]|[codenames s0]] eqn:Eg.
  - destruct e as [| |code msg]; [discriminate | discriminate |].
    intros [= Hc _ _]. apply cli_generate_codename_exit in Eg. lia.
  - intros E. split; [now apply is_nil_false|]. split; [now apply is_nil_false|].
    split; [exact Hval|]. exists exclusions, codenames.
    destruct (truthy (arg_output args)) as [out|].
    + destruct (decide _); [discriminate|]. injection E as <- <-. split; [exact Eg|].
      unfold verbose_err. destruct (arg_verbose args); cbn [err set_file files];
        apply lookup_insert_eq.
    + injection E as <- <-. split; [exact Eg|]. apply last_snoc.
Qed.

(** What a run of the command-line tool that generates and exits with
    status 0 did. *)
Lemma cli_main_exit0_facts (script_dir : string) (listing : option (list string)) (args : cli_args)
        (s s' : S) (w w' : world) :
  arg_list_themes args = false -> arg_list_favorites args = false ->
  truthy (arg_add_favorite args) = None -> truthy (arg_export_favorites args) = None ->
  cli_main script_dir listing args s w = (0%Z, s', w') ->
  (1 <= arg_count args)%Z /\
  ~ (0 < arg_min_length args /\ 0 < arg_max_length args /\ arg_max_length args < arg_min_length args)%Z /\
  exists adjectives nouns w1 exclusions codenames,
    cli_words script_dir args (snd (make_themes_dir args listing w)) = inl (adjectives, nouns, w1) /\
    adjectives <> [] /\ nouns <> [] /\
    Cli.generate_codename adjectives nouns (arg_count args) (arg_separator args) exclusions
      (arg_pattern args) (arg_case args) (arg_min_length args) (arg_max_length args) s =
      inr (codenames, s') /\
    length codenames = Z.to_nat (arg_count args) /\
    match truthy (arg_output args) with
    | Some out => files w' !! out = Some (format_output codenames (arg_format args))
    | None => last (stdout w') = Some (format_output codenames (arg_format args))
    end.
Proof.
  intros Ht Hf Ha He. unfold cli_main.
  destruct (make_themes_dir args listing w) as [listing' w0]. cbn [snd].
  rewrite Ht, Hf, Ha, He.
  destruct (cli_words script_dir args w0) as [[[adjectives nouns] w1]|w1]; [|discriminate].
  intros E. destruct (cli_generate_exit0 args adjectives nouns s s' w1 w' E)
    as [HA [HN [Hval [exclusions [codenames [Eg Hout]]]]]].
  split; [unfold invalid_config in Hval; lia|]. split; [unfold invalid_config in Hval; tauto|].
  exists adjectives, nouns, w1, exclusions, codenames.
  repeat split; try assumption.
  revert Eg. unfold Cli.generate_codename.
  repeat match goal with |- context [if is_nil ?l then _ else _] => destruct (is_nil l) end;
    try discriminate.
  apply repeat_m_length.
Qed.

(** C29 (safety). When the command-line tool generates (no favorites or
    themes command) and exits with status 0, the count was at least 1,
    the length bounds were consistent, the word lists it loaded were
    non-empty, [generate_codename] returned [count] codenames from them,
    and their rendering in the requested format is the last write to
    standard output or the contents of the [--output] file. *)
Theorem cli_main_success (script_dir : string) (listing : option (list string)) (args : cli_args)
        (s s' : S) (w w' : world) :
  arg_list_themes args = false -> arg_list_favorites args = false ->
  truthy (arg_add_favorite args) = None -> truthy (arg_export_favorites args) = None ->
  cli_main script_dir listing args s w = (0%Z, s', w') ->
  (1 <= arg_count args)%Z /\
  ~ (0 < arg_min_length args /\ 0 < arg_max_length args /\ arg_max_length args < arg_min_length args)%Z /\
  exists adjectives nouns w1 exclusions codenames,
    cli_words script_dir args (snd (make_themes_dir args listing w)) = inl (adjectives, nouns, w1) /\
    adjectives <> [] /\ nouns <> [] /\
    Cli.generate_codename adjectives nouns (arg_count args) (arg_separator args) exclusions
      (arg_pattern args) (arg_case args) (arg_min_length args) (arg_max_length args) s =
      inr (codenames, s') /\
    length codenames = Z.to_nat (arg_count args) /\
    match truthy (arg_output args) with
    | Some out => files w' !! out = Some (format_output codenames (arg_format args))
    | None => last (stdout w') = Some (format_output codenames (arg_format args))
    end.
Proof. apply cli_main_exit0_facts. Qed.

(** C10 (roundtrip). The command-line pipeline end to end: when the tool
    is asked for [--format json] on standard output and exits with
    status 0, its last write to standard output parses as JSON to
    exactly the codenames [generate_codename] returned for the loaded
    word lists, [count] of them, in order (spec 8: parsing the JSON
    output yields the generated list). *)
Theorem cli_json_pipeline (script_dir : string) (listing : option (list string)) (args : cli_args)
        (s s' : S) (w w' : world) :
  arg_list_themes args = false -> arg_list_favorites args = false ->
  truthy (arg_add_favorite args) = None -> truthy (arg_export_favorites args) = None ->
  arg_format args = "json" -> truthy (arg_output args) = None ->
  cli_main script_dir listing args s w = (0%Z, s', w') ->
  exists out codenames adjectives nouns exclusions,
    last (stdout w') = Some out /\ read_codenames_json out = Some codenames /\
    length codenames = Z.to_nat (arg_count args) /\
    Cli.generate_codename adjectives nouns (arg_count args) (arg_separator args) exclusions
      (arg_pattern args) (arg_case args) (arg_min_length args) (arg_max_length args) s =
      inr (codenames, s').
Proof.
  intros Ht Hf Ha He Hj Ho E.
  destruct (cli_main_exit0_facts script_dir listing args s s' w w' Ht Hf Ha He E)
    as [_ [_ [adjectives [nouns [w1 [exclusions [codenames [_ [_ [_ [Eg [Hl Hout]]]]]]]]]]]].
  rewrite Ho, Hj in Hout.
  exists (format_output codenames "json"), codenames, adjectives, nouns, exclusions.
  repeat split; try assumption. apply read_json_dumps.
Qed.

(** C30 (error). The command-line tool rejects [count < 1] and crossed
    length bounds (spec 7: [InvalidConfiguration]): whatever the files
    hold, it exits with status 1 without drawing a random number and
    without writing to standard output or to any file. *)
Theorem cli_main_rejects_invalid (script_dir : string) (listing : option (list string))
        (args : cli_args) (s s' : S) (w w' : world) (code : Z) :
  arg_list_themes args = false -> arg_list_favorites args = false ->
  truthy (arg_add_favorite args) = None -> truthy (arg_export_favorites args) = None ->
  invalid_config args ->
  cli_main script_dir listing args s w = (code, s', w') ->
  code = 1%Z /\ s' = s /\ files w' = files w /\ stdout w' = stdout w.
Proof.
  intros Ht Hf Ha He Hinv. unfold cli_main.
  assert (H0 : stderr_only w (snd (make_themes_dir args listing w)))
    by (unfold make_themes_dir; destruct listing; [reflexivity | apply verbose_err_stderr_only]).
  destruct (make_themes_dir args listing w) as [listing' w0]. cbn [snd] in H0.
  rewrite Ht, Hf, Ha, He.
  pose proof (cli_words_stderr_only script_dir args w0) as H1.
  destruct (cli_words script_dir args w0) as [[[adjectives nouns] w1]|w1].
  - intros E. destruct (cli_generate_invalid args adjectives nouns s s' w1 w' code Hinv E)
      as [Hc [Hs H2]].
    assert (Hw : stderr_only w w') by (etransitivity; [exact H0|]; etransitivity; eassumption).
    destruct Hw as [Hfi [_ Hso]]. auto.
  - intros [= <- <- <-]. assert (Hw : stderr_only w w1) by (etransitivity; eassumption).
    destruct Hw as [Hfi [_ Hso]]. auto.
Qed.

End CliProofs.

(** ** The web handlers *)

Section WebProofs.
Context {S : Type} `{UniformSource S}.

(** The web [generate_codename] returns its error dict before drawing. *)
Lemma web_generate_codename_error_state (adjectives nouns exclusions : list string) (count mn mx : Z)
      (sep pattern cs msg : string) (s s' : S) :
  Web.generate_codename adjectives nouns count sep exclusions pattern cs mn mx s = inr (inl msg, s') ->
  s' = s.
Proof.
  unfold Web.generate_codename.
  repeat match goal with |- context [if is_nil ?l then _ else _] => destruct (is_nil l) end;
    try (intros [= _ <-]; reflexivity).
  unfold pbind. destruct (repeat_m _ _ s) as [[e se]|[codenames s0]]; discriminate.
Qed.

(** C31 (refinement). [/api/codenames] implements the contract of spec
    4.6 on the word lists of the requested theme and the exclusions file.
    It answers 200 or 400 only.  A 200 answer echoes the parsed request
    and holds codenames the contract allows.  A 400 answer is a
    parameter that is not an integer (no draw made), the contract's
    failure with its message (no draw made), or the [ValueError] of title
    case with an empty separator. *)
Theorem api_generate_refines (script_dir : string) (ps : params) (s : S) (w : world) :
  let '(adjectives, nouns) := web_words script_dir (param_get ps "theme" "default") w in
  let exclusions := web_exclusions script_dir w in
  match api_generate script_dir ps s w with
  | ((code, ApiOk codenames st), _) =>
      code = 200%Z /\
      exists cfg, request_config ps cfg /\
        st = mk_web_settings (Spec.count cfg) (param_get ps "theme" "default") (Spec.pattern cfg)
               (Spec.case_style cfg) (Spec.separator cfg) (Spec.min_length cfg) (Spec.max_length cfg) /\
        Spec.generate adjectives nouns exclusions cfg (Spec.Generated codenames)
  | ((code, ApiError msg), s') =>
      code = 400%Z /\
      (((exists key d, param_int ps key d = inl msg) /\ s' = s) \/
       exists cfg, request_config ps cfg /\
         ((exists f, web_outcome (inl msg) = Some (Spec.Failed f) /\
                     Spec.generate adjectives nouns exclusions cfg (Spec.Failed f) /\ s' = s) \/
          (msg = "empty separator" /\ Spec.classify_case (Spec.case_style cfg) = Spec.Title /\
           Spec.separator cfg = "")))
  end.
Proof.
  unfold api_generate, web_request.
  destruct (web_words script_dir (param_get ps "theme" "default") w) as [adjectives nouns] eqn:Ew.
  destruct (param_int ps "count" 1) as [msg|count] eqn:Ec; [split; [reflexivity | left; eauto]|].
  destruct (param_int ps "min_length" 0) as [msg|mn] eqn:Emn; [split; [reflexivity | left; eauto]|].
  destruct (param_int ps "max_length" 0) as [msg|mx] eqn:Emx; [split; [reflexivity | left; eauto]|].
  set (cfg := Spec.mk_config (param_get ps "pattern" "adj-noun") (param_get ps "case" "title")
                (param_get ps "separator" " ") mn mx count).
  assert (Hr : request_config ps cfg) by (repeat split; assumption).
  pose proof (web_generate_codename_cases adjectives nouns (web_exclusions script_dir w) cfg s) as Hc.
  change (Spec.count cfg) with count in Hc. change (Spec.separator cfg) with (param_get ps "separator" " ") in Hc.
  change (Spec.pattern cfg) with (param_get ps "pattern" "adj-noun") in Hc.
  change (Spec.case_style cfg) with (param_get ps "case" "title") in Hc.
  change (Spec.min_length cfg) with mn in Hc. change (Spec.max_length cfg) with mx in Hc.
  destruct (Web.generate_codename adjectives nouns _ _ _ _ _ _ _ s)
    as [[e se]|[[msg|codenames] s']] eqn:Eg.
  - destruct Hc as [-> Ht]. split; [reflexivity|]. right. exists cfg. split; [exact Hr|]. right. auto.
  - destruct Hc as [[f|l] [Ho Hg]].
    + split; [reflexivity|]. right. exists cfg. split; [exact Hr|]. left. exists f.
      split; [exact Ho|]. split; [exact Hg|]. exact (web_generate_codename_error_state _ _ _ _ _ _ _ _ _ _ _ _ Eg).
    + exfalso. unfold web_outcome in Ho. repeat destruct (_ || _)%bool; discriminate.
  - destruct Hc as [o [Ho Hg]]. injection Ho as <-. split; [reflexivity|].
    exists cfg. split; [exact Hr | split; [reflexivity | exact Hg]].
Qed.

End WebProofs.

(** ** Theme discovery *)

Lemma get_available_themes_go (w : world) (items acc : list string) (t : string) :
  In t (fold_left (theme_step w) items acc) ->
  In t acc \/
  (path_exists (theme_file t "_nouns.txt") w = true /\
   exists item, In item items /\ ends_with "_adj.txt" item = true /\ py_replace item "_adj.txt" "" = t).
Proof.
  revert acc. induction items as [|item items IH]; intros acc Hin; [now left|].
  cbn [fold_left] in Hin. apply IH in Hin as [Hin | [Hn [it [Hit Hrest]]]].
  - revert Hin. unfold theme_step. cbv zeta. destruct (ends_with "_adj.txt" item) eqn:Ee; [|intros Hin; now left].
    destruct (path_exists (theme_file (py_replace item "_adj.txt" "") "_nouns.txt") w) eqn:Ep;
      [|intros Hin; now left].
    intros Hin. apply in_app_or in Hin as [Hin | [<- | []]]; [now left|].
    right. split; [exact Ep|]. exists item. split; [now left|]. auto.
  - right. split; [exact Hn|]. exists it. split; [now right | exact Hrest].
Qed.

Lemma themes_fold_keeps (w : world) (items acc : list string) (t : string) :
  In t acc -> In t (fold_left (theme_step w) items acc).
Proof.
  revert acc. induction items as [|item items IH]; intros acc Hin; [exact Hin|].
  cbn [fold_left]. apply IH. unfold theme_step.
  destruct (ends_with "_adj.txt" item); [|exact Hin].
  destruct (path_exists _ w); [apply in_or_app; now left | exact Hin].
Qed.

Lemma themes_fold_adds (w : world) (items acc : list string) (item : string) :
  In item items -> ends_with "_adj.txt" item = true ->
  path_exists (theme_file (py_replace item "_adj.txt" "") "_nouns.txt") w = true ->
  In (py_replace item "_adj.txt" "") (fold_left (theme_step w) items acc).
Proof.
  revert acc. induction items as [|i items IH]; intros acc Hin He Hp; [destruct Hin|].
  cbn [fold_left]. destruct Hin as [<- | Hin].
  - apply themes_fold_keeps. unfold theme_step. rewrite He. cbv zeta. rewrite Hp.
    apply in_or_app. right. now left.
  - now apply IH.
Qed.

(** C32 (safety). Every theme [get_available_themes] lists has its noun
    file in [themes/] and comes from an entry of the directory listing
    ending in [_adj.txt] with that suffix removed. *)
Theorem get_available_themes_sound (listing : option (list string)) (w : world) (t : string) :
  In t (get_available_themes listing w) ->
  path_exists (theme_file t "_nouns.txt") w = true /\
  exists items item, listing = Some items /\ In item items /\
    ends_with "_adj.txt" item = true /\ py_replace item "_adj.txt" "" = t.
Proof.
  destruct listing as [items|]; [|intros []].
  intros Hin. apply get_available_themes_go in Hin as [[] | [Hn [item Hitem]]].
  split; [exact Hn|]. exists items, item. split; [reflexivity | exact Hitem].
Qed.

(** C33 (functional). [get_available_themes] lists the theme of every
    entry of the listing that ends in [_adj.txt] and whose noun file
    exists, named by [item.replace("_adj.txt", "")].  Nothing checks that
    [themes/<theme>_adj.txt] exists: the replacement removes every
    occurrence of the suffix, so an entry [x_adj.txt_adj.txt] beside
    [x_nouns.txt] lists [x] (see [listed_theme_example]). *)
Theorem get_available_themes_complete (items : list string) (w : world) (item : string) :
  In item items -> ends_with "_adj.txt" item = true ->
  path_exists (theme_file (py_replace item "_adj.txt" "") "_nouns.txt") w = true ->
  In (py_replace item "_adj.txt" "") (get_available_themes (Some items) w).
Proof. apply themes_fold_adds. Qed.

(** On the entry [x_adj.txt_adj.txt], the theme [x] is listed and loads no
    word in either shell. *)
Example listed_theme_example :
  get_available_themes (Some ["x_adj.txt_adj.txt"; "x_nouns.txt"]) theme_world = ["x"] /\
  web_load_themed_words "x" theme_world = ([], []) /\
  fst (cli_load_themed_words "x" theme_world) = ([], []).
Proof. vm_compute. repeat split. Qed.

(** ** Witnesses *)

Lemma cli_main_success_witness :
  arg_list_themes json_args = false /\ arg_list_favorites json_args = false /\
  truthy (arg_add_favorite json_args) = None /\ truthy (arg_export_favorites json_args) = None /\
  cli_main "/app" (Some []) json_args [1; 0; 0; 0] cli_world = (0%Z, snd (fst cli_run), snd cli_run) /\
  (1 <= arg_count json_args)%Z /\
  ~ (0 < arg_min_length json_args /\ 0 < arg_max_length json_args /\
     arg_max_length json_args < arg_min_length json_args)%Z /\
  exists adjectives nouns w1 exclusions codenames,
    cli_words "/app" json_args (snd (make_themes_dir json_args (Some []) cli_world)) =
      inl (adjectives, nouns, w1) /\
    adjectives <> [] /\ nouns <> [] /\
    Cli.generate_codename adjectives nouns (arg_count json_args) (arg_separator json_args) exclusions
      (arg_pattern json_args) (arg_case json_args) (arg_min_length json_args)
      (arg_max_length json_args) [1; 0; 0; 0] = inr (codenames, snd (fst cli_run)) /\
    length codenames = Z.to_nat (arg_count json_args) /\
    match truthy (arg_output json_args) with
    | Some out => files (snd cli_run) !! out = Some (format_output codenames (arg_format json_args))
    | None => last (stdout (snd cli_run)) = Some (format_output codenames (arg_format json_args))
    end.
Proof.
  assert (E : cli_main "/app" (Some []) json_args [1; 0; 0; 0] cli_world =
              (0%Z, snd (fst cli_run), snd cli_run)) by (vm_compute; reflexivity).
  do 4 (split; [reflexivity|]). split; [exact E|].
  exact (cli_main_success "/app" (Some []) json_args [1; 0; 0; 0] _ cli_world _
           eq_refl eq_refl eq_refl eq_refl E).
Defined.

Lemma cli_main_rejects_invalid_witness :
  arg_list_themes zero_args = false /\ arg_list_favorites zero_args = false /\
  truthy (arg_add_favorite zero_args) = None /\ truthy (arg_export_favorites zero_args) = None /\
  invalid_config zero_args /\
  cli_main "/app" None zero_args [5] cli_world = (fst (fst zero_run), snd (fst zero_run), snd zero_run) /\
  fst (fst zero_run) = 1%Z /\ snd (fst zero_run) = [5] /\
  files (snd zero_run) = files cli_world /\ stdout (snd zero_run) = stdout cli_world.
Proof.
  assert (Hinv : invalid_config zero_args) by (left; cbn; lia).
  assert (E : cli_main "/app" None zero_args [5] cli_world =
              (fst (fst zero_run), snd (fst zero_run), snd zero_run)) by (vm_compute; reflexivity).
  do 4 (split; [reflexivity|]). split; [exact Hinv|]. split; [exact E|].
  exact (cli_main_rejects_invalid "/app" None zero_args [5] _ cli_world _ _
           eq_refl eq_refl eq_refl eq_refl Hinv E).
Defined.

Lemma get_available_themes_sound_witness :
  In "x" (get_available_themes (Some ["x_adj.txt_adj.txt"; "x_nouns.txt"]) theme_world) /\
  path_exists (theme_file "x" "_nouns.txt") theme_world = true /\
  exists items item, Some ["x_adj.txt_adj.txt"; "x_nouns.txt"] = Some items /\ In item items /\
    ends_with "_adj.txt" item = true /\ py_replace item "_adj.txt" "" = "x".
Proof.
  assert (H : In "x" (get_available_themes (Some ["x_adj.txt_adj.txt"; "x_nouns.txt"]) theme_world))
    by (vm_compute; now left).
  split; [exact H|]. exact (get_available_themes_sound _ theme_world "x" H).
Defined.

Lemma cli_json_pipeline_witness :
  arg_format json_args = "json" /\ truthy (arg_output json_args) = None /\
  cli_main "/app" (Some []) json_args [1; 0; 0; 0] cli_world = (0%Z, snd (fst cli_run), snd cli_run) /\
  exists out codenames adjectives nouns exclusions,
    last (stdout (snd cli_run)) = Some out /\ read_codenames_json out = Some codenames /\
    length codenames = Z.to_nat (arg_count json_args) /\
    Cli.generate_codename adjectives nouns (arg_count json_args) (arg_separator json_args) exclusions
      (arg_pattern json_args) (arg_case json_args) (arg_min_length json_args)
      (arg_max_length json_args) [1; 0; 0; 0] = inr (codenames, snd (fst cli_run)).
Proof.
  assert (E : cli_main "/app" (Some []) json_args [1; 0; 0; 0] cli_world =
              (0%Z, snd (fst cli_run), snd cli_run)) by (vm_compute; reflexivity).
  do 2 (split; [reflexivity|]). split; [exact E|].
  exact (cli_json_pipeline "/app" (Some []) json_args [1; 0; 0; 0] _ cli_world _
           eq_refl eq_refl eq_refl eq_refl eq_refl eq_refl E).
Defined.

Lemma get_available_themes_complete_witness :
  In "x_adj.txt_adj.txt" ["x_adj.txt_adj.txt"; "x_nouns.txt"] /\
  ends_with "_adj.txt" "x_adj.txt_adj.txt" = true /\
  path_exists (theme_file (py_replace "x_adj.txt_adj.txt" "_adj.txt" "") "_nouns.txt") theme_world = true /\
  In (py_replace "x_adj.txt_adj.txt" "_adj.txt" "")
     (get_available_themes (Some ["x_adj.txt_adj.txt"; "x_nouns.txt"]) theme_world).
Proof.
  assert (H1 : In "x_adj.txt_adj.txt" ["x_adj.txt_adj.txt"; "x_nouns.txt"]) by (left; reflexivity).
  assert (H2 : ends_with "_adj.txt" "x_adj.txt_adj.txt" = true) by reflexivity.
  assert (H3 : path_exists (theme_file (py_replace "x_adj.txt_adj.txt" "_adj.txt" "") "_nouns.txt")
                 theme_world = true) by (vm_compute; reflexivity).
  split; [exact H1|]. split; [exact H2|]. split; [exact H3|].
  exact (get_available_themes_complete _ _ _ H1 H2 H3).
Defined.
