(* ===== verification/Machine.v ===== *)
(** * Machine: the state and the monad of the interactive program

    The local variables of [main] in SpySpeak.py (286-349) as the record
    [shell]; the [machine] that adds the random source, the [world] of
    Favorites.v and the input lines not yet read; the computations [SM]
    of the shell, which return or halt ([Exit], the [break] of "Exit",
    or [Crash e], an exception the loop does not catch), with [input()]
    ([ask], [EOFError] when no line is left), [print] ([say]) and the
    random draws ([draw]) as primitive steps; and one setter per
    variable.  The handlers that use them are in Session.v. *)

From Stdlib Require Import String Ascii List ZArith Lia Bool.
From stdpp Require Import base gmap.
From S2P Require Import Prelude PyStr WordLists Random Generator Output Favorites Shells.
Import ListNotations.
Open Scope string_scope.
Open Scope list_scope.
Open Scope spy_scope.

(** The local variables of [main] (288-297 and 307-349). *)
Record shell := mk_shell {
  sh_adjectives : list string;
  sh_nouns : list string;
  sh_favorites : list string;
  sh_exclusions : list string;
  sh_theme : option string;
  sh_pattern : string;
  sh_case : string;
  sh_min_length : Z;
  sh_max_length : Z;
  sh_separator : string
}.

(** What stops the loop: the [break] of "Exit", or an exception it does
    not catch. *)
Inductive shell_exc :=
  | Raised (e : py_exc)
  | EOFError
  | OSError (path : string).

Inductive halt := Exit | Crash (e : shell_exc).

Section Machine.
Context {S : Type}.

Record machine := mk_machine {
  m_shell : shell;
  m_rand : S;
  m_world : world;
  m_inputs : list string
}.

(** A computation of the shell: it returns a value, or halts. *)
Definition SM (A : Type) : Type := machine -> (halt * machine) + (A * machine).

Definition sret {A : Type} (a : A) : SM A := fun m => inr (a, m).

Definition sbind {A B : Type} (c : SM A) (k : A -> SM B) : SM B :=
  fun m => match c m with
           | inl h => inl h
           | inr (a, m') => k a m'
           end.

Definition shalt {A : Type} (h : halt) : SM A := fun m => inl (h, m).

(** [try: c except E as e: h(e)] for the exceptions [P] selects. *)
Definition scatch {A : Type} (P : shell_exc -> bool) (c : SM A) (h : shell_exc -> SM A) : SM A :=
  fun m => match c m with
           | inl (Crash e, m') => if P e then h e m' else inl (Crash e, m')
           | r => r
           end.

Definition gets {A : Type} (f : shell -> A) : SM A := fun m => inr (f (m_shell m), m).

Definition modify (f : shell -> shell) : SM unit :=
  fun m => inr (tt, mk_machine (f (m_shell m)) (m_rand m) (m_world m) (m_inputs m)).

Definition on_world (f : world -> world) : SM unit :=
  fun m => inr (tt, mk_machine (m_shell m) (m_rand m) (f (m_world m)) (m_inputs m)).

Definition get_world : SM world := fun m => inr (m_world m, m).

(** [print(line)]. *)
Definition say (line : string) : SM unit := on_world (print line).

Definition say_all (lines : list string) : SM unit :=
  on_world (fun w => fold_left (fun w line => print line w) lines w).

(** [input(prompt)]. *)
Definition ask (prompt : string) : SM string :=
  fun m => match m_inputs m with
           | [] => inl (Crash EOFError, mk_machine (m_shell m) (m_rand m) (write_out prompt (m_world m)) [])
           | line :: rest => inr (line, mk_machine (m_shell m) (m_rand m) (write_out prompt (m_world m)) rest)
           end.

(** A call that draws from the random source; its exception, if any,
    is raised in the shell, with the random state the draws before it
    reached. *)
Definition draw {A : Type} (c : PyM S A) : SM A :=
  fun m => match c (m_rand m) with
           | inl (e, s') => inl (Crash (Raised e), mk_machine (m_shell m) s' (m_world m) (m_inputs m))
           | inr (a, s') => inr (a, mk_machine (m_shell m) s' (m_world m) (m_inputs m))
           end.

End Machine.

Arguments machine : clear implicits.
Arguments SM : clear implicits.

Declare Scope shell_scope.
Delimit Scope shell_scope with shell.
Notation "x <~ c ;; k" := (sbind c (fun x => k))
  (at level 100, c at next level, right associativity) : shell_scope.
Notation "c ~; k" := (sbind c (fun _ => k))
  (at level 100, right associativity) : shell_scope.
Open Scope shell_scope.

(** ** Updating the state *)

Definition set_lists (a n : list string) (st : shell) : shell :=
  mk_shell a n (sh_favorites st) (sh_exclusions st) (sh_theme st) (sh_pattern st)
           (sh_case st) (sh_min_length st) (sh_max_length st) (sh_separator st).

Definition set_favorites (f : list string) (st : shell) : shell :=
  mk_shell (sh_adjectives st) (sh_nouns st) f (sh_exclusions st) (sh_theme st) (sh_pattern st)
           (sh_case st) (sh_min_length st) (sh_max_length st) (sh_separator st).

Definition set_exclusions (e : list string) (st : shell) : shell :=
  mk_shell (sh_adjectives st) (sh_nouns st) (sh_favorites st) e (sh_theme st) (sh_pattern st)
           (sh_case st) (sh_min_length st) (sh_max_length st) (sh_separator st).

Definition set_theme (t : option string) (st : shell) : shell :=
  mk_shell (sh_adjectives st) (sh_nouns st) (sh_favorites st) (sh_exclusions st) t (sh_pattern st)
           (sh_case st) (sh_min_length st) (sh_max_length st) (sh_separator st).

Definition set_pattern (p : string) (st : shell) : shell :=
  mk_shell (sh_adjectives st) (sh_nouns st) (sh_favorites st) (sh_exclusions st) (sh_theme st) p
           (sh_case st) (sh_min_length st) (sh_max_length st) (sh_separator st).

Definition set_case (c : string) (st : shell) : shell :=
  mk_shell (sh_adjectives st) (sh_nouns st) (sh_favorites st) (sh_exclusions st) (sh_theme st)
           (sh_pattern st) c (sh_min_length st) (sh_max_length st) (sh_separator st).

Definition set_bounds (mn mx : Z) (st : shell) : shell :=
  mk_shell (sh_adjectives st) (sh_nouns st) (sh_favorites st) (sh_exclusions st) (sh_theme st)
           (sh_pattern st) (sh_case st) mn mx (sh_separator st).

Definition set_separator (sep : string) (st : shell) : shell :=
  mk_shell (sh_adjectives st) (sh_nouns st) (sh_favorites st) (sh_exclusions st) (sh_theme st)
           (sh_pattern st) (sh_case st) (sh_min_length st) (sh_max_length st) sep.

(** ** Steps on the world and on the favorites *)

Section WorldSteps.
Context {S : Type}.

Definition on_world_ret {A : Type} (f : world -> A * world) : SM S A :=
  fun m => let (a, w) := f (m_world m) in
           inr (a, mk_machine (m_shell m) (m_rand m) w (m_inputs m)).

(** The favorites list and the world as a [session] of Favorites.v. *)
Definition on_session (f : session -> session) : SM S unit :=
  fun m => let (favs, w) := f (sh_favorites (m_shell m), m_world m) in
           inr (tt, mk_machine (set_favorites favs (m_shell m)) (m_rand m) w (m_inputs m)).

End WorldSteps.
