(* ===== verification/SessionLogic.v ===== *)
(** * SessionLogic: reasoning about computations of the shell monad

    Two tools for the computations [SM S A] of Session.v:
    - [stays R c]: whatever [c] ends in (a return or a halt) is related
      to the machine it started from by [R], a preorder.  Instances:
      [fewer_inputs] (no line is read back, used for termination),
      [same_shell] (the variables of [main] are untouched) and
      [only_prints] (the files are untouched and the output only grows).
      One tactic, [stays_tac], follows the program text through binds,
      catches and case splits for all three.
    - [hoare P c Q E]: a Hoare triple on the variables of [main], with a
      postcondition [Q] for a return and [E] for a halt, and its rules
      (one per construct of the monad), used for the invariant of the
      loop. *)

From Stdlib Require Import String Ascii List ZArith Lia Bool RelationClasses.
From stdpp Require Import base gmap.
From S2P Require Import Prelude PyStr WordLists Random Generator Output Favorites Shells Machine.
Import ListNotations.
Open Scope string_scope.
Open Scope list_scope.
Open Scope spy_scope.
Open Scope shell_scope.

Section Observations.
Context {S : Type}.

(** The machine a computation ends in, whether it returns or halts. *)
Definition final_machine {A : Type} (r : (halt * machine S) + (A * machine S)) : machine S :=
  match r with
  | inl (_, m') => m'
  | inr (_, m') => m'
  end.

(** Every run of [c] ends in a machine related by [R] to the one it
    started from. *)
Definition stays (R : machine S -> machine S -> Prop) {A : Type} (c : SM S A) : Prop :=
  forall m, R m (final_machine (c m)).

Definition fewer_inputs (m m' : machine S) : Prop :=
  length (m_inputs m') <= length (m_inputs m).

Definition same_shell (m m' : machine S) : Prop := m_shell m' = m_shell m.

(** The files, the locks and the error stream are unchanged and the
    output only grows. *)
Definition only_prints (m m' : machine S) : Prop :=
  files (m_world m') = files (m_world m) /\ locked (m_world m') = locked (m_world m) /\
  stderr (m_world m') = stderr (m_world m) /\
  exists extra, stdout (m_world m') = stdout (m_world m) ++ extra.

(** [c] reads at least one line when it returns. *)
Definition reads {A : Type} (c : SM S A) : Prop :=
  stays fewer_inputs c /\
  forall m a m', c m = inr (a, m') -> length (m_inputs m') < length (m_inputs m).

(** [c] halts only by an exception, never by the [break] of "Exit". *)
Definition no_exit {A : Type} (c : SM S A) : Prop :=
  forall m m', c m <> inl (Exit, m').

(** A Hoare triple on the shell state: from a state satisfying [P], [c]
    returns [a] in a state satisfying [Q a], or halts in a state
    satisfying [E]. *)
Definition hoare {A : Type} (P : shell -> Prop) (c : SM S A) (Q : A -> shell -> Prop)
           (E : shell -> Prop) : Prop :=
  forall m, P (m_shell m) ->
    match c m with
    | inr (a, m') => Q a (m_shell m')
    | inl (_, m') => E (m_shell m')
    end.

End Observations.

(** ** Runs that stay within a preorder *)

Create HintDb stays.

Section Stays.
Context {S : Type}.
Context (R : machine S -> machine S -> Prop) `{!PreOrder R}.

Lemma stays_bind {A B : Type} (c : SM S A) (k : A -> SM S B) :
  stays R c -> (forall a, stays R (k a)) -> stays R (sbind c k).
Proof.
  intros Hc Hk m. specialize (Hc m). unfold sbind.
  destruct (c m) as [[h m1]|[a m1]]; [exact Hc|]. etransitivity; [exact Hc | apply Hk].
Qed.

Lemma stays_catch {A : Type} (P : shell_exc -> bool) (c : SM S A) (h : shell_exc -> SM S A) :
  stays R c -> (forall e, stays R (h e)) -> stays R (scatch P c h).
Proof.
  intros Hc Hh m. specialize (Hc m). unfold scatch.
  destruct (c m) as [[[|e] m1]|[a m1]]; try exact Hc.
  destruct (P e); [etransitivity; [exact Hc | apply Hh] | exact Hc].
Qed.

Lemma stays_ret {A : Type} (a : A) : stays R (@sret S A a).
Proof. intros m. cbn. reflexivity. Qed.

Lemma stays_halt {A : Type} (h : halt) : stays R (@shalt S A h).
Proof. intros m. cbn. reflexivity. Qed.

Lemma stays_gets {A : Type} (f : shell -> A) : stays R (@gets S A f).
Proof. intros m. cbn. reflexivity. Qed.

Lemma stays_get_world : stays R (@get_world S).
Proof. intros m. cbn. reflexivity. Qed.

End Stays.

Section Instances.
Context {S : Type}.

#[export] Instance fewer_inputs_preorder : PreOrder (@fewer_inputs S).
Proof. split; unfold fewer_inputs; intros ?; [lia | intros ? ? ? ?; lia]. Qed.

#[export] Instance same_shell_preorder : PreOrder (@same_shell S).
Proof. split; unfold same_shell; intros ?; [reflexivity | intros ? ? ? ?; congruence]. Qed.

#[export] Instance only_prints_preorder : PreOrder (@only_prints S).
Proof.
  split; unfold only_prints.
  - intros m. repeat split. exists []. now rewrite app_nil_r.
  - intros m1 m2 m3 [F1 [L1 [E1 [x1 O1]]]] [F2 [L2 [E2 [x2 O2]]]].
    repeat split; try congruence. exists (x1 ++ x2). now rewrite O2, O1, app_assoc.
Qed.

(** The primitive steps. *)

Lemma fewer_modify (f : shell -> shell) : stays fewer_inputs (@modify S f).
Proof. intros m. unfold fewer_inputs. cbn. lia. Qed.

Lemma fewer_on_world (f : world -> world) : stays fewer_inputs (@on_world S f).
Proof. intros m. unfold fewer_inputs. cbn. lia. Qed.

Lemma fewer_draw {A : Type} (c : PyM S A) : stays fewer_inputs (draw c).
Proof.
  intros m. unfold draw, fewer_inputs. destruct (c (m_rand m)) as [[e se]|[a s']]; cbn; lia.
Qed.

Lemma ask_reads (prompt : string) : reads (@ask S prompt).
Proof.
  split.
  - intros m. unfold ask, fewer_inputs. cbv beta. destruct (m_inputs m) as [|l r]; cbn; lia.
  - intros m a m'. unfold ask. destruct (m_inputs m) as [|l r] eqn:E; [discriminate|].
    intros [= _ <-]. cbn. rewrite ?E. cbn. lia.
Qed.

Lemma fewer_ask (prompt : string) : stays fewer_inputs (@ask S prompt).
Proof. apply ask_reads. Qed.

Lemma fewer_on_world_ret {A : Type} (f : world -> A * world) : stays fewer_inputs (on_world_ret (S := S) f).
Proof. intros m. unfold on_world_ret, fewer_inputs. destruct (f (m_world m)). cbn. lia. Qed.

Lemma fewer_on_session (f : session -> session) : stays fewer_inputs (on_session (S := S) f).
Proof. intros m. unfold on_session, fewer_inputs. destruct (f _). cbn. lia. Qed.

Lemma same_on_world_ret {A : Type} (f : world -> A * world) : stays same_shell (on_world_ret (S := S) f).
Proof. intros m. unfold on_world_ret. now destruct (f (m_world m)). Qed.

Lemma same_on_world (f : world -> world) : stays same_shell (@on_world S f).
Proof. intros m. reflexivity. Qed.

Lemma same_ask (prompt : string) : stays same_shell (@ask S prompt).
Proof. intros m. unfold ask. now destruct (m_inputs m). Qed.

Lemma same_draw {A : Type} (c : PyM S A) : stays same_shell (draw c).
Proof. intros m. unfold draw. now destruct (c (m_rand m)) as [[e se]|[a s']]. Qed.

Lemma prints_write (text : string) (m : machine S) :
  only_prints m (mk_machine (m_shell m) (m_rand m) (write_out text (m_world m)) (m_inputs m)).
Proof. repeat split. now exists [text]. Qed.

Lemma prints_say (line : string) : stays only_prints (@say S line).
Proof. intros m. apply prints_write. Qed.

Lemma prints_ask (prompt : string) : stays only_prints (@ask S prompt).
Proof. intros m. unfold ask. destruct (m_inputs m); repeat split; now exists [prompt]. Qed.

Lemma prints_same_world (m m' : machine S) : m_world m' = m_world m -> only_prints m m'.
Proof. intros E. unfold only_prints. rewrite E. repeat split. exists []. now rewrite app_nil_r. Qed.

Lemma prints_modify (f : shell -> shell) : stays only_prints (@modify S f).
Proof. intros m. now apply prints_same_world. Qed.

Lemma prints_draw {A : Type} (c : PyM S A) : stays only_prints (draw c).
Proof.
  intros m. apply prints_same_world. unfold draw. now destruct (c (m_rand m)) as [[e se]|[a s']].
Qed.

Lemma same_say (line : string) : stays same_shell (@say S line).
Proof. apply same_on_world. Qed.

Lemma same_say_all (lines : list string) : stays same_shell (@say_all S lines).
Proof. apply same_on_world. Qed.

Lemma fewer_say (line : string) : stays fewer_inputs (@say S line).
Proof. apply fewer_on_world. Qed.

Lemma fewer_say_all (lines : list string) : stays fewer_inputs (@say_all S lines).
Proof. apply fewer_on_world. Qed.

Lemma prints_say_all (lines : list string) : stays only_prints (@say_all S lines).
Proof.
  intros m. destruct m as [st r w ins]. unfold say_all, on_world. cbn. revert w.
  induction lines as [|l ls IH]; intros w; cbn [fold_left]; [reflexivity|].
  etransitivity; [apply (prints_write (l +++ nl) (mk_machine st r w ins)) | apply IH].
Qed.

Lemma in_stdout_print (line : string) (w : world) : In (line +++ nl) (stdout (print line w)).
Proof. cbn. apply in_or_app. now right; left. Qed.

Lemma in_stdout_grow (x : string) (w : world) (extra : list string) :
  In x (stdout w) -> In x (stdout w ++ extra).
Proof. intros Hx. apply in_or_app. now left. Qed.

End Instances.

#[export] Hint Resolve stays_ret stays_halt stays_gets stays_get_world
  fewer_inputs_preorder same_shell_preorder only_prints_preorder
  fewer_modify fewer_on_world fewer_draw fewer_ask fewer_on_world_ret fewer_on_session
  same_on_world same_on_world_ret same_ask same_draw prints_say prints_ask prints_modify prints_draw
  same_say same_say_all fewer_say fewer_say_all prints_say_all : stays.

(** Close [stays R c] through the binds, catches and case splits of [c]. *)
Ltac stays_tac :=
  repeat first
    [ solve [eauto with stays]
    | apply stays_bind; [try typeclasses eauto .. | intros ?]
    | apply stays_catch; [try typeclasses eauto .. | intros ?]
    | match goal with
      | |- stays _ (if ?b then _ else _) => destruct b
      | |- stays _ (match ?x with _ => _ end) => destruct x
      | |- stays _ (let '(_, _) := ?p in _) => destruct p
      end ].

(** ** Hoare rules *)

Section HoareRules.
Context {S : Type}.
Local Abbreviation hoare := (@hoare S _).

Lemma hoare_pure {A : Type} (P : shell -> Prop) (c : SM S A) (Q : A -> shell -> Prop) E :
  stays same_shell c -> (forall st, P st -> E st) -> (forall a st, P st -> Q a st) ->
  hoare P c Q E.
Proof.
  intros Hc HE HQ m Hm. specialize (Hc m). unfold same_shell in Hc.
  destruct (c m) as [[h m1]|[a m1]]; cbn in Hc; rewrite Hc; auto.
Qed.

Lemma hoare_frame {A : Type} (P : shell -> Prop) (c : SM S A) E :
  stays same_shell c -> (forall st, P st -> E st) -> hoare P c (fun _ => P) E.
Proof. intros Hc HE. apply hoare_pure; auto. Qed.

Lemma hoare_bind {A B : Type} P (c : SM S A) Q (k : A -> SM S B) R E :
  hoare P c Q E -> (forall a, hoare (Q a) (k a) R E) -> hoare P (sbind c k) R E.
Proof.
  intros Hc Hk m Hm. specialize (Hc m Hm). unfold sbind.
  destruct (c m) as [[h m1]|[a m1]]; [exact Hc|]. now apply Hk.
Qed.

Lemma hoare_catch {A : Type} P (Pr : shell_exc -> bool) (c : SM S A) (h : shell_exc -> SM S A)
      Q E E' :
  hoare P c Q E' -> (forall e, hoare E' (h e) Q E) -> (forall st, E' st -> E st) ->
  hoare P (scatch Pr c h) Q E.
Proof.
  intros Hc Hh HE m Hm. specialize (Hc m Hm). unfold scatch.
  destruct (c m) as [[[|e] m1]|[a m1]].
  - now apply HE.
  - destruct (Pr e); [now apply Hh | now apply HE].
  - exact Hc.
Qed.

Lemma hoare_gets {A : Type} P (f : shell -> A) E :
  hoare P (gets f) (fun a st => P st /\ a = f st) E.
Proof. intros m Hm. cbn. auto. Qed.

Lemma hoare_modify P (f : shell -> shell) (Q : unit -> shell -> Prop) E :
  (forall st, P st -> Q tt (f st)) -> hoare P (modify f) Q E.
Proof. intros HQ m Hm. cbn. auto. Qed.

Lemma hoare_on_session P (f : session -> session) (Q : unit -> shell -> Prop) E :
  (forall st favs, P st -> Q tt (set_favorites favs st)) -> hoare P (on_session (S := S) f) Q E.
Proof. intros HQ m Hm. unfold on_session. destruct (f _). cbn. auto. Qed.

Lemma hoare_bind_ret {A B : Type} P (a : A) (k : A -> SM S B) Q E :
  hoare P (k a) Q E -> hoare P (sbind (sret a) k) Q E.
Proof. intros Hk m Hm. exact (Hk m Hm). Qed.

Lemma hoare_weaken {A : Type} (P P' : shell -> Prop) (c : SM S A) Q E :
  (forall st, P st -> P' st) -> hoare P' c Q E -> hoare P c Q E.
Proof. intros HP Hc m Hm. apply Hc, HP, Hm. Qed.

Lemma hoare_sbind_assoc {A B C : Type} P (c : SM S A) (k1 : A -> SM S B) (k2 : B -> SM S C) Q E :
  hoare P (sbind c (fun a => sbind (k1 a) k2)) Q E -> hoare P (sbind (sbind c k1) k2) Q E.
Proof.
  intros Hc m Hm. specialize (Hc m Hm). unfold sbind in *.
  destruct (c m) as [[h m1]|[a m1]]; exact Hc.
Qed.

End HoareRules.

(** ** Reading input *)

Section Reads.
Context {S : Type}.

Lemma reads_bind_l {A B : Type} (c : SM S A) (k : A -> SM S B) :
  reads c -> (forall a, stays fewer_inputs (k a)) -> reads (sbind c k).
Proof.
  intros [Hn Hr] Hk. split; [now apply stays_bind; [apply _| |]|].
  intros m b m'. unfold sbind. pose proof (Hr m) as Hr'.
  destruct (c m) as [[h m1]|[a m1]]; [discriminate|].
  intros E. specialize (Hr' a m1 eq_refl). specialize (Hk a m1). rewrite E in Hk.
  unfold fewer_inputs in Hk. cbn in Hk. lia.
Qed.

Lemma reads_bind_r {A B : Type} (c : SM S A) (k : A -> SM S B) :
  stays fewer_inputs c -> (forall a, reads (k a)) -> reads (sbind c k).
Proof.
  intros Hc Hk. split; [apply stays_bind; [apply _ | exact Hc | intros a; apply Hk]|].
  intros m b m'. unfold sbind. specialize (Hc m).
  destruct (c m) as [[h m1]|[a m1]]; [discriminate|].
  intros E. destruct (Hk a) as [_ Hr]. specialize (Hr m1 b m' E).
  unfold fewer_inputs in Hc. cbn in Hc. lia.
Qed.

End Reads.

(** ** Computations that do not exit *)

Create HintDb no_exit.

Section NoExit.
Context {S : Type}.

Lemma no_exit_bind {A B : Type} (c : SM S A) (k : A -> SM S B) :
  no_exit c -> (forall a, no_exit (k a)) -> no_exit (sbind c k).
Proof.
  intros Hc Hk m m'. unfold sbind. specialize (Hc m m').
  destruct (c m) as [[h m1]|[a m1]]; [intros E; injection E as -> ->; now apply Hc | apply Hk].
Qed.

Lemma no_exit_ret {A : Type} (a : A) : no_exit (@sret S A a).
Proof. intros m m'. discriminate. Qed.

Lemma no_exit_crash {A : Type} (e : shell_exc) : no_exit (@shalt S A (Crash e)).
Proof. intros m m'. discriminate. Qed.

Lemma no_exit_gets {A : Type} (f : shell -> A) : no_exit (@gets S A f).
Proof. intros m m'. discriminate. Qed.

Lemma no_exit_get_world : no_exit (@get_world S).
Proof. intros m m'. discriminate. Qed.

Lemma no_exit_say (line : string) : no_exit (@say S line).
Proof. intros m m'. discriminate. Qed.

End NoExit.

#[export] Hint Resolve no_exit_ret no_exit_crash no_exit_gets no_exit_get_world no_exit_say : no_exit.

Ltac no_exit_tac :=
  repeat first
    [ solve [eauto with no_exit]
    | apply no_exit_bind; [| intros ?]
    | match goal with
      | |- no_exit (if ?b then _ else _) => destruct b
      | |- no_exit (match ?x with _ => _ end) => destruct x
      | |- no_exit (let _ := _ in _) => cbv zeta
      end ].
