(* ===== verification/Session.v ===== *)
(** * Session: the interactive shell of SpySpeak.py and its theorems

    [main] of SpySpeak.py (286-735) keeps its state in local variables,
    reads lines with [input()] and loops over a menu until the user
    exits.  On the state and monad of Machine.v, this file gives one
    definition per part of [main]: the interactive loaders
    ([i_load_words], [i_load_exclusions], [i_load_themed_words]), each
    menu branch ([choice_single] ... [settings_menu]), one iteration of
    [while True] ([menu_iteration]), the loop on fuel ([run_session]),
    the code before the loop ([startup]) and the [__main__] block
    ([program]).  The [KeyboardInterrupt] handler is not modelled.

    The theorems, proved with SessionLogic.v: the loop terminates
    ([run_session_halts]); the invariant of the variables
    ([program_inv]); title case with the empty separator the separator
    menu offers crashes a single generation ([separator_menu_crash]) and
    is reported as a bad count by a multiple one
    ([multiple_title_empty_message]); adding exclusions
    ([exclusions_add_spec]). *)

From Stdlib Require Import String Ascii List ZArith Lia Bool.
From stdpp Require Import base gmap.
From S2P Require Import Prelude PyStr WordLists Random Generator Output Favorites Shells Machine SessionLogic.
Import ListNotations.
Open Scope string_scope.
Open Scope list_scope.
Open Scope spy_scope.
Open Scope shell_scope.

(** [str(e)] of an exception the shell catches with [except Exception]. *)
Definition shell_exc_str (e : shell_exc) : string :=
  match e with
  | Raised e => exc_str e
  | EOFError => ""
  | OSError p => oserror p
  end.

Definition is_value_error (e : shell_exc) : bool :=
  match e with Raised ValueError => true | _ => false end.

(** [os.remove(path)]. *)
Definition remove_file (path : string) (w : world) : world :=
  mk_world (delete path (files w)) (locked w) (stdout w) (stderr w).

(** The "Save output to file?" branch of "Generate multiple" (418-424):
    [open("")] raises [FileNotFoundError]. *)
Definition save_output (filename output : string) (w : world) : world :=
  match filename with
  | EmptyString => print "Error saving file: [Errno 2] No such file or directory: ''" w
  | _ =>
      if decide (filename ∈ locked w)
      then print ("Error saving file: " +++ oserror filename) w
      else print ("Output saved to " +++ filename) (set_file filename output w)
  end.

(** [[word.strip().lower() for word in new_exclusions.split(',')]] (586). *)
Definition exclusion_words (line : string) : list string :=
  map (fun word => py_lower (py_strip word)) (py_split "," line).

(** [for word in new_words: if word and word not in exclusions:
    exclusions.append(word)] (588-590). *)
Definition add_exclusions (exclusions new_words : list string) : list string :=
  fold_left (fun excl word =>
               if (negb (String.eqb word "") && negb (py_in word excl))%bool
               then excl ++ [word] else excl) new_words exclusions.

(** The help text (display_help, 240-284). *)
Definition help_lines : list string :=
  [ nl +++ "Codename Generator Help:"; "-----------------------"; "Main Menu Options:";
    "1. Generate a single codename - Creates one random codename";
    "2. Generate multiple codenames - Creates multiple codenames";
    "3. View favorites - Display your saved favorite codenames";
    "4. Manage favorites - Add to, remove from, or export your favorites";
    "5. Change settings - Modify application settings like theme or exclusions";
    "6. Help - Display this help information";
    "7. Exit - Quit the application";
    nl +++ "Themes:";
    "The program supports themed word lists found in the 'themes' directory.";
    "Each theme consists of two files: themename_adj.txt and themename_nouns.txt";
    nl +++ "Exclusions:";
    "You can create an 'exclusions.txt' file with words to exclude from codename generation.";
    "Put one word per line in this file.";
    nl +++ "Output Formats:";
    "Codenames can be exported in text, JSON, CSV, and HTML formats.";
    nl +++ "Codename Patterns:";
    "- adj-noun: Adjective + Noun (e.g., 'Brave Tiger')";
    "- noun-noun: Noun + Noun (e.g., 'Forest Mountain')";
    "- adj-adj-noun: Adjective + Adjective + Noun (e.g., 'Brave Silent Warrior')";
    "- noun-adj: Noun + Adjective (e.g., 'Eagle Swift')";
    "- adj-noun-number: Adjective + Noun + Number (e.g., 'Swift Eagle 42')";
    nl +++ "Case Styles:";
    "- Title Case: First Letter Of Each Word Capitalized";
    "- UPPERCASE: ALL LETTERS CAPITALIZED";
    "- lowercase: all letters lowercase";
    "- Sentence case: Only first letter capitalized";
    nl +++ "Word Length Limits:";
    "You can set minimum and maximum length for words used in codenames.";
    "This helps control the overall length of generated codenames.";
    nl +++ "Separators:";
    "You can choose different separators between words: space, hyphen, underscore, etc." ].

Definition main_menu_lines : list string :=
  [ nl +++ "Codename Generator Options:"; "1. Generate a single codename";
    "2. Generate multiple codenames"; "3. View favorites"; "4. Manage favorites";
    "5. Change settings"; "6. Help"; "7. Exit" ].

Definition settings_lines : list string :=
  [ nl +++ "Settings:"; "1. Change theme"; "2. Manage exclusions"; "3. Configure codename pattern";
    "4. Configure text case style"; "5. Configure word length limits"; "6. Configure separator";
    "7. Back to main menu" ].

Definition favorites_menu_lines : list string :=
  [ nl +++ "Favorites Management:"; "1. Add a new favorite"; "2. Remove a favorite";
    "3. Export favorites"; "4. Back to main menu" ].

Definition exclusions_menu_lines : list string :=
  [ nl +++ "Exclusions Management:"; "1. View current exclusions"; "2. Add exclusion words";
    "3. Clear all exclusions"; "4. Back to settings" ].

Definition pattern_lines : list string :=
  [ nl +++ "Codername Pattern:"; "1. adj-noun (Adjective + Noun)"; "2. noun-noun (Noun + Noun)";
    "3. adj-adj-noun (Adjective + Adjective + Noun)"; "4. noun-adj (Noun + Adjective)";
    "5. adj-noun-number (Adjective + Noun + Number)" ].

Definition case_lines : list string :=
  [ nl +++ "Text Case Style:"; "1. Title Case (First Letter Of Each Word Capitalized)";
    "2. UPPERCASE (ALL LETTERS CAPITALIZED)"; "3. lowercase (all letters lowercase)";
    "4. Sentence case (Only first letter capitalized)" ].

Definition separator_lines : list string :=
  [ nl +++ "Separator Options:"; "1. Space ( )"; "2. Hyphen (-)"; "3. Underscore (_)"; "4. Dot (.)";
    "5. No separator"; "6. Custom separator" ].

(** The value a numbered menu answer selects, if any. *)
Definition menu_pick (answer : string) (options : list (string * string)) : option string :=
  match find (fun kv => String.eqb (fst kv) answer) options with
  | Some (_, v) => Some v
  | None => None
  end.

Definition pattern_options : list (string * string) :=
  [("1", "adj-noun"); ("2", "noun-noun"); ("3", "adj-adj-noun"); ("4", "noun-adj");
   ("5", "adj-noun-number")].

Definition case_options : list (string * string) :=
  [("1", "title"); ("2", "upper"); ("3", "lower"); ("4", "sentence")].

Definition separator_options : list (string * string) :=
  [("1", " "); ("2", "-"); ("3", "_"); ("4", "."); ("5", "")].

Section Shell.
Context {S : Type} `{UniformSource S}.

(** [current_dir], the script's directory, and [os.listdir("themes")]. *)
Variable dir : string.
Variable listing : option (list string).

Definition adj_file : string := path_join dir "adjectives.txt".
Definition noun_file : string := path_join dir "nouns.txt".
Definition exclusions_file : string := path_join dir "exclusions.txt".
Definition favorites_file : string := path_join dir "favorites.txt".
Definition themes_dir : string := path_join dir "themes".

(** [load_words(filename)] of SpySpeak.py (8-17): only
    [FileNotFoundError] is caught. *)
Definition i_load_words (filename : string) : SM S (list string) :=
  w <~ get_world ;;
  match open_read filename w with
  | NotFound => say ("Error: Could not find the file '" +++ filename +++ "'") ~; sret []
  | Denied => shalt (Crash (OSError filename))
  | Contents c => sret (stripped_nonblank (file_lines c))
  end.

(** [load_exclusions(filename)] of SpySpeak.py (48-60). *)
Definition i_load_exclusions (filename : string) : SM S (list string) :=
  w <~ get_world ;;
  if negb (path_exists filename w) then sret [] else
  match open_read filename w with
  | Contents c => sret (map py_lower (stripped_nonblank (file_lines c)))
  | _ => say ("Error loading exclusions: " +++ oserror filename) ~; sret []
  end.

(** [load_themed_words(theme)] of SpySpeak.py (79-94). *)
Definition i_load_themed_words (theme : string) : SM S (list string * list string) :=
  let adj_f := theme_file theme "_adj.txt" in
  let noun_f := theme_file theme "_nouns.txt" in
  w <~ get_world ;;
  if (negb (path_exists adj_f w) || negb (path_exists noun_f w))%bool
  then say ("Theme '" +++ theme +++ "' not found. Make sure both " +++ adj_f +++ " and " +++
            noun_f +++ " exist.") ~; sret ([], [])
  else a <~ i_load_words adj_f ;; n <~ i_load_words noun_f ;; sret (a, n).

(** The word lists of the current theme, or the default files. *)
Definition reload_lists : SM S (list string * list string) :=
  theme <~ gets sh_theme ;;
  match truthy theme with
  | Some t => i_load_themed_words t
  | None => a <~ i_load_words adj_file ;; n <~ i_load_words noun_file ;; sret (a, n)
  end.

Definition add_favorite_sm (name : string) : SM S unit :=
  on_session (interactive_add favorites_file name).

(** [generate_codename(adjectives, nouns, count, pattern=..., ...)] with
    the current settings. *)
Definition gen (count : Z) : SM S (list string) :=
  st <~ gets (fun st => st) ;;
  draw (Interactive.generate_codename (sh_adjectives st) (sh_nouns st) count (sh_exclusions st)
          (sh_pattern st) (sh_case st) (sh_min_length st) (sh_max_length st) (sh_separator st)).

Definition count_message (prefix : string) (a n : list string) (suffix : string) : string :=
  prefix +++ py_str_nat (length a) +++ " adjectives and " +++ py_str_nat (length n) +++ " nouns" +++ suffix.

(** "1. Generate a single codename" (367-386). *)
Definition choice_single : SM S unit :=
  codenames <~ gen 1 ;;
  match codenames with
  | [] => shalt (Crash (Raised IndexError))
  | codename :: _ =>
      say (nl +++ "Your codename is: " +++ codename) ~;
      save_choice <~ ask "Add this to favorites? (y/n): " ;;
      if String.eqb (py_lower save_choice) "y" then add_favorite_sm codename else sret tt
  end.

(** "2. Generate multiple codenames" (388-428); the [except ValueError]
    also catches the [ValueError] of [generate_codename]. *)
Definition choice_multiple : SM S unit :=
  scatch is_value_error
    (line <~ ask "How many codenames do you want to generate? " ;;
     match py_int line with
     | None => shalt (Crash (Raised ValueError))
     | Some count =>
         if (count <? 1)%Z then say "Please enter a positive number" else
         format_choice <~ ask "Output format (text/json/csv/html) [text]: " ;;
         let format_type := export_format format_choice in
         codenames <~ gen count ;;
         let output := format_output codenames format_type in
         say (nl +++ "Your codenames are:") ~; say output ~;
         save_choice <~ ask "Save output to file? (y/n): " ;;
         if String.eqb (py_lower save_choice) "y" then
           filename <~ ask "Enter filename: " ;; on_world (save_output filename output)
         else sret tt
     end)
    (fun _ => say "Please enter a valid number").

(** "3. View favorites" (430-438). *)
Definition choice_view : SM S unit :=
  favs <~ gets sh_favorites ;;
  match favs with
  | [] => say "You have no saved favorites."
  | _ => on_world (show_favorites favs)
  end.

(** "4. Manage favorites" (440-493). *)
Definition choice_manage : SM S unit :=
  favs <~ gets sh_favorites ;;
  match favs with
  | [] =>
      say "You have no saved favorites." ~;
      add_new <~ ask "Would you like to add a new favorite? (y/n): " ;;
      if String.eqb (py_lower add_new) "y" then
        new_name <~ ask "Enter a codename to add to favorites: " ;; add_favorite_sm new_name
      else sret tt
  | _ =>
      say_all favorites_menu_lines ~;
      fav_choice <~ ask "Enter your choice (1-4): " ;;
      if String.eqb fav_choice "1" then
        new_name <~ ask "Enter a codename to add to favorites: " ;; add_favorite_sm new_name
      else if String.eqb fav_choice "2" then
        on_world (show_favorites favs) ~;
        line <~ ask "Enter the number of the favorite to remove: " ;;
        on_session (interactive_remove favorites_file line)
      else if String.eqb fav_choice "3" then
        format_choice <~ ask "Export format (text/json/csv/html) [text]: " ;;
        filename <~ ask "Enter export filename: " ;;
        on_world (fun w => snd (interactive_export favs (export_format format_choice) filename w))
      else if String.eqb fav_choice "4" then sret tt
      else say "Invalid choice"
  end.

(** Settings, "1. Change theme" (508-548). *)
Definition settings_theme : SM S unit :=
  w <~ get_world ;;
  let themes := get_available_themes listing w in
  match themes with
  | [] =>
      say "No themes found. Would you like to create a new theme?" ~;
      create_theme <~ ask "Create new theme? (y/n): " ;;
      if String.eqb (py_lower create_theme) "y" then
        theme_name <~ ask "Enter theme name: " ;;
        say ("Created theme directory. Please add " +++ theme_name +++ "_adj.txt and " +++
             theme_name +++ "_nouns.txt files.")
      else sret tt
  | _ =>
      say_all ([nl +++ "Available themes:"; "0. Default (no theme)"] ++ enumerate_lines 1 themes) ~;
      scatch is_value_error
        (line <~ ask "Enter theme number: " ;;
         match py_int line with
         | None => shalt (Crash (Raised ValueError))
         | Some theme_choice =>
             if (theme_choice =? 0)%Z then
               modify (set_theme None) ~;
               a <~ i_load_words adj_file ;; n <~ i_load_words noun_file ;;
               excl <~ gets sh_exclusions ;;
               modify (set_lists (filter_excluded_words a excl) (filter_excluded_words n excl)) ~;
               say "Switched to default word lists"
             else if ((1 <=? theme_choice) && (theme_choice <=? Z.of_nat (length themes)))%Z%bool then
               let selected := nth (Z.to_nat (theme_choice - 1)) themes "" in
               p <~ i_load_themed_words selected ;;
               let '(ta, tn) := p in
               if (negb (is_nil ta) && negb (is_nil tn))%bool then
                 excl <~ gets sh_exclusions ;;
                 modify (set_theme (Some selected)) ~;
                 modify (set_lists (filter_excluded_words ta excl) (filter_excluded_words tn excl)) ~;
                 say ("Switched to theme: " +++ selected) ~;
                 say (count_message "Loaded " (filter_excluded_words ta excl) (filter_excluded_words tn excl) "")
               else sret tt
             else say "Invalid theme number"
         end)
        (fun _ => say "Please enter a valid number")
  end.

(** Settings, "2. Manage exclusions" (550-621). *)
Definition settings_exclusions : SM S unit :=
  say_all exclusions_menu_lines ~;
  excl_choice <~ ask "Enter your choice (1-4): " ;;
  if String.eqb excl_choice "1" then
    excl <~ gets sh_exclusions ;;
    match excl with
    | [] => say "No exclusions set."
    | _ => say_all ((nl +++ "Current exclusions:") :: enumerate_lines 1 excl)
    end
  else if String.eqb excl_choice "2" then
    new_exclusions <~ ask "Enter words to exclude (comma separated): " ;;
    let new_words := exclusion_words new_exclusions in
    excl <~ gets sh_exclusions ;;
    let excl := add_exclusions excl new_words in
    modify (set_exclusions excl) ~;
    scatch (fun _ => true)
      (w <~ get_world ;;
       if decide (exclusions_file ∈ locked w) then shalt (Crash (OSError exclusions_file)) else
       on_world (set_file exclusions_file (favorites_text excl)) ~;
       say ("Added " +++ py_str_nat (length new_words) +++ " words to exclusions") ~;
       p <~ reload_lists ;;
       let '(a, n) := p in
       modify (set_lists (filter_excluded_words a excl) (filter_excluded_words n excl)) ~;
       say (count_message "Updated to " (filter_excluded_words a excl) (filter_excluded_words n excl)
              " after applying exclusions"))
      (fun e => say ("Error saving exclusions: " +++ shell_exc_str e))
  else if String.eqb excl_choice "3" then
    confirm <~ ask "Are you sure you want to clear all exclusions? (y/n): " ;;
    if String.eqb (py_lower confirm) "y" then
      modify (set_exclusions []) ~;
      w <~ get_world ;;
      (if path_exists exclusions_file w then on_world (remove_file exclusions_file) else sret tt) ~;
      say "All exclusions cleared" ~;
      p <~ reload_lists ;;
      let '(a, n) := p in
      modify (set_lists a n) ~;
      say (count_message "Updated to " a n " after clearing exclusions")
    else sret tt
  else if String.eqb excl_choice "4" then sret tt
  else say "Invalid choice".

(** [int(s) if s.isdigit() else 0] (673 and 676). *)
Definition digit_int (s : string) : SM S Z :=
  if py_isdigit s then
    match py_int s with
    | Some k => sret k
    | None => shalt (Crash (Raised ValueError))
    end
  else sret 0%Z.

(** Settings, "5. Configure word length limits" (670-687). *)
Definition settings_lengths : SM S unit :=
  scatch is_value_error
    (new_min <~ ask "Enter minimum word length (0 for no minimum): " ;;
     mn <~ digit_int new_min ;;
     mx0 <~ gets sh_max_length ;;
     modify (set_bounds mn mx0) ~;
     new_max <~ ask "Enter maximum word length (0 for no maximum): " ;;
     mx <~ digit_int new_max ;;
     modify (set_bounds mn mx) ~;
     (if ((0 <? mn) && (0 <? mx) && (mx <? mn))%Z%bool
      then say "Error: Minimum length cannot be greater than maximum length" ~; modify (set_bounds 0 0)
      else sret tt) ~;
     st <~ gets (fun st => st) ;;
     say ("Word length limits set to: min=" +++ py_str_int (sh_min_length st) +++ ", max=" +++
          py_str_int (sh_max_length st)))
    (fun _ => say "Invalid input. Using default values (no limits)." ~; modify (set_bounds 0 0)).

(** Settings, "3. Configure codename pattern" (622-645). *)
Definition settings_pattern : SM S unit :=
  say_all pattern_lines ~;
  pattern_choice <~ ask "Enter your choice (1-5): " ;;
  match menu_pick pattern_choice pattern_options with
  | Some p => modify (set_pattern p)
  | None => say "Invalid choice, keeping current pattern"
  end ~;
  p <~ gets sh_pattern ;; say ("Pattern set to: " +++ p).

(** Settings, "4. Configure text case style" (647-667). *)
Definition settings_case : SM S unit :=
  say_all case_lines ~;
  case_choice <~ ask "Enter your choice (1-4): " ;;
  match menu_pick case_choice case_options with
  | Some c => modify (set_case c)
  | None => say "Invalid choice, keeping current case style"
  end ~;
  c <~ gets sh_case ;; say ("Case style set to: " +++ c).

(** Settings, "6. Configure separator" (689-715). *)
Definition settings_separator : SM S unit :=
  say_all separator_lines ~;
  sep_choice <~ ask "Enter your choice (1-6): " ;;
  match menu_pick sep_choice separator_options with
  | Some sep => modify (set_separator sep)
  | None =>
      if String.eqb sep_choice "6" then
        sep <~ ask "Enter custom separator: " ;; modify (set_separator sep)
      else say "Invalid choice, keeping current separator"
  end ~;
  sep <~ gets sh_separator ;; say ("Separator set to: '" +++ sep +++ "'").

(** "5. Change settings" (494-721). *)
Definition settings_menu : SM S unit :=
  say_all settings_lines ~;
  settings_choice <~ ask "Enter your choice (1-7): " ;;
  if String.eqb settings_choice "1" then settings_theme
  else if String.eqb settings_choice "2" then settings_exclusions
  else if String.eqb settings_choice "3" then settings_pattern
  else if String.eqb settings_choice "4" then settings_case
  else if String.eqb settings_choice "5" then settings_lengths
  else if String.eqb settings_choice "6" then settings_separator
  else if String.eqb settings_choice "7" then sret tt
  else say "Invalid choice".

(** One iteration of [while True] (352-733). *)
Definition menu_iteration : SM S unit :=
  say_all main_menu_lines ~;
  choice <~ ask "Enter your choice (1-7): " ;;
  if String.eqb choice "1" then choice_single
  else if String.eqb choice "2" then choice_multiple
  else if String.eqb choice "3" then choice_view
  else if String.eqb choice "4" then choice_manage
  else if String.eqb choice "5" then settings_menu
  else if String.eqb choice "6" then say_all help_lines
  else if String.eqb choice "7" then
    say "Thank you for using the Codename Generator. Goodbye!" ~; shalt Exit
  else say "Invalid choice. Please enter a number from 1-7.".

(** The loop, for at most [fuel] iterations. *)
Fixpoint run_session (fuel : nat) : SM S unit :=
  match fuel with
  | O => sret tt
  | Datatypes.S f => menu_iteration ~; run_session f
  end.

(** [main()] up to the loop (286-349): [true] when the loop is entered,
    [false] when [main] returned early.  [themes_exists] tells whether
    the [themes] directory beside the script exists. *)
Definition startup (themes_exists : bool) : SM S bool :=
  (if themes_exists then sret tt
   else say ("Created themes directory at " +++ themes_dir) ~;
        say "You can add themed word lists in this directory.") ~;
  w <~ get_world ;;
  if negb (path_exists adj_file w) then
    say ("Error: '" +++ adj_file +++ "' not found. Please make sure the file exists in the current directory.") ~;
    sret false
  else if negb (path_exists noun_file w) then
    say ("Error: '" +++ noun_file +++ "' not found. Please make sure the file exists in the current directory.") ~;
    sret false
  else
  say "Loading word lists..." ~;
  a <~ i_load_words adj_file ;;
  n <~ i_load_words noun_file ;;
  if is_nil a then say ("Error: No adjectives loaded from " +++ adj_file) ~; sret false
  else if is_nil n then say ("Error: No nouns loaded from " +++ noun_file) ~; sret false
  else
  w <~ get_world ;;
  e <~ (if path_exists exclusions_file w then
          e <~ i_load_exclusions exclusions_file ;;
          say ("Loaded " +++ py_str_nat (length e) +++ " excluded words") ~; sret e
        else sret []) ;;
  let a := if path_exists exclusions_file w then filter_excluded_words a e else a in
  let n := if path_exists exclusions_file w then filter_excluded_words n e else n in
  w <~ get_world ;;
  favs <~ (if path_exists favorites_file w then
             f <~ on_world_ret (load_favorites favorites_file) ;;
             say ("Loaded " +++ py_str_nat (length f) +++ " favorites") ~; sret f
           else sret []) ;;
  modify (fun _ => mk_shell a n favs e None "adj-noun" "title" 0 0 " ") ~;
  say (count_message "Loaded " a n "") ~;
  sample <~ draw (Interactive.generate_codename a n 1 [] "adj-noun" "title" 0 0 " ") ;;
  match sample with
  | [] => shalt (Crash (Raised IndexError))
  | c :: _ => say ("Sample codename: " +++ c) ~; sret true
  end.

(** The program (738-739): the welcome line, then [main()]. *)
Definition program (themes_exists : bool) (fuel : nat) : SM S unit :=
  say "Welcome to the Enhanced Random Codename Generator!" ~;
  go <~ startup themes_exists ;;
  if go then run_session fuel else sret tt.

End Shell.

(** The state before [main] runs: the initial values of its variables. *)
Definition initial_shell : shell := mk_shell [] [] [] [] None "adj-noun" "title" 0 0 " ".

(** The settings under which [generate_codename] raises: title case, an
    empty separator, and words left after both filters. *)
Definition title_empty_ready (st : shell) : Prop :=
  Spec.classify_case (sh_case st) = Spec.Title /\ sh_separator st = "" /\
  length_filter (sh_min_length st) (sh_max_length st)
    (filter_excluded_words (sh_adjectives st) (sh_exclusions st)) <> [] /\
  length_filter (sh_min_length st) (sh_max_length st)
    (filter_excluded_words (sh_nouns st) (sh_exclusions st)) <> [].

(** The draws of the first raw name [generate_codename] composes from
    the settings: the lists after both filters. *)
Definition first_raw_name {S : Type} `{UniformSource S} (st : shell) : PyM S string :=
  raw_name (sh_pattern st) (sh_separator st)
    (length_filter (sh_min_length st) (sh_max_length st) (filter_excluded_words (sh_adjectives st) (sh_exclusions st)))
    (length_filter (sh_min_length st) (sh_max_length st) (filter_excluded_words (sh_nouns st) (sh_exclusions st))).

(** An exclusion as [main] keeps it: non-empty and lower case, so that
    [word.lower() not in exclusions] compares like with like. *)
Definition good_exclusion (e : string) : Prop := e <> "" /\ py_lower e = e.

(** What every state of the shell satisfies: the exclusions are good and
    the length limits are non-negative. *)
Definition excl_ok (st : shell) : Prop :=
  Forall good_exclusion (sh_exclusions st) /\
  (0 <= sh_min_length st)%Z /\ (0 <= sh_max_length st)%Z.

(** What every state at the top of the loop satisfies: in addition, two
    active length limits are ordered (the check of 680-682). *)
Definition shell_inv (st : shell) : Prop :=
  excl_ok st /\
  ((0 < sh_min_length st)%Z -> (0 < sh_max_length st)%Z -> (sh_min_length st <= sh_max_length st)%Z).

(** Data for the concrete runs below. *)
Definition demo_shell : shell :=
  mk_shell ["brave"] ["tiger"] [] [] None "adj-noun" "title" 0 0 " ".

(** The favorites action of Favorites.v that the lines typed in
    "4. Manage favorites" select, with the lines left after it (when the
    list is not empty). *)
Definition manage_action (inputs : list string) : option (fav_action * list string) :=
  match inputs with
  | choice :: line :: rest =>
      if String.eqb choice "1" then Some (FavAdd line, rest)
      else if String.eqb choice "2" then Some (FavRemove line, rest)
      else if String.eqb choice "3" then
        match rest with
        | filename :: rest' => Some (FavExport line filename, rest')
        | [] => None
        end
      else None
  | _ => None
  end.

(** ** The loaders only print *)

Section Loaders.
Context {S : Type} `{UniformSource S}.
Context (R : machine S -> machine S -> Prop) `{!PreOrder R}.
Hypothesis (Hsay : forall line, stays R (@say S line)).
Hypothesis (Hfail : forall A (h : halt), stays R (@shalt S A h)).

(** The loaders of the interactive program only print: they stay within
    every preorder that [print] stays within. *)
#[local] Hint Resolve Hsay Hfail : stays.

Lemma i_load_words_stays (f : string) : stays R (i_load_words (S := S) f).
Proof. unfold i_load_words. stays_tac. Qed.

Lemma i_load_exclusions_stays (f : string) : stays R (i_load_exclusions (S := S) f).
Proof. unfold i_load_exclusions. stays_tac. Qed.

#[local] Hint Resolve i_load_words_stays : stays.

Lemma i_load_themed_words_stays (theme : string) : stays R (i_load_themed_words (S := S) theme).
Proof. unfold i_load_themed_words. stays_tac. Qed.

#[local] Hint Resolve i_load_themed_words_stays : stays.

Lemma reload_lists_stays (dir : string) : stays R (reload_lists (S := S) dir).
Proof. unfold reload_lists. stays_tac. Qed.

End Loaders.

#[export] Hint Extern 2 (stays _ (i_load_words _)) => apply i_load_words_stays; eauto with stays : stays.
#[export] Hint Extern 2 (stays _ (i_load_exclusions _)) => apply i_load_exclusions_stays; eauto with stays : stays.
#[export] Hint Extern 2 (stays _ (i_load_themed_words _)) =>
  apply i_load_themed_words_stays; eauto with stays : stays.
#[export] Hint Extern 2 (stays _ (reload_lists _)) => apply reload_lists_stays; eauto with stays : stays.


Section LoadersNoExit.
Context {S : Type} `{UniformSource S}.

Lemma i_load_words_no_exit (f : string) : no_exit (i_load_words (S := S) f).
Proof. unfold i_load_words. no_exit_tac. Qed.

Lemma reload_lists_no_exit (dir : string) : no_exit (reload_lists (S := S) dir).
Proof.
  unfold reload_lists, i_load_themed_words.
  no_exit_tac; apply i_load_words_no_exit.
Qed.

End LoadersNoExit.

(** ** Input consumption: the loop terminates *)

Section Consumption.
Context {S : Type} `{UniformSource S}.
Variable dir : string.
Variable listing : option (list string).

Lemma menu_branches_fewer :
  stays fewer_inputs (choice_single (S := S) dir) /\ stays fewer_inputs (choice_multiple (S := S)) /\
  stays fewer_inputs (choice_view (S := S)) /\ stays fewer_inputs (choice_manage (S := S) dir) /\
  stays fewer_inputs (settings_menu (S := S) dir listing).
Proof.
  unfold choice_single, choice_multiple, choice_view, choice_manage, settings_menu,
    settings_theme, settings_exclusions, settings_lengths, settings_pattern, settings_case,
    settings_separator, add_favorite_sm, gen, digit_int.
  repeat split; stays_tac.
Qed.

(** Every iteration of the loop that does not halt reads a line. *)
Lemma menu_iteration_reads : reads (menu_iteration (S := S) dir listing).
Proof.
  destruct menu_branches_fewer as [H1 [H2 [H3 [H4 H5]]]].
  unfold menu_iteration. apply reads_bind_r; [stays_tac|]. intros _.
  apply reads_bind_l; [apply ask_reads|]. intros choice. stays_tac.
Qed.

End Consumption.

(** ** Termination *)

Section Termination.
Context {S : Type} `{UniformSource S}.
Variable dir : string.
Variable listing : option (list string).

(** Once the loop has stopped, more fuel changes nothing. *)
Lemma run_session_more_fuel (f f' : nat) (m : machine S) (r : halt * machine S) :
  run_session dir listing f m = inl r -> f <= f' -> run_session dir listing f' m = inl r.
Proof.
  revert f' m. induction f as [|f IH]; intros f' m E Hle; [discriminate|].
  destruct f' as [|f']; [lia|]. cbn [run_session] in *. unfold sbind in *.
  destruct (menu_iteration dir listing m) as [[h m1]|[[] m1]]; [exact E|].
  apply IH; [exact E | lia].
Qed.

(** C36 (termination). The menu loop stops: every iteration that does not
    end the program reads at least one line, so from any state, with
    [n] lines of input left, the loop has ended (by "Exit", an uncaught
    exception, or [EOFError] when the input runs out) within [n + 1]
    iterations. *)
Theorem run_session_halts (m : machine S) :
  exists h m', run_session dir listing (Datatypes.S (length (m_inputs m))) m = inl (h, m').
Proof.
  remember (length (m_inputs m)) as n eqn:Hn. revert m Hn.
  induction n as [n IH] using (well_founded_induction lt_wf). intros m Hn.
  cbn [run_session]. unfold sbind.
  destruct (menu_iteration_reads dir listing) as [_ Hr].
  destruct (menu_iteration dir listing m) as [[h m1]|[[] m1]] eqn:E; [eauto|].
  specialize (Hr m tt m1 E).
  destruct (IH (length (m_inputs m1)) ltac:(lia) m1 eq_refl) as [h [m' E']].
  exists h, m'. apply (run_session_more_fuel _ _ _ _ E'). lia.
Qed.

End Termination.

(** ** The invariant of the loop *)

Create HintDb inv.

Lemma exclusion_words_lower (line : string) :
  Forall (fun w => py_lower w = w) (exclusion_words line).
Proof.
  unfold exclusion_words. apply Forall_map, List.Forall_forall. intros w _. apply py_lower_idem.
Qed.

Lemma add_exclusions_good (excl new : list string) :
  Forall good_exclusion excl -> Forall (fun w => py_lower w = w) new ->
  Forall good_exclusion (add_exclusions excl new).
Proof.
  unfold add_exclusions. intros He Hn. revert excl He.
  induction Hn as [|w ws Hw _ IH]; intros excl He; cbn [fold_left]; [exact He|].
  apply IH. destruct (negb (String.eqb w "") && negb (py_in w excl))%bool eqn:E; [|exact He].
  apply andb_true_iff in E as [E _]. apply negb_true_iff, String.eqb_neq in E.
  apply Forall_app. split; [exact He|]. repeat constructor; assumption.
Qed.

#[export] Hint Resolve add_exclusions_good exclusion_words_lower : inv.

(** Discharge the side conditions of the rules: a predicate on the state
    implies another, after a change of the variables of [main]. *)
Ltac inv_solve :=
  intros;
  repeat match goal with
  | H : _ /\ _ |- _ => destruct H
  | H : exists _, _ |- _ => destruct H
  | H : (_ && _)%bool = false |- _ => apply andb_false_iff in H as [H|H]
  | H : (_ <? _)%Z = false |- _ => apply Z.ltb_ge in H
  | H : (_ <? _)%Z = true |- _ => apply Z.ltb_lt in H
  end;
  subst; unfold shell_inv, excl_ok in *; cbn in *;
  solve [intuition (try lia; eauto with inv)].

Section InvariantProofs.
Context {S : Type} `{UniformSource S}.
Local Abbreviation hoare := (@hoare S _).
Variable dir : string.
Variable listing : option (list string).

Lemma gen_same (count : Z) : stays same_shell (gen (S := S) count).
Proof. unfold gen. stays_tac. Qed.

#[local] Hint Resolve gen_same : stays.

Lemma hoare_i_load_exclusions (P E : shell -> Prop) (f : string) :
  (forall st, P st -> E st) ->
  hoare P (i_load_exclusions f) (fun e st => P st /\ Forall good_exclusion e) E.
Proof.
  intros HE m Hm. unfold i_load_exclusions, sbind, get_world.
  destruct (negb (path_exists f (m_world m))); [cbn; auto|].
  destruct (open_read f (m_world m)) as [| |c]; cbn; try (split; auto).
  eapply List.Forall_impl; [|apply lowered_lines_good]. intros e [He [Hl _]]. split; assumption.
Qed.

Lemma hoare_digit_int (P E : shell -> Prop) (s : string) :
  (forall st, P st -> E st) ->
  hoare P (digit_int s) (fun k st => P st /\ (0 <= k)%Z) E.
Proof.
  intros HE m Hm. unfold digit_int.
  destruct (py_isdigit s) eqn:Hd; [|cbn; split; [exact Hm | lia]].
  destruct (py_int s) as [k|] eqn:Hk; cbn; [|auto].
  split; [exact Hm | exact (py_int_isdigit_nonneg s k Hd Hk)].
Qed.

(** Apply the rules along the program text. *)
Ltac hoare_tac :=
  repeat match goal with
  | |- hoare _ (sbind (sbind _ _) _) _ _ => apply hoare_sbind_assoc
  | |- hoare _ (let _ := _ in _) _ _ => cbv zeta
  | |- hoare _ (sbind (let _ := _ in _) _) _ _ => cbv zeta
  | |- hoare _ (if ?b then _ else _) _ _ => destruct b eqn:?
  | |- hoare _ (sbind (if ?b then _ else _) _) _ _ => destruct b eqn:?
  | |- hoare _ (match ?x with _ => _ end) _ _ => destruct x
  | |- hoare _ (sbind (match ?x with _ => _ end) _) _ _ => destruct x
  | |- hoare _ (sbind (sret _) _) _ _ => apply hoare_bind_ret; cbv beta
  | |- hoare _ (sbind (gets _) _) _ _ =>
      eapply hoare_bind; [apply hoare_gets | intros ?; cbv beta]
  | |- hoare _ (sbind (modify _) _) _ _ =>
      eapply hoare_bind; [apply (hoare_modify _ _ (fun _ => shell_inv)); inv_solve | intros ?; cbv beta]
  | |- hoare _ (sbind (on_session _) _) _ _ =>
      eapply hoare_bind; [apply (hoare_on_session _ _ (fun _ => shell_inv)); inv_solve | intros ?; cbv beta]
  | |- hoare _ (sbind (i_load_exclusions _) _) _ _ =>
      eapply hoare_bind; [apply hoare_i_load_exclusions; inv_solve | intros ?; cbv beta]
  | |- hoare _ (sbind _ _) _ _ =>
      eapply hoare_bind; [apply hoare_frame; [solve [eauto with stays] | inv_solve] | intros ?; cbv beta]
  | |- hoare _ (scatch _ _ _) _ _ =>
      eapply (hoare_catch _ _ _ _ _ _ shell_inv); [| intros ?; cbv beta | inv_solve]
  | |- hoare _ (modify _) _ _ => apply hoare_modify; inv_solve
  | |- hoare _ (on_session _) _ _ => apply hoare_on_session; inv_solve
  | |- hoare _ _ _ _ => apply hoare_pure; [solve [eauto with stays] | inv_solve | inv_solve]
  end.

(** "5. Configure word length limits": the state between the two
    answers may have unordered limits, but it is left with ordered ones,
    or with none after the [ValueError] of a superscript digit. *)
Lemma settings_lengths_inv :
  hoare shell_inv (settings_lengths (S := S)) (fun _ => shell_inv) excl_ok.
Proof.
  unfold settings_lengths. eapply (hoare_catch _ _ _ _ _ _ excl_ok); [| intros ?; hoare_tac | inv_solve].
  eapply hoare_bind; [apply hoare_frame; [solve [eauto with stays] | inv_solve] | intros ?; cbv beta].
  eapply hoare_bind; [apply hoare_digit_int; inv_solve | intros mn; cbv beta].
  eapply hoare_bind; [apply hoare_gets | intros ?; cbv beta].
  eapply hoare_bind;
    [apply (hoare_modify _ _ (fun _ st => excl_ok st /\ sh_min_length st = mn)); inv_solve
    | intros ?; cbv beta].
  eapply hoare_bind; [apply hoare_frame; [solve [eauto with stays] | inv_solve] | intros ?; cbv beta].
  eapply hoare_bind; [apply hoare_digit_int; inv_solve | intros mx; cbv beta].
  eapply hoare_bind;
    [apply (hoare_modify _ _ (fun _ st => excl_ok st /\ sh_min_length st = mn /\ sh_max_length st = mx));
     inv_solve | intros ?; cbv beta].
  hoare_tac.
Qed.

(** Every iteration of the loop that returns keeps [shell_inv]; one that
    halts leaves the exclusions good and the limits non-negative. *)
Lemma menu_iteration_inv :
  hoare shell_inv (menu_iteration dir listing) (fun _ => shell_inv) excl_ok.
Proof.
  unfold menu_iteration, choice_single, choice_multiple, choice_view, choice_manage,
    settings_menu, settings_theme, settings_exclusions, settings_pattern, settings_case,
    settings_separator, add_favorite_sm.
  hoare_tac; apply settings_lengths_inv.
Qed.

Lemma run_session_inv (fuel : nat) :
  hoare shell_inv (run_session dir listing fuel) (fun _ => shell_inv) excl_ok.
Proof.
  induction fuel as [|f IH]; cbn [run_session].
  - apply hoare_pure; [apply stays_ret, _ | inv_solve | inv_solve].
  - eapply hoare_bind; [apply menu_iteration_inv | intros ?; exact IH].
Qed.

Lemma startup_inv (themes_exists : bool) :
  hoare shell_inv (startup dir themes_exists) (fun _ => shell_inv) excl_ok.
Proof. unfold startup. hoare_tac. Qed.

(** C35 (invariant). Started with the initial values of its variables,
    the interactive program keeps its exclusions non-empty and lower case
    and its word-length limits non-negative in every state it ends in,
    and, in every state it returns in (after [main] returned or at the
    top of the loop when the fuel is spent), the two limits, when both
    are active, are ordered.  All state changes of the menu count:
    loading, theme switches, adding and clearing exclusions, favorites,
    pattern, case, separator and the length limits. *)
Theorem program_inv (themes_exists : bool) (fuel : nat) (m : machine S) :
  m_shell m = initial_shell ->
  match program dir listing themes_exists fuel m with
  | inr (_, m') => shell_inv (m_shell m')
  | inl (_, m') => excl_ok (m_shell m')
  end.
Proof.
  revert m. change (hoare (fun st => st = initial_shell) (program dir listing themes_exists fuel)
                     (fun _ => shell_inv) excl_ok).
  apply hoare_weaken with (P' := shell_inv); [inv_solve|].
  unfold program. eapply hoare_bind; [apply hoare_frame; [apply same_say | inv_solve]|intros ?].
  eapply hoare_bind; [apply startup_inv | intros go]. destruct go.
  - apply run_session_inv.
  - hoare_tac.
Qed.

End InvariantProofs.

(** ** Title case with an empty separator *)

Section EmptySeparator.
Context {S : Type} `{UniformSource S}.

Lemma gen_title_empty (count : Z) (m : machine S) :
  title_empty_ready (m_shell m) -> (1 <= count)%Z ->
  exists raw r, first_raw_name (m_shell m) (m_rand m) = inr (raw, r) /\
    gen count m = inl (Crash (Raised ValueError), mk_machine (m_shell m) r (m_world m) (m_inputs m)).
Proof.
  intros [Hc [Hs [HA HN]]] Hcount. unfold gen, sbind, gets, draw, first_raw_name. cbn.
  rewrite Hs, interactive_checks_pass by assumption.
  destruct (Z.to_nat count) as [|k] eqn:Ek; [lia|]. cbn [repeat_m].
  destruct (title_empty_step (sh_pattern (m_shell m)) _ _ _ Hc HA HN (m_rand m)) as [raw [r [Er [E _]]]].
  exists raw, r. split; [exact Er|]. unfold pbind. now rewrite E.
Qed.

Variable dir : string.
Variable listing : option (list string).

Lemma choice_single_title_empty (m : machine S) :
  title_empty_ready (m_shell m) ->
  exists raw r, first_raw_name (m_shell m) (m_rand m) = inr (raw, r) /\
    choice_single dir m = inl (Crash (Raised ValueError), mk_machine (m_shell m) r (m_world m) (m_inputs m)).
Proof.
  intros Hr. unfold choice_single, sbind.
  destruct (gen_title_empty 1 m Hr ltac:(lia)) as [raw [r [Er E]]]. rewrite E. eauto.
Qed.

(** C37 (error). Choosing "5. Change settings", "6. Configure separator",
    "5. No separator" and then "1. Generate a single codename" ends the
    program with an uncaught [ValueError] (from [str.split("")] in title
    case) whenever the case style is title case and words pass the
    filters: the separator menu offers a setting that the generator cannot
    use, and the loop (which catches only [KeyboardInterrupt]) does not
    survive it, whatever input follows and however many iterations are
    left. *)
Theorem separator_menu_crash (m : machine S) (rest : list string) :
  Spec.classify_case (sh_case (m_shell m)) = Spec.Title ->
  length_filter (sh_min_length (m_shell m)) (sh_max_length (m_shell m))
    (filter_excluded_words (sh_adjectives (m_shell m)) (sh_exclusions (m_shell m))) <> [] ->
  length_filter (sh_min_length (m_shell m)) (sh_max_length (m_shell m))
    (filter_excluded_words (sh_nouns (m_shell m)) (sh_exclusions (m_shell m))) <> [] ->
  m_inputs m = ["5"; "6"; "5"; "1"] ++ rest ->
  exists w r, forall fuel, 2 <= fuel ->
    run_session dir listing fuel m =
      inl (Crash (Raised ValueError), mk_machine (set_separator "" (m_shell m)) r w rest).
Proof.
  intros Hc HA HN Hin. destruct m as [st r w ins]. cbn in *. subst ins.
  assert (Hr : title_empty_ready (set_separator "" st)) by (repeat split; assumption).
  destruct (gen_title_empty 1 (mk_machine (set_separator "" st) r w rest) Hr ltac:(lia))
    as [raw [r1 [Er _]]]. cbn [m_shell m_rand] in Er.
  eexists. exists r1. intros fuel Hf.
  apply (run_session_more_fuel dir listing 2); [|exact Hf].
  cbn [run_session]. unfold menu_iteration, settings_menu.
  unfold sbind, say_all, on_world, ask, gets, modify, say. cbn -[choice_single print fold_left].
  match goal with |- context [choice_single dir ?m'] =>
    destruct (choice_single_title_empty m' Hr) as [raw' [r' [Er' E]]] end.
  cbn [m_shell m_rand] in Er'. rewrite Er in Er'. injection Er' as <- <-.
  rewrite E. reflexivity.
Qed.

(** C38 (error). In "2. Generate multiple codenames" with title case and an
    empty separator, a valid positive count is answered with "Please
    enter a valid number": the [except ValueError] meant for [int()]
    also catches the generator's [ValueError], so the user is told the
    count was wrong.  Nothing else is written, the settings are
    unchanged, and the random source is where the draws of the first raw
    name left it. *)
Theorem multiple_title_empty_message (m : machine S) (line fmt : string) (rest : list string) (k : Z) :
  title_empty_ready (m_shell m) -> py_int line = Some k -> (1 <= k)%Z ->
  m_inputs m = line :: fmt :: rest ->
  exists raw r, first_raw_name (m_shell m) (m_rand m) = inr (raw, r) /\
  choice_multiple m =
    inr (tt, mk_machine (m_shell m) r
               (print "Please enter a valid number"
                  (write_out "Output format (text/json/csv/html) [text]: "
                     (write_out "How many codenames do you want to generate? " (m_world m))))
               rest).
Proof.
  intros Hr Hk Hk1 Hin. destruct m as [st r w ins]. cbn in *. subst ins.
  destruct (gen_title_empty k (mk_machine st r w rest) Hr Hk1) as [raw [r1 [Er _]]].
  cbn [m_shell m_rand] in Er. exists raw, r1. split; [exact Er|].
  unfold choice_multiple, scatch, sbind, ask. cbn -[gen print write_out].
  rewrite Hk. replace (k <? 1)%Z with false by lia. cbn -[gen print write_out].
  match goal with |- context [gen k ?m'] =>
    destruct (gen_title_empty k m' Hr Hk1) as [raw' [r' [Er' E]]] end.
  cbn [m_shell m_rand] in Er'. rewrite Er in Er'. injection Er' as <- <-.
  rewrite E. reflexivity.
Qed.

End EmptySeparator.

Lemma multiple_title_empty_message_witness :
  exists raw r, first_raw_name (set_separator "" demo_shell) [0]%nat = inr (raw, r) /\
  choice_multiple (mk_machine (set_separator "" demo_shell) [0]%nat empty_world ["3"; "text"]) =
    inr (tt, mk_machine (set_separator "" demo_shell) r
               (print "Please enter a valid number"
                  (write_out "Output format (text/json/csv/html) [text]: "
                     (write_out "How many codenames do you want to generate? " empty_world)))
               []).
Proof.
  apply (multiple_title_empty_message (S := list nat)
           (mk_machine (set_separator "" demo_shell) [0]%nat empty_world ["3"; "text"])
           "3" "text" [] 3);
    [repeat split; (reflexivity || discriminate) | reflexivity | lia | reflexivity].
Defined.

Lemma separator_menu_crash_witness :
  exists w r, forall fuel, 2 <= fuel ->
    run_session "/app" None fuel
      (mk_machine demo_shell [0]%nat empty_world ["5"; "6"; "5"; "1"]) =
      inl (Crash (Raised ValueError), mk_machine (set_separator "" demo_shell) r w []).
Proof.
  apply (separator_menu_crash (S := list nat) "/app" None
    (mk_machine demo_shell [0]%nat empty_world ["5"; "6"; "5"; "1"]) []);
    [reflexivity | discriminate | discriminate | reflexivity].
Defined.

Lemma program_inv_witness :
  m_shell (mk_machine initial_shell [0]%nat empty_world ["7"]) = initial_shell /\
  match program "/app" None true 3 (mk_machine initial_shell [0]%nat empty_world ["7"]) with
  | inr (_, m') => shell_inv (m_shell m')
  | inl (_, m') => excl_ok (m_shell m')
  end.
Proof.
  split; [reflexivity|].
  apply (program_inv (S := list nat) "/app" None true 3
           (mk_machine initial_shell [0]%nat empty_world ["7"])).
  reflexivity.
Defined.

(** ** Adding exclusions *)

Section Exclusions.
Context {S : Type} `{UniformSource S}.
Variable dir : string.

(** C39 (functional). "2. Add exclusion words" of the exclusions menu, when
    the exclusions file can be written: the exclusions become
    [add_exclusions] of the old ones and the comma-separated words
    (stripped, lower-cased, blank and known ones skipped), the file
    holds them one per line, the shell goes on (an unreadable word file
    is reported, not raised), and the message reports the number of
    words typed, [len(new_words)], blank and duplicate ones included. *)
Theorem exclusions_add_spec (m : machine S) (line : string) (rest : list string) :
  m_inputs m = "2" :: line :: rest ->
  exclusions_file dir ∉ locked (m_world m) ->
  exists m', settings_exclusions dir m = inr (tt, m') /\
    sh_exclusions (m_shell m') = add_exclusions (sh_exclusions (m_shell m)) (exclusion_words line) /\
    files (m_world m') !! exclusions_file dir =
      Some (favorites_text (add_exclusions (sh_exclusions (m_shell m)) (exclusion_words line))) /\
    In (("Added " +++ py_str_nat (length (exclusion_words line)) +++ " words to exclusions") +++ nl)
       (stdout (m_world m')).
Proof.
  intros Hin Hl. destruct m as [st r w ins]. cbn in Hin, Hl. subst ins.
  unfold settings_exclusions. cbn -[reload_lists py_str_nat exclusions_file scatch].
  unfold scatch. cbn -[reload_lists py_str_nat exclusions_file].
  rewrite decide_False by exact Hl.
  cbn [sbind on_world say]. unfold sbind at 1. cbn [m_shell m_world m_rand m_inputs].
  assert (Hp : stays only_prints (reload_lists (S := S) dir)) by eauto with stays.
  assert (Hs : stays same_shell (reload_lists (S := S) dir)) by eauto with stays.
  match goal with |- context [reload_lists dir ?m2] =>
    specialize (Hp m2); specialize (Hs m2); pose proof (reload_lists_no_exit dir m2) as Hx;
    destruct (reload_lists dir m2) as [[h m3]|[[a n] m3]] eqn:E
  end;
  unfold only_prints, same_shell in Hp, Hs; cbn [final_machine m_world m_shell] in Hp, Hs;
  destruct Hp as [Hf [_ [_ [extra Ho]]]].
  - destruct h as [|e]; [exfalso; exact (Hx m3 eq_refl)|].
    eexists. split; [reflexivity|]. cbn [m_shell m_world say on_world].
    rewrite Hs. split; [reflexivity|]. split.
    + cbn [files print write_out]. rewrite Hf. cbn [files print write_out set_file].
      apply lookup_insert_eq.
    + apply in_stdout_grow. rewrite Ho. apply in_stdout_grow. apply in_stdout_print.
  - eexists. split; [reflexivity|]. cbn [m_shell m_world say on_world modify set_lists].
    rewrite Hs. split; [reflexivity|]. split.
    + cbn [files print write_out]. rewrite Hf. cbn [files print write_out set_file].
      apply lookup_insert_eq.
    + apply in_stdout_grow. rewrite Ho. apply in_stdout_grow. apply in_stdout_print.
Qed.

End Exclusions.

(** The message counts what was typed, not what was added: three words
    typed, one exclusion added. *)
Example exclusions_added_count :
  length (exclusion_words "Cat, cat, ") = 3 /\ add_exclusions [] (exclusion_words "Cat, cat, ") = ["cat"].
Proof. split; reflexivity. Qed.

Lemma exclusions_add_spec_witness :
  exists m', settings_exclusions "/app" (mk_machine demo_shell [0]%nat empty_world ["2"; "Cat, cat, "]) =
               inr (tt, m') /\
    sh_exclusions (m_shell m') = add_exclusions [] (exclusion_words "Cat, cat, ") /\
    files (m_world m') !! exclusions_file "/app" =
      Some (favorites_text (add_exclusions [] (exclusion_words "Cat, cat, "))) /\
    In (("Added " +++ py_str_nat (length (exclusion_words "Cat, cat, ")) +++ " words to exclusions") +++ nl)
       (stdout (m_world m')).
Proof.
  apply (exclusions_add_spec (S := list nat) "/app"
           (mk_machine demo_shell [0]%nat empty_world ["2"; "Cat, cat, "]) "Cat, cat, " []).
  - reflexivity.
  - apply not_elem_of_empty.
Defined.

(** ** The favorites menu refines the favorites step of Favorites.v *)

Section ManageRefines.
Context {S : Type} `{UniformSource S}.
Variable dir : string.

(** "4. Manage favorites" with a non-empty list does what [fav_step]
    does with the action typed: the same list and the same files, the
    rest of the shell unchanged, up to the prompts and listings printed. *)
Lemma on_session_run (g : session -> session) (st : shell) (r : S) (w : world) (ins : list string) :
  on_session g (mk_machine st r w ins) =
  inr (tt, mk_machine (set_favorites (fst (g (sh_favorites st, w))) st) r (snd (g (sh_favorites st, w))) ins).
Proof. unfold on_session. cbn. now destruct (g _). Qed.

Lemma manage_action_inv (ins : list string) (a : fav_action) (rest : list string) :
  manage_action ins = Some (a, rest) ->
  (exists name, a = FavAdd name /\ ins = "1" :: name :: rest) \/
  (exists line, a = FavRemove line /\ ins = "2" :: line :: rest) \/
  (exists fmt fn, a = FavExport fmt fn /\ ins = "3" :: fmt :: fn :: rest).
Proof.
  destruct ins as [|c [|l ins]]; cbn; try discriminate.
  destruct (String.eqb_spec c "1") as [->|_]; [intros [= <- <-]; left; eauto|].
  destruct (String.eqb_spec c "2") as [->|_]; [intros [= <- <-]; right; left; eauto|].
  destruct (String.eqb_spec c "3") as [->|_]; [|discriminate].
  destruct ins as [|fn ins]; [discriminate|]. intros [= <- <-]. right; right; eauto.
Qed.

(** C13 (refinement). "4. Manage favorites" with a non-empty list does
    what the favorites step [fav_step] of Favorites.v does with the
    action typed (add, remove by number, export): it returns with the
    list [fav_step] computes, the same files and unwritable paths, the
    other variables of [main] unchanged and the lines of the action
    consumed; only the menu, the prompts and the listing it prints
    differ.  So the invariant of [fav_run] holds of the menu itself. *)
Theorem choice_manage_refines (m : machine S) (a : fav_action) (rest : list string) :
  sh_favorites (m_shell m) <> [] -> manage_action (m_inputs m) = Some (a, rest) ->
  exists m', choice_manage dir m = inr (tt, m') /\ m_inputs m' = rest /\
    m_shell m' = set_favorites (fst (fav_step (favorites_file dir) a (sh_favorites (m_shell m), m_world m)))
                               (m_shell m) /\
    same_store (m_world m') (snd (fav_step (favorites_file dir) a (sh_favorites (m_shell m), m_world m))).
Proof.
  destruct m as [st r w ins]. cbn [m_shell m_inputs m_world]. intros Hne Ha.
  destruct (sh_favorites st) as [|f fs] eqn:Ef; [congruence|].
  destruct (manage_action_inv _ _ _ Ha) as [[name [-> ->]]|[[line [-> ->]]|[fmt [fn [-> ->]]]]].
  all: unfold choice_manage, sbind at 1, gets; cbn [m_shell]; rewrite Ef.
  all: cbn -[fav_step interactive_add interactive_remove interactive_export show_favorites
             favorites_file print write_out].
  all: try unfold add_favorite_sm; rewrite ?on_session_run; try (unfold on_world; cbn [m_world m_shell]).
  all: eexists; (split; [reflexivity|]); cbn [m_inputs m_shell m_world]; rewrite ?Ef;
    (split; [reflexivity|]); cbn [fav_step fst snd].
  - match goal with |- set_favorites (fst (interactive_add ?fn ?nm (?l, ?W1))) _ = _ /\ _ =>
      destruct (interactive_add_store fn nm l W1 w) as [E1 E2]; [split; reflexivity|]
    end. rewrite E1. split; [reflexivity | exact E2].
  - match goal with |- set_favorites (fst (interactive_remove ?fn ?nm (?l, ?W1))) _ = _ /\ _ =>
      destruct (interactive_remove_store fn nm l W1 (show_favorites l w)) as [E1 E2]
    end.
    + etransitivity; [apply same_store_write|]. etransitivity; [apply same_store_show|].
      etransitivity; [|symmetry; apply same_store_show]. split; reflexivity.
    + rewrite E1. split; [reflexivity | exact E2].
  - split; [rewrite <- Ef; now destruct st|]. apply interactive_export_store. split; reflexivity.
Qed.

End ManageRefines.

Lemma choice_manage_refines_witness :
  exists m', choice_manage "/app" (mk_machine (set_favorites ["Brave Tiger"] demo_shell) [0]%nat
                                      empty_world ["1"; "Silent Fox"]) = inr (tt, m') /\
    m_inputs m' = [] /\
    m_shell m' = set_favorites (fst (fav_step (favorites_file "/app") (FavAdd "Silent Fox")
                                       (["Brave Tiger"], empty_world)))
                               (set_favorites ["Brave Tiger"] demo_shell) /\
    same_store (m_world m') (snd (fav_step (favorites_file "/app") (FavAdd "Silent Fox")
                                   (["Brave Tiger"], empty_world))).
Proof.
  apply (choice_manage_refines (S := list nat) "/app"
           (mk_machine (set_favorites ["Brave Tiger"] demo_shell) [0]%nat empty_world ["1"; "Silent Fox"])
           (FavAdd "Silent Fox") []); [discriminate | reflexivity].
Defined.
